(** * Local Food Wastage Management System: the query and filter layer

    A shallow embedding of [app.py]: the relational store behind the
    dashboard, the report queries of the catalogue that the specification
    singles out (3, 5, 10 and 14), the sidebar's WHERE builder, the
    memoised read and the committing write of the data access layer, and
    the nine CRUD handlers.  Definitions come first, theorems after. *)

From Stdlib Require Import ZArith List String Ascii Bool Lia QArith.
From Stdlib Require Import Permutation Sorted.
From Stdlib Require OrderedTypeEx DecimalString DecimalZ.
Import ListNotations.

Local Open Scope string_scope.
Local Open Scope Z_scope.

(** ** Values and rows *)

(** What sqlite3 binds to a [?] and what a column holds. *)
Inductive sqlval : Type :=
| VNull
| VInt (z : Z)
| VText (s : string).

Definition sqlval_eqb (a b : sqlval) : bool :=
  match a, b with
  | VInt x, VInt y => x =? y
  | VText x, VText y => (x =? y)%string
  | _, _ => false
  end.

Definition of_text (o : option string) : sqlval :=
  match o with Some s => VText s | None => VNull end.

(** [datetime.date]: a calendar date, carried by its proleptic Gregorian
    day number as [date.toordinal()] gives it.  The text 'YYYY-MM-DD' that
    [str(exp)] stores in the column orders exactly as the day number does. *)
Record date : Type := { toordinal : Z }.

(** [providers(Provider_ID PK, Name, Type, Address, City, Contact)] *)
Module Provider.
Record t : Type := {
  Provider_ID : Z;
  Name : string;
  Type_ : string;
  Address : string;
  City : string;
  Contact : option string
}.
End Provider.

(** [receivers(Receiver_ID PK, Name, City)] *)
Module Receiver.
Record t : Type := {
  Receiver_ID : Z;
  Name : string;
  City : string
}.
End Receiver.

(** [food_listings(Food_ID PK, Food_Name, Quantity, Expiry_Date, Provider_ID,
    Provider_Type, Location, Food_Type, Meal_Type, Days_To_Expiry,
    Quantity_Category)].  The three columns the sidebar reads with
    [IS NOT NULL] are nullable. *)
Module Food.
Record t : Type := {
  Food_ID : Z;
  Food_Name : string;
  Quantity : Z;
  Expiry_Date : date;
  Provider_ID : Z;
  Provider_Type : string;
  Location : option string;
  Food_Type : option string;
  Meal_Type : option string;
  Days_To_Expiry : Z;
  Quantity_Category : string
}.
End Food.

(** [claims(Claim_ID PK, Food_ID, Receiver_ID, Status)] *)
Module Claim.
Record t : Type := {
  Claim_ID : Z;
  Food_ID : Z;
  Receiver_ID : Z;
  Status : string
}.
End Claim.

(** The database file: four tables, rows in rowid order. *)
Record db : Type := {
  providers : list Provider.t;
  receivers : list Receiver.t;
  food_listings : list Food.t;
  claims : list Claim.t
}.

(** ** Time *)

(** pandas keeps a [Timestamp] and a [Timedelta] as a count of nanoseconds;
    a naive timestamp counts from 1970-01-01T00:00. *)
Definition NS_PER_DAY : Z := 86400000000000.
Definition EPOCH_ORDINAL : Z := 719163.

Record Timestamp : Type := { value : Z }.
Record Timedelta : Type := { delta : Z }.

(** [pd.to_datetime(d)] for a [datetime.date]: midnight of that day. *)
Definition to_datetime (d : date) : Timestamp :=
  {| value := (toordinal d - EPOCH_ORDINAL) * NS_PER_DAY |}.

(** [a - b] on timestamps. *)
Definition Timestamp_sub (a b : Timestamp) : Timedelta :=
  {| delta := value a - value b |}.

(** [Timedelta.days]: whole days, rounded towards minus infinity (the
    remainder is kept non-negative in [seconds] and below). *)
Definition days (td : Timedelta) : Z := delta td / NS_PER_DAY.

(** The calendar day a naive timestamp falls on, and its time of day. *)
Definition Timestamp_date (ts : Timestamp) : date :=
  {| toordinal := value ts / NS_PER_DAY + EPOCH_ORDINAL |}.
Definition time_of_day (ts : Timestamp) : Z := value ts mod NS_PER_DAY.

(** SQLite keeps a date and time as [iJD], milliseconds since the Julian
    epoch (noon), and [julianday] returns [iJD / 86400000.0].  The real
    numbers of SQL are carried by rationals here.  For the comparison of
    query 5 nothing is lost: the day number of a date is a multiple of one
    half, the difference of two day numbers of this size is exact in a
    double, and the rounding of ['now'], some microseconds, is far below
    the millisecond that separates two instants. *)
Definition MS_PER_DAY : Z := 86400000.

Definition iJD_of_date (d : date) : Z :=
  (2 * toordinal d + 3442849) * 43200000.

Definition julianday (iJD : Z) : Q := iJD # 86400000.

(** The UTC calendar day of an [iJD] instant. *)
Definition utc_date (iJD : Z) : date :=
  {| toordinal := (iJD + 43200000) / MS_PER_DAY - 1721425 |}.

(** ** Relational operators *)

Section Relational.
Context {A B K : Type}.

(** [l JOIN r ON on] *)
Definition JOIN (on : A -> B -> bool) (l : list A) (r : list B)
  : list (A * B) :=
  flat_map (fun a => map (pair a) (filter (on a) r)) l.

(** [l LEFT JOIN r ON on]: a left row with no partner is kept once, with
    NULLs for the right side. *)
Definition pad (a : A) (ms : list B) : list (A * option B) :=
  match ms with
  | [] => [(a, None)]
  | _ :: _ => map (fun b => (a, Some b)) ms
  end.

Definition LEFT_JOIN (on : A -> B -> bool) (l : list A) (r : list B)
  : list (A * option B) :=
  flat_map (fun a => pad a (filter (on a) r)) l.

(** The keys of a list of rows, each once, in order of first appearance. *)
Fixpoint distinct (eqb : K -> K -> bool) (ks : list K) : list K :=
  match ks with
  | [] => []
  | k :: rest =>
      k :: filter (fun k' => negb (eqb k' k)) (distinct eqb rest)
  end.

(** [GROUP BY key]: one group per distinct key, holding its rows. *)
Definition GROUP_BY (eqb : K -> K -> bool) (key : A -> K) (rows : list A)
  : list (K * list A) :=
  map (fun k => (k, filter (fun r => eqb (key r) k) rows))
      (distinct eqb (map key rows)).

(** [ORDER BY]: a stable insertion sort under a boolean order. *)
Fixpoint insert_by (leb : A -> A -> bool) (x : A) (l : list A) : list A :=
  match l with
  | [] => [x]
  | y :: t => if leb x y then x :: l else y :: insert_by leb x t
  end.

Definition ORDER_BY (leb : A -> A -> bool) (l : list A) : list A :=
  fold_right (insert_by leb) [] l.
End Relational.

(** [COUNT(expr)]: the rows where [expr] is not NULL. *)
Definition COUNT {V : Type} (vals : list (option V)) : Z :=
  Z.of_nat (List.length (filter (fun v => match v with Some _ => true | None => false end) vals)).

(** [COUNT(DISTINCT expr)] over an integer column. *)
Definition COUNT_DISTINCT (vals : list Z) : Z :=
  Z.of_nat (List.length (distinct Z.eqb vals)).

(** [SUM(expr)] over integers. *)
Definition SUM (vals : list Z) : Z := fold_right Z.add 0 vals.

(** [NULLIF(x, y)] *)
Definition NULLIF (x y : Z) : option Z := if x =? y then None else Some x.

(** [a / b] on reals: NULL when an operand is NULL (SQLite also gives NULL,
    not an error, for a zero divisor). *)
Definition sql_div (a : Q) (b : option Z) : option Q :=
  match b with
  | None => None
  | Some n => if n =? 0 then None else Some (a / inject_Z n)%Q
  end.

(** [ROUND(x, n)]: to [n] decimals, halves away from zero. *)
Definition round_places (x : Q) (n : nat) : Q :=
  let s := 10 ^ Z.of_nat n in
  let num := Qnum x * s in
  let den := Zpos (Qden x) in
  (Z.sgn num * ((2 * Z.abs num + den) / (2 * den))) # (Z.to_pos s).

Definition ROUND (x : option Q) (n : nat) : option Q :=
  option_map (fun q => round_places q n) x.

(** ** The query catalogue *)

Definition expiry_leb (a b : Food.t) : bool :=
  toordinal (Food.Expiry_Date a) <=? toordinal (Food.Expiry_Date b).

(** 3. [SELECT * FROM food_listings ORDER BY Expiry_Date] *)
Definition query3 (d : db) : list Food.t :=
  ORDER_BY expiry_leb (food_listings d).

(** The columns query 5 selects. *)
Record expiring_row : Type := {
  e_Food_ID : Z;
  e_Food_Name : string;
  e_Quantity : Z;
  e_Expiry_Date : date;
  e_Location : option string;
  e_Food_Type : option string;
  e_Meal_Type : option string;
  e_Provider_ID : Z
}.

Definition expiring_columns (f : Food.t) : expiring_row :=
  {| e_Food_ID := Food.Food_ID f;
     e_Food_Name := Food.Food_Name f;
     e_Quantity := Food.Quantity f;
     e_Expiry_Date := Food.Expiry_Date f;
     e_Location := Food.Location f;
     e_Food_Type := Food.Food_Type f;
     e_Meal_Type := Food.Meal_Type f;
     e_Provider_ID := Food.Provider_ID f |}.

(** [julianday(Expiry_Date) - julianday('now') <= ?] *)
Definition expiring_within (now : Z) (N : Z) (f : Food.t) : bool :=
  Qle_bool (julianday (iJD_of_date (Food.Expiry_Date f)) - julianday now)
           (inject_Z N).

(** 5. Expiring soon: [now] is the instant SQLite reads for ['now']. *)
Definition query5_rows (now : Z) (N : Z) (d : db) : list Food.t :=
  ORDER_BY expiry_leb (filter (expiring_within now N) (food_listings d)).

Definition query5 (now : Z) (N : Z) (d : db) : list expiring_row :=
  map expiring_columns (query5_rows now N d).

(** The key [p.Provider_ID, p.Name] both grouped queries use. *)
Definition provider_key (p : Provider.t) : Z * string :=
  (Provider.Provider_ID p, Provider.Name p).

Definition key_eqb (a b : Z * string) : bool :=
  (fst a =? fst b) && (snd a =? snd b)%string.

(** [CASE WHEN c.Status='Completed' THEN 1 ELSE 0 END]; a NULL status
    (no claim joined) takes the ELSE branch. *)
Definition completed (c : option Claim.t) : Z :=
  match c with
  | Some c => if (Claim.Status c =? "Completed")%string then 1 else 0
  | None => 0
  end.

(** [ORDER BY Fulfillment_Rate DESC]: NULL is SQLite's smallest value, so
    it comes last in descending order. *)
Definition rate_desc_leb (a b : string * option Q) : bool :=
  match snd a, snd b with
  | _, None => true
  | None, Some _ => false
  | Some x, Some y => Qle_bool y x
  end.

(** The joined rows of query 10. *)
Definition query10_joined (d : db) : list (Provider.t * Food.t * option Claim.t) :=
  LEFT_JOIN (fun pf c => Food.Food_ID (snd pf) =? Claim.Food_ID c)
    (JOIN (fun p f => Provider.Provider_ID p =? Food.Provider_ID f)
          (providers d) (food_listings d))
    (claims d).

Definition fulfillment_rate (rows : list (Provider.t * Food.t * option Claim.t))
  : option Q :=
  ROUND (sql_div (100 * inject_Z (SUM (map (fun r => completed (snd r)) rows)))
                 (NULLIF (COUNT_DISTINCT (map (fun r => Food.Food_ID (snd (fst r))) rows)) 0))
        2.

(** 10. Claim fulfillment rate per provider (%) *)
Definition query10 (d : db) : list (string * option Q) :=
  ORDER_BY rate_desc_leb
    (map (fun g => (snd (fst g), fulfillment_rate (snd g)))
         (GROUP_BY key_eqb (fun r => provider_key (fst (fst r)))
                   (query10_joined d))).

(** The joined rows of query 14. *)
Definition query14_joined (d : db)
  : list (Provider.t * option Food.t * option Claim.t) :=
  LEFT_JOIN (fun pf c =>
               match snd pf with
               | Some f => Food.Food_ID f =? Claim.Food_ID c
               | None => false
               end)
    (LEFT_JOIN (fun p f => Provider.Provider_ID p =? Food.Provider_ID f)
               (providers d) (food_listings d))
    (claims d).

Definition name_leb (a b : Z * string) : bool := (snd a <=? snd b)%string.

(** 14. Providers with zero claims *)
Definition query14 (d : db) : list (Z * string) :=
  ORDER_BY name_leb
    (map fst
       (filter (fun g => COUNT (map (fun r => option_map Claim.Claim_ID (snd r)) (snd g)) =? 0)
               (GROUP_BY key_eqb (fun r => provider_key (fst (fst r)))
                         (query14_joined d)))).

(** The rate in the words of the specification: the listings a provider
    owns, the claims made on a listing, the provider's claims with status
    Completed, the number of distinct listings owned, and 100 times the one
    over the other, to two decimals. *)
Definition owned (d : db) (p : Provider.t) : list Food.t :=
  filter (fun f => Provider.Provider_ID p =? Food.Provider_ID f) (food_listings d).

Definition claims_on (d : db) (f : Food.t) : list Claim.t :=
  filter (fun c => Food.Food_ID f =? Claim.Food_ID c) (claims d).

Definition is_completed (c : Claim.t) : bool :=
  (Claim.Status c =? "Completed")%string.

Definition completed_claims (d : db) (p : Provider.t) : Z :=
  SUM (map (fun f => Z.of_nat (List.length (filter is_completed (claims_on d f))))
           (owned d p)).

Definition distinct_listings (d : db) (p : Provider.t) : Z :=
  COUNT_DISTINCT (map Food.Food_ID (owned d p)).

Definition rate_of (d : db) (p : Provider.t) : Q :=
  round_places
    (100 * inject_Z (completed_claims d p) / inject_Z (distinct_listings d p)) 2.

(** The rows query 10 joins for one provider. *)
Definition provider_rows (d : db) (p : Provider.t)
  : list (Provider.t * Food.t * option Claim.t) :=
  flat_map (fun f => pad (p, f) (claims_on d f)) (owned d p).

(** ** The sidebar's WHERE builder *)

(** Python truth of a list and of a string: non-empty. *)
Definition truthy {A : Type} (l : list A) : bool :=
  match l with [] => false | _ :: _ => true end.

Definition nonblank (s : string) : bool :=
  match s with EmptyString => false | String _ _ => true end.

(** [','.join('?' for _ in vals)] *)
Definition placeholders {A : Type} (vals : list A) : string :=
  String.concat "," (map (fun _ => "?") vals).

(** [provider_list[provider_list["Name"].isin(names)]["Provider_ID"].tolist()] *)
Definition isin (names : list string) (n : string) : bool :=
  existsb (String.eqb n) names.

Definition prov_ids (provider_list : list (Z * string)) (names : list string)
  : list Z :=
  map fst (filter (fun r => isin names (snd r)) provider_list).

(** One [where_clauses.append(f"col IN (...)")] with its [params.extend]. *)
Definition add_IN {A : Type} (col : string) (vals : list A) (bound : A -> sqlval)
  (st : list string * list sqlval) : list string * list sqlval :=
  (List.app (fst st) [col ++ " IN (" ++ placeholders vals ++ ")"],
   List.app (snd st) (map bound vals)).

(** Lines 156-176: the pair [(WHERE, params)]. *)
Definition build_where
  (city_filter provider_filter_name : list string)
  (provider_list : list (Z * string))
  (food_type_filter meal_type_filter : list string)
  : string * list sqlval :=
  let st : list string * list sqlval := ([], []) in
  let st := if truthy city_filter
            then add_IN "Location" city_filter VText st else st in
  let st := if truthy provider_filter_name
            then let ids := prov_ids provider_list provider_filter_name in
                 if truthy ids then add_IN "Provider_ID" ids VInt st else st
            else st in
  let st := if truthy food_type_filter
            then add_IN "Food_Type" food_type_filter VText st else st in
  let st := if truthy meal_type_filter
            then add_IN "Meal_Type" meal_type_filter VText st else st in
  let where_clauses := fst st in
  ((if truthy where_clauses
    then "WHERE " ++ String.concat " AND " where_clauses
    else ""),
   snd st).

(** [provider_list]: [SELECT Provider_ID, Name FROM providers ORDER BY Name] *)
Definition provider_list_of (d : db) : list (Z * string) :=
  ORDER_BY name_leb (map provider_key (providers d)).

(** ** What SQLite makes of the built predicate

    The store is outside the repository; this is the fragment of SQL the
    builder can produce, read back from the text: [WHERE], then
    [col IN (?,...,?)] clauses separated by [AND]. *)

Fixpoint split_on (c : ascii) (s : string) : list string :=
  match s with
  | EmptyString => [EmptyString]
  | String a rest =>
      if Ascii.eqb a c then EmptyString :: split_on c rest
      else match split_on c rest with
           | h :: t => String a h :: t
           | [] => [String a EmptyString]
           end
  end.

(** What follows a first [?]: [)] or [,?] and more. *)
Fixpoint more_marks (s : string) : option nat :=
  match s with
  | String a rest =>
      if Ascii.eqb a ")" then
        match rest with EmptyString => Some 1%nat | _ => None end
      else if Ascii.eqb a "," then
        match rest with
        | String b rest' =>
            if Ascii.eqb b "?" then option_map S (more_marks rest') else None
        | EmptyString => None
        end
      else None
  | EmptyString => None
  end.

(** The number of [?] in a token [(?,...,?)]; SQLite accepts [()] too. *)
Definition placeholder_count (tok : string) : option nat :=
  match tok with
  | String a (String b rest) =>
      if Ascii.eqb a "(" then
        if Ascii.eqb b ")" then
          match rest with EmptyString => Some 0%nat | _ => None end
        else if Ascii.eqb b "?" then more_marks rest
        else None
      else None
  | _ => None
  end.

Definition food_columns : list string :=
  ["Food_ID"; "Food_Name"; "Quantity"; "Expiry_Date"; "Provider_ID";
   "Provider_Type"; "Location"; "Food_Type"; "Meal_Type"; "Days_To_Expiry";
   "Quantity_Category"].

Definition known_column (name : string) : bool :=
  existsb (String.eqb name) food_columns.

(** The value a row holds in a column; the date column is compared as an
    integer, which no builder clause does. *)
Definition column_value (name : string) (f : Food.t) : sqlval :=
  if (name =? "Food_ID")%string then VInt (Food.Food_ID f)
  else if (name =? "Food_Name")%string then VText (Food.Food_Name f)
  else if (name =? "Quantity")%string then VInt (Food.Quantity f)
  else if (name =? "Expiry_Date")%string then VInt (toordinal (Food.Expiry_Date f))
  else if (name =? "Provider_ID")%string then VInt (Food.Provider_ID f)
  else if (name =? "Provider_Type")%string then VText (Food.Provider_Type f)
  else if (name =? "Location")%string then of_text (Food.Location f)
  else if (name =? "Food_Type")%string then of_text (Food.Food_Type f)
  else if (name =? "Meal_Type")%string then of_text (Food.Meal_Type f)
  else if (name =? "Days_To_Expiry")%string then VInt (Food.Days_To_Expiry f)
  else if (name =? "Quantity_Category")%string then VText (Food.Quantity_Category f)
  else VNull.

Fixpoint parse_conj (toks : list string) : option (list (string * nat)) :=
  match toks with
  | col :: kw :: ph :: rest =>
      if known_column col && (kw =? "IN")%string then
        match placeholder_count ph with
        | Some n =>
            match rest with
            | [] => Some [(col, n)]
            | kw2 :: rest' =>
                if (kw2 =? "AND")%string
                then option_map (cons (col, n)) (parse_conj rest')
                else None
            end
        | None => None
        end
      else None
  | _ => None
  end.

(** Preparing the statement: [None] is a syntax error or unknown column. *)
Definition prepare_where (text : string) : option (list (string * nat)) :=
  if (text =? "")%string then Some []
  else match split_on " " text with
       | kw :: toks => if (kw =? "WHERE")%string then parse_conj toks else None
       | [] => None
       end.

(** Binding the parameters in order: [None] when their number is not the
    number of placeholders. *)
Fixpoint bind_params (cl : list (string * nat)) (params : list sqlval)
  : option (list (string * list sqlval)) :=
  match cl with
  | [] => match params with [] => Some [] | _ :: _ => None end
  | (col, n) :: rest =>
      if (List.length params <? n)%nat then None
      else option_map (cons (col, firstn n params))
                      (bind_params rest (skipn n params))
  end.

(** A row passes when each clause finds its column among the bound values;
    a NULL column equals nothing. *)
Definition row_passes (bound : list (string * list sqlval)) (f : Food.t) : bool :=
  forallb (fun c => existsb (sqlval_eqb (column_value (fst c) f)) (snd c)) bound.

(** The dashboard's base read,
    [SELECT * FROM food_listings {WHERE} ORDER BY Expiry_Date] with [params]. *)
Definition food_df (q : string * list sqlval) (d : db) : option (list Food.t) :=
  match prepare_where (fst q) with
  | Some cl =>
      match bind_params cl (snd q) with
      | Some bound =>
          Some (ORDER_BY expiry_leb (filter (row_passes bound) (food_listings d)))
      | None => None
      end
  | None => None
  end.

(** ** The builder's contract, in the words of the specification *)

(** A dimension with its bound values contributes [col IN (?,...,?)], one
    mark per value; dimensions with no value contribute nothing; the rest
    are joined by [AND] behind [WHERE]. *)
Definition clause_text (c : string * list sqlval) : string :=
  fst c ++ " IN (" ++ placeholders (snd c) ++ ")".

Definition where_text (l : list (string * list sqlval)) : string :=
  if truthy l
  then "WHERE " ++ String.concat " AND " (map clause_text l)
  else "".

Definition dimensions (city : list string) (ids : list Z)
  (food_type meal_type : list string) : list (string * list sqlval) :=
  [("Location", map VText city); ("Provider_ID", map VInt ids);
   ("Food_Type", map VText food_type); ("Meal_Type", map VText meal_type)].

Definition active (l : list (string * list sqlval)) : list (string * list sqlval) :=
  filter (fun c => truthy (snd c)) l.

(** A row's value is among the selected ones, or nothing is selected. *)
Definition selected (vals : list string) (v : option string) : bool :=
  match vals with
  | [] => true
  | _ :: _ =>
      match v with
      | Some s => existsb (String.eqb s) vals
      | None => false
      end
  end.

Definition selected_id (ids : list Z) (i : Z) : bool :=
  match ids with
  | [] => true
  | _ :: _ => existsb (Z.eqb i) ids
  end.

(** The character does not occur in the string. *)
Fixpoint free_of (c : ascii) (s : string) : bool :=
  match s with
  | EmptyString => true
  | String a rest => negb (Ascii.eqb a c) && free_of c rest
  end.

(** The marks of a clause as one token, the tokens of a conjunction, and
    what preparing a clause keeps of it: its column and number of marks. *)
Definition marks_token (c : string * list sqlval) : string :=
  "(" ++ placeholders (snd c) ++ ")".

Fixpoint tokens (l : list (string * list sqlval)) : list string :=
  match l with
  | [] => []
  | c :: rest =>
      fst c :: "IN" :: marks_token c ::
      match rest with
      | [] => []
      | _ :: _ => "AND" :: tokens rest
      end
  end.

Definition signature (c : string * list sqlval) : string * nat :=
  (fst c, List.length (snd c)).

Definition well_named (c : string * list sqlval) : bool :=
  known_column (fst c) && free_of " " (fst c).

(** The text a selection of given columns and numbers of values has,
    whatever the values. *)
Definition text_of_signature (sg : list (string * nat)) : string :=
  where_text (map (fun s => (fst s, repeat VNull (snd s))) sg).

Definition counts (city ids food_type meal_type : nat) : list (string * nat) :=
  filter (fun s => negb (snd s =? 0)%nat)
    [("Location", city); ("Provider_ID", ids);
     ("Food_Type", food_type); ("Meal_Type", meal_type)].

(** ** Derived fields of a new listing *)

(** Line 335: [(pd.to_datetime(exp) - pd.Timestamp.today()).days] *)
Definition days_to_exp (exp : date) (today : Timestamp) : Z :=
  days (Timestamp_sub (to_datetime exp) today).

(** Line 336 *)
Definition qty_cat (qty : Z) : string :=
  if qty <? 5 then "Small" else (if qty <=? 20 then "Medium" else "Large").

(** ** Statements and their execution *)

(** The nine statements [run_write] is called with, parameters bound. *)
Inductive statement : Type :=
| INSERT_provider (Name Type_ Address City Contact : string)
| INSERT_food (Food_Name : string) (Quantity : Z) (Expiry_Date : date)
              (Provider_ID : Z)
              (Provider_Type Location Food_Type Meal_Type : string)
              (Days_To_Expiry : Z) (Quantity_Category : string)
| INSERT_claim (Food_ID Receiver_ID : Z) (Status : string)
| UPDATE_provider_contact (Contact : string) (Provider_ID : Z)
| UPDATE_food_quantity (Quantity Food_ID : Z)
| UPDATE_claim_status (Status : string) (Claim_ID : Z)
| DELETE_provider (Provider_ID : Z)
| DELETE_food (Food_ID : Z)
| DELETE_claim (Claim_ID : Z).

Inductive exn : Type :=
| IntegrityError (msg : string)
| DatabaseError (msg : string).

Definition str_exn (e : exn) : string :=
  match e with IntegrityError m => m | DatabaseError m => m end.

(** The rowid SQLite gives a new row: one more than the largest in use. *)
Definition next_rowid (ids : list Z) : Z := 1 + fold_right Z.max 0 ids.

Definition with_providers (d : db) (l : list Provider.t) : db :=
  {| providers := l; receivers := receivers d;
     food_listings := food_listings d; claims := claims d |}.

Definition with_food_listings (d : db) (l : list Food.t) : db :=
  {| providers := providers d; receivers := receivers d;
     food_listings := l; claims := claims d |}.

Definition with_claims (d : db) (l : list Claim.t) : db :=
  {| providers := providers d; receivers := receivers d;
     food_listings := food_listings d; claims := l |}.

Definition set_contact (c : string) (p : Provider.t) : Provider.t :=
  {| Provider.Provider_ID := Provider.Provider_ID p;
     Provider.Name := Provider.Name p;
     Provider.Type_ := Provider.Type_ p;
     Provider.Address := Provider.Address p;
     Provider.City := Provider.City p;
     Provider.Contact := Some c |}.

Definition set_quantity (q : Z) (f : Food.t) : Food.t :=
  {| Food.Food_ID := Food.Food_ID f;
     Food.Food_Name := Food.Food_Name f;
     Food.Quantity := q;
     Food.Expiry_Date := Food.Expiry_Date f;
     Food.Provider_ID := Food.Provider_ID f;
     Food.Provider_Type := Food.Provider_Type f;
     Food.Location := Food.Location f;
     Food.Food_Type := Food.Food_Type f;
     Food.Meal_Type := Food.Meal_Type f;
     Food.Days_To_Expiry := Food.Days_To_Expiry f;
     Food.Quantity_Category := Food.Quantity_Category f |}.

Definition set_status (s : string) (c : Claim.t) : Claim.t :=
  {| Claim.Claim_ID := Claim.Claim_ID c;
     Claim.Food_ID := Claim.Food_ID c;
     Claim.Receiver_ID := Claim.Receiver_ID c;
     Claim.Status := s |}.

Definition has_provider (d : db) (pid : Z) : bool :=
  existsb (fun p => Provider.Provider_ID p =? pid) (providers d).
Definition has_receiver (d : db) (rid : Z) : bool :=
  existsb (fun r => Receiver.Receiver_ID r =? rid) (receivers d).
Definition has_food (d : db) (fid : Z) : bool :=
  existsb (fun f => Food.Food_ID f =? fid) (food_listings d).
Definition owns_listing (d : db) (pid : Z) : bool :=
  existsb (fun f => Food.Provider_ID f =? pid) (food_listings d).
Definition is_claimed (d : db) (fid : Z) : bool :=
  existsb (fun c => Claim.Food_ID c =? fid) (claims d).

Definition fk_failed : exn := IntegrityError "FOREIGN KEY constraint failed".

(** Modelled from the spec: the schema is created outside [app.py]; section 6
    gives its tables, keys and the references [food_listings.Provider_ID ->
    providers], [claims.Food_ID -> food_listings] and [claims.Receiver_ID ->
    receivers].  SQLite checks a reference only on a connection whose
    [foreign_keys] setting is on; the result is the new rowid of an INSERT
    and the database after the statement, or the error raised. *)
Definition execute (foreign_keys : bool) (s : statement) (d : db)
  : (option Z * db) + exn :=
  match s with
  | INSERT_provider name ptype address city contact =>
      let id := next_rowid (map Provider.Provider_ID (providers d)) in
      inl (Some id,
           with_providers d
             (List.app (providers d)
                [{| Provider.Provider_ID := id; Provider.Name := name;
                    Provider.Type_ := ptype; Provider.Address := address;
                    Provider.City := city; Provider.Contact := Some contact |}]))
  | INSERT_food food_name qty exp pid ptype loc ftype mtype dte cat =>
      if foreign_keys && negb (has_provider d pid) then inr fk_failed
      else
        let id := next_rowid (map Food.Food_ID (food_listings d)) in
        inl (Some id,
             with_food_listings d
               (List.app (food_listings d)
                  [{| Food.Food_ID := id; Food.Food_Name := food_name;
                      Food.Quantity := qty; Food.Expiry_Date := exp;
                      Food.Provider_ID := pid; Food.Provider_Type := ptype;
                      Food.Location := Some loc; Food.Food_Type := Some ftype;
                      Food.Meal_Type := Some mtype; Food.Days_To_Expiry := dte;
                      Food.Quantity_Category := cat |}]))
  | INSERT_claim fid rid status =>
      if foreign_keys && negb (has_food d fid && has_receiver d rid)
      then inr fk_failed
      else
        let id := next_rowid (map Claim.Claim_ID (claims d)) in
        inl (Some id,
             with_claims d
               (List.app (claims d)
                  [{| Claim.Claim_ID := id; Claim.Food_ID := fid;
                      Claim.Receiver_ID := rid; Claim.Status := status |}]))
  | UPDATE_provider_contact contact pid =>
      inl (None,
           with_providers d
             (map (fun p => if Provider.Provider_ID p =? pid
                            then set_contact contact p else p)
                  (providers d)))
  | UPDATE_food_quantity qty fid =>
      inl (None,
           with_food_listings d
             (map (fun f => if Food.Food_ID f =? fid
                            then set_quantity qty f else f)
                  (food_listings d)))
  | UPDATE_claim_status status cid =>
      inl (None,
           with_claims d
             (map (fun c => if Claim.Claim_ID c =? cid
                            then set_status status c else c)
                  (claims d)))
  | DELETE_provider pid =>
      if foreign_keys && has_provider d pid && owns_listing d pid
      then inr fk_failed
      else inl (None,
                with_providers d
                  (filter (fun p => negb (Provider.Provider_ID p =? pid))
                          (providers d)))
  | DELETE_food fid =>
      if foreign_keys && has_food d fid && is_claimed d fid
      then inr fk_failed
      else inl (None,
                with_food_listings d
                  (filter (fun f => negb (Food.Food_ID f =? fid))
                          (food_listings d)))
  | DELETE_claim cid =>
      inl (None,
           with_claims d
             (filter (fun c => negb (Claim.Claim_ID c =? cid)) (claims d)))
  end.

(** ** The session: connection, memoised reads, page *)

Inductive message : Type :=
| success (body : string)
| error (body : string)
| warning (body : string)
| info (body : string).

(** A [sqlite3.Connection], by the one setting the handlers depend on. *)
Record Connection : Type := { foreign_keys : bool }.

(** [sqlite3.connect(DB_PATH, check_same_thread=False)]: a new connection
    has SQLite's defaults, and [app.py] issues no PRAGMA. *)
Definition sqlite3_connect : Connection := {| foreign_keys := false |}.

Definition ttl : Z := 60.

(** Two argument tuples hash alike when they hold the same values. *)
Definition sqlval_same (a b : sqlval) : bool :=
  match a, b with
  | VNull, VNull => true
  | VInt x, VInt y => x =? y
  | VText x, VText y => (x =? y)%string
  | _, _ => false
  end.

Fixpoint params_eqb (a b : list sqlval) : bool :=
  match a, b with
  | [], [] => true
  | x :: a', y :: b' => sqlval_same x y && params_eqb a' b'
  | _, _ => false
  end.

(** A Python call returns or raises. *)
Inductive result (A : Type) : Type :=
| Ok (a : A)
| Raise (e : exn).
Arguments Ok {A} a.
Arguments Raise {A} e.

(** Python truth of [provider_id], [food_id], [receiver_id]: an integer
    other than 0, and not [None]. *)
Definition truthy_id (i : option Z) : bool :=
  match i with Some z => negb (z =? 0) | None => false end.

Definition the_id (i : option Z) : Z :=
  match i with Some z => z | None => 0 end.

(** The buttons of the CRUD tab with what their forms hold. *)
Inductive button : Type :=
| Create_Provider (name ptype address city contact : string)
| Create_Food_Listing (provider : string) (provider_id : option Z)
    (food_name : string) (qty : Z) (exp : date)
    (provider_type location ftype mtype : string)
| Create_Claim (food_id receiver_id : option Z) (status : string)
| Update_Contact (new : string) (pid : Z)
| Update_Quantity (new_qty fid : Z)
| Update_Status (new_status : string) (claim_id : Z)
| Delete_Provider (pid : Z)
| Delete_Food_Listing (fid : Z)
| Delete_Claim (cid : Z).

Section DataAccess.
(** [pandas.DataFrame], and [pd.read_sql_query(sql, conn, params)] as a
    function of the database it reads. *)
Variable DataFrame : Type.
Variable read_sql_query : string -> list sqlval -> db -> DataFrame + exn.

(** What a script run works on.  [journal] is a history variable: the
    statements committed so far, oldest first. *)
Record world : Type := {
  database : db;
  journal : list statement;
  conn : option Connection;
  cache_data : list (string * list sqlval * (Z * DataFrame));
  page : list message
}.

(** Python statements: they change the world and return or raise. *)
Definition M (A : Type) : Type := world -> result A * world.

Definition ret {A : Type} (a : A) : M A := fun w => (Ok a, w).

Definition bind {A B : Type} (m : M A) (k : A -> M B) : M B :=
  fun w =>
    match m w with
    | (Ok a, w') => k a w'
    | (Raise e, w') => (Raise e, w')
    end.

Definition try_except {A : Type} (body : M A) (handler : exn -> M A) : M A :=
  fun w =>
    match body w with
    | (Ok a, w') => (Ok a, w')
    | (Raise e, w') => handler e w'
    end.

Notation "x <- m ;; k" := (bind m (fun x => k))
  (at level 61, m at next level, right associativity).
Notation "m ;; k" := (bind m (fun _ => k))
  (at level 61, right associativity).

(** Lines 25-31 *)
Definition get_conn : M Connection :=
  fun w =>
    match conn w with
    | Some c => (Ok c, w)
    | None =>
        (Ok sqlite3_connect,
         {| database := database w; journal := journal w;
            conn := Some sqlite3_connect;
            cache_data := cache_data w; page := page w |})
    end.

Fixpoint cache_lookup (sql : string) (params : list sqlval)
  (entries : list (string * list sqlval * (Z * DataFrame)))
  : option (Z * DataFrame) :=
  match entries with
  | [] => None
  | (k, v) :: rest =>
      if (fst k =? sql)%string && params_eqb (snd k) params then Some v
      else cache_lookup sql params rest
  end.

(** Lines 34-37, the function under the decorator. *)
Definition read_through (sql : string) (params : list sqlval) : M DataFrame :=
  c <- get_conn ;;
  fun w =>
    match read_sql_query sql params (database w) with
    | inl df => (Ok df, w)
    | inr e => (Raise e, w)
    end.

Definition remember (now : Z) (sql : string) (params : list sqlval)
  (df : DataFrame) : M unit :=
  fun w =>
    (Ok tt,
     {| database := database w; journal := journal w; conn := conn w;
        cache_data := (sql, params, (now, df)) :: cache_data w;
        page := page w |}).

(** Line 33: [@st.cache_data(ttl=60)] around it.  [now] is the clock, in
    seconds, when the call is made; an entry younger than [ttl] answers
    the call, otherwise the function runs and its result is kept. *)
Definition fetch_df (now : Z) (sql : string) (params : list sqlval)
  : M DataFrame :=
  fun w =>
    match cache_lookup sql params (cache_data w) with
    | Some (stored, df) =>
        if now - stored <? ttl then (Ok df, w)
        else (df' <- read_through sql params ;;
              remember now sql params df' ;;
              ret df') w
    | None =>
        (df' <- read_through sql params ;;
         remember now sql params df' ;;
         ret df') w
    end.

(** Lines 39-45: execute and commit on the session's connection. *)
Definition run_write (s : statement) : M (option Z) :=
  c <- get_conn ;;
  fun w =>
    match execute (foreign_keys c) s (database w) with
    | inl (lastrowid, d') =>
        (Ok lastrowid,
         {| database := d'; journal := List.app (journal w) [s];
            conn := conn w; cache_data := cache_data w; page := page w |})
    | inr e => (Raise e, w)
    end.

Definition show (m : message) : M unit :=
  fun w =>
    (Ok tt,
     {| database := database w; journal := journal w; conn := conn w;
        cache_data := cache_data w; page := List.app (page w) [m] |}).

(** [st.cache_data.clear()] *)
Definition cache_data_clear : M unit :=
  fun w =>
    (Ok tt,
     {| database := database w; journal := journal w; conn := conn w;
        cache_data := []; page := page w |}).

(** ** The CRUD handlers, from the press of the button on *)

(** Lines 307-316 *)
Definition add_provider (name ptype address city contact : string) : M unit :=
  if nonblank name && nonblank city then
    run_write (INSERT_provider name ptype address city contact) ;;
    show (success ("Provider '" ++ name ++ "' added.")) ;;
    cache_data_clear
  else show (error "Name and City are required.").

(** Lines 333-345; [today] is [pd.Timestamp.today()]. *)
Definition add_food (today : Timestamp) (provider : string)
  (provider_id : option Z) (food_name : string) (qty : Z) (exp : date)
  (provider_type location ftype mtype : string) : M unit :=
  if truthy_id provider_id && nonblank food_name && nonblank location then
    let days_to_exp := days_to_exp exp today in
    let qty_cat := qty_cat qty in
    run_write (INSERT_food food_name qty exp (the_id provider_id)
                 provider_type location ftype mtype days_to_exp qty_cat) ;;
    show (success ("Food '" ++ food_name ++ "' added for " ++ provider ++ ".")) ;;
    cache_data_clear
  else show (error "Provider, Food Name, and Location are required.").

(** Lines 366-373 *)
Definition add_claim (food_id receiver_id : option Z) (status : string)
  : M unit :=
  if truthy_id food_id && truthy_id receiver_id then
    run_write (INSERT_claim (the_id food_id) (the_id receiver_id) status) ;;
    show (success "Claim created.") ;;
    cache_data_clear
  else show (error "Choose a food item and receiver.").

(** Lines 387-390 *)
Definition update_contact (new : string) (pid : Z) : M unit :=
  run_write (UPDATE_provider_contact new pid) ;;
  show (success "Contact updated.") ;;
  cache_data_clear.

(** Lines 402-405 *)
Definition update_quantity (new_qty fid : Z) : M unit :=
  run_write (UPDATE_food_quantity new_qty fid) ;;
  show (success "Quantity updated.") ;;
  cache_data_clear.

(** Lines 423-426 *)
Definition update_status (new_status : string) (claim_id : Z) : M unit :=
  run_write (UPDATE_claim_status new_status claim_id) ;;
  show (success "Status updated.") ;;
  cache_data_clear.

(** Lines 441-447 *)
Definition delete_provider (pid : Z) : M unit :=
  try_except
    (run_write (DELETE_provider pid) ;;
     show (success "Provider deleted.") ;;
     cache_data_clear)
    (fun e => show (error ("Delete failed (likely FK constraint): " ++ str_exn e))).

(** Lines 457-463 *)
Definition delete_food (fid : Z) : M unit :=
  try_except
    (run_write (DELETE_food fid) ;;
     show (success "Food listing deleted.") ;;
     cache_data_clear)
    (fun e => show (error ("Delete failed: " ++ str_exn e))).

(** Lines 472-475 *)
Definition delete_claim (cid : Z) : M unit :=
  run_write (DELETE_claim cid) ;;
  show (success "Claim deleted.") ;;
  cache_data_clear.

Definition press (today : Timestamp) (b : button) : M unit :=
  match b with
  | Create_Provider name ptype address city contact =>
      add_provider name ptype address city contact
  | Create_Food_Listing provider provider_id food_name qty exp
      provider_type location ftype mtype =>
      add_food today provider provider_id food_name qty exp
               provider_type location ftype mtype
  | Create_Claim food_id receiver_id status =>
      add_claim food_id receiver_id status
  | Update_Contact new pid => update_contact new pid
  | Update_Quantity new_qty fid => update_quantity new_qty fid
  | Update_Status new_status claim_id => update_status new_status claim_id
  | Delete_Provider pid => delete_provider pid
  | Delete_Food_Listing fid => delete_food fid
  | Delete_Claim cid => delete_claim cid
  end.
End DataAccess.

Arguments database {DataFrame} w.
Arguments journal {DataFrame} w.
Arguments conn {DataFrame} w.
Arguments cache_data {DataFrame} w.
Arguments page {DataFrame} w.
Arguments Build_world {DataFrame}.
Arguments get_conn {DataFrame}.
Arguments run_write {DataFrame}.
Arguments show {DataFrame}.
Arguments cache_data_clear {DataFrame}.
Arguments add_provider {DataFrame}.
Arguments add_food {DataFrame}.
Arguments add_claim {DataFrame}.
Arguments update_contact {DataFrame}.
Arguments update_quantity {DataFrame}.
Arguments update_status {DataFrame}.
Arguments delete_provider {DataFrame}.
Arguments delete_food {DataFrame}.
Arguments delete_claim {DataFrame}.
Arguments press {DataFrame}.
Arguments fetch_df {DataFrame}.
Arguments read_through {DataFrame}.
Arguments remember {DataFrame}.
Arguments cache_lookup {DataFrame}.
Arguments ret {DataFrame A}.
Arguments bind {DataFrame A B}.
Arguments try_except {DataFrame A}.

(** A session as a first script run finds it: nothing connected, nothing
    memoised, an empty page. *)
Definition session_start {DataFrame : Type} (d : db) : world DataFrame :=
  {| database := d; journal := []; conn := None; cache_data := []; page := [] |}.

(** ** The scenario of the specification: one provider, one listing *)

Definition acme : Provider.t :=
  {| Provider.Provider_ID := 1; Provider.Name := "Acme Grocers";
     Provider.Type_ := "Grocery Store"; Provider.Address := "12 Main St";
     Provider.City := "Springfield"; Provider.Contact := Some "555-0100" |}.

(** 2025-01-10 *)
Definition jan10 : date := {| toordinal := 739261 |}.

Definition bread : Food.t :=
  {| Food.Food_ID := 1; Food.Food_Name := "Bread"; Food.Quantity := 15;
     Food.Expiry_Date := jan10; Food.Provider_ID := 1;
     Food.Provider_Type := ""; Food.Location := Some "Springfield";
     Food.Food_Type := Some "Vegetarian"; Food.Meal_Type := Some "Breakfast";
     Food.Days_To_Expiry := 0; Food.Quantity_Category := "Medium" |}.

Definition acme_alone : db :=
  {| providers := [acme]; receivers := []; food_listings := []; claims := [] |}.

Definition acme_with_bread : db :=
  {| providers := [acme]; receivers := []; food_listings := [bread]; claims := [] |}.

(** 2025-01-10, ten in the morning, as a naive timestamp. *)
Definition jan10_10am : Timestamp :=
  {| value := (739261 - EPOCH_ORDINAL) * NS_PER_DAY + 36000000000000 |}.

(** The scenario grown: a second listing of Acme, a provider with no
    listing, and one completed claim on the bread. *)
Definition corner_cafe : Provider.t :=
  {| Provider.Provider_ID := 2; Provider.Name := "Corner Cafe";
     Provider.Type_ := "Restaurant"; Provider.Address := "3 Elm St";
     Provider.City := "Springfield"; Provider.Contact := None |}.

Definition milk : Food.t :=
  {| Food.Food_ID := 2; Food.Food_Name := "Milk"; Food.Quantity := 4;
     Food.Expiry_Date := {| toordinal := 739263 |}; Food.Provider_ID := 1;
     Food.Provider_Type := ""; Food.Location := Some "Springfield";
     Food.Food_Type := Some "Vegetarian"; Food.Meal_Type := Some "Breakfast";
     Food.Days_To_Expiry := 2; Food.Quantity_Category := "Small" |}.

Definition shelter : Receiver.t :=
  {| Receiver.Receiver_ID := 1; Receiver.Name := "Shelter";
     Receiver.City := "Springfield" |}.

Definition bread_claim : Claim.t :=
  {| Claim.Claim_ID := 1; Claim.Food_ID := 1; Claim.Receiver_ID := 1;
     Claim.Status := "Completed" |}.

Definition two_providers : db :=
  {| providers := [acme; corner_cafe]; receivers := [shelter];
     food_listings := [bread; milk]; claims := [bread_claim] |}.

(** A reader that answers every query with the listings in expiry order,
    and a session that memoised its answer before the bread was listed. *)
Definition listings_reader (sql : string) (params : list sqlval) (d : db)
  : list Food.t + exn :=
  inl (query3 d).

Definition session_with_memo : world (list Food.t) :=
  {| database := acme_with_bread; journal := [];
     conn := Some sqlite3_connect;
     cache_data := [("SELECT * FROM food_listings ORDER BY Expiry_Date", [], (0, []))];
     page := [] |}.

(** ** Labels of the select boxes, and the identity read back from them *)

(** [str(n)] of an integer, as an f-string prints it. *)
Definition str_int (z : Z) : string :=
  DecimalString.NilZero.string_of_int (Z.to_int z).

(** A NULL text read by pandas is [None], printed as such. *)
Definition str_text (o : option string) : string :=
  match o with Some s => s | None => "None" end.

(** Line 360: [f"#{r.Food_ID} — {r.Food_Name} ({r.Location})"] *)
Definition claim_food_label (f : Food.t) : string :=
  "#" ++ str_int (Food.Food_ID f) ++ " — " ++ Food.Food_Name f
      ++ " (" ++ str_text (Food.Location f) ++ ")".

(** Lines 398 and 455: [f"#{r.Food_ID} — {r.Food_Name}"] *)
Definition food_label (f : Food.t) : string :=
  "#" ++ str_int (Food.Food_ID f) ++ " — " ++ Food.Food_Name f.

(** Line 419: [f"#{r.Claim_ID} — {r.Food_Name} → {r.Receiver} ({r.Status})"] *)
Definition claim_label (c : Claim.t) (food_name receiver : string) : string :=
  "#" ++ str_int (Claim.Claim_ID c) ++ " — " ++ food_name ++ " → " ++ receiver
      ++ " (" ++ Claim.Status c ++ ")".

(** [s.split(sep)[0]] for a non-empty [sep]: what stands before the first
    occurrence of [sep], all of [s] when there is none.  Strings are byte
    strings in UTF-8, where a character occurs exactly where its bytes do. *)
Fixpoint before_first (sep s : string) : string :=
  match s with
  | EmptyString => EmptyString
  | String a rest =>
      if String.prefix sep s then EmptyString
      else String a (before_first sep rest)
  end.

(** [s.replace(c, "")] for a one-byte [c]. *)
Fixpoint remove_char (c : ascii) (s : string) : string :=
  match s with
  | EmptyString => EmptyString
  | String a rest =>
      if Ascii.eqb a c then remove_char c rest
      else String a (remove_char c rest)
  end.

(** The white space of ASCII: tab to carriage return, the four separators
    and the blank.  [str.strip()] also drops white space beyond ASCII,
    which a label's head, a [#], a numeral and a blank, does not hold. *)
Definition is_space (a : ascii) : bool :=
  let n := nat_of_ascii a in
  ((9 <=? n) && (n <=? 13) || (28 <=? n) && (n <=? 32))%nat.

Fixpoint lstrip (s : string) : string :=
  match s with
  | EmptyString => EmptyString
  | String a rest => if is_space a then lstrip rest else s
  end.

Fixpoint rstrip (s : string) : string :=
  match s with
  | EmptyString => EmptyString
  | String a rest =>
      match rstrip rest with
      | EmptyString => if is_space a then EmptyString else String a EmptyString
      | String b r => String a (String b r)
      end
  end.

Definition strip (s : string) : string := rstrip (lstrip s).

(** [int(s)] on a decimal numeral with an optional minus sign; [None] is
    [ValueError].  (Python also reads a plus sign, underscores between
    digits, blanks around the numeral and digits beyond ASCII: such texts
    are outside this reading and give [None] here.) *)
Definition int_of_text (s : string) : option Z :=
  option_map Z.of_int (DecimalString.NilZero.int_of_string s).

(** Lines 361, 399, 421 and 456:
    [int(label.split("—")[0].replace("#","").strip())] *)
Definition label_id (label : string) : option Z :=
  int_of_text (strip (remove_char "#" (before_first "—" label))).

(** Every byte of the string passes the test. *)
Fixpoint all_chars (ok : ascii -> bool) (s : string) : bool :=
  match s with
  | EmptyString => true
  | String a rest => ok a && all_chars ok rest
  end.

(** A digit or the minus sign. *)
Definition numeral_char (a : ascii) : bool :=
  let n := nat_of_ascii a in
  ((n =? 45) || (48 <=? n) && (n <=? 57))%nat.

(** ** Choosing a row by its name *)

(** Lines 324, 384 and 439:
    [provs.loc[provs["Name"] == sel, "Provider_ID"].iloc[0]], the identity
    of the first row named [sel]; [None] is the [IndexError] of [iloc[0]]
    on no row. *)
Fixpoint first_id_named (provs : list (Z * string)) (sel : string) : option Z :=
  match provs with
  | [] => None
  | (id, name) :: rest =>
      if (name =? sel)%string then Some id else first_id_named rest sel
  end.

(** ** Unclaimed listings *)

(** [FROM food_listings f LEFT JOIN claims c ON f.Food_ID = c.Food_ID
    WHERE c.Claim_ID IS NULL ORDER BY f.Expiry_Date], the rows under query
    9 (lines 95-101) and under the Add Claim tab (lines 350-356). *)
Definition unclaimed_joined (d : db) : list (Food.t * option Claim.t) :=
  ORDER_BY (fun a b => expiry_leb (fst a) (fst b))
    (filter (fun r => match option_map Claim.Claim_ID (snd r) with
                      | None => true
                      | Some _ => false
                      end)
            (LEFT_JOIN (fun f c => Food.Food_ID f =? Claim.Food_ID c)
                       (food_listings d) (claims d))).

Definition unclaimed (d : db) : list Food.t := map fst (unclaimed_joined d).

(** The columns query 9 selects. *)
Record unclaimed_row : Type := {
  u_Food_ID : Z;
  u_Food_Name : string;
  u_Quantity : Z;
  u_Expiry_Date : date;
  u_Location : option string;
  u_Food_Type : option string;
  u_Meal_Type : option string
}.

Definition unclaimed_columns (f : Food.t) : unclaimed_row :=
  {| u_Food_ID := Food.Food_ID f;
     u_Food_Name := Food.Food_Name f;
     u_Quantity := Food.Quantity f;
     u_Expiry_Date := Food.Expiry_Date f;
     u_Location := Food.Location f;
     u_Food_Type := Food.Food_Type f;
     u_Meal_Type := Food.Meal_Type f |}.

(** 9. Unclaimed food items *)
Definition query9 (d : db) : list unclaimed_row :=
  map unclaimed_columns (unclaimed d).

(** Line 360: the options of the Food Item select box. *)
Definition food_item_options (d : db) : list string :=
  map claim_food_label (unclaimed d).

(** ** A session of presses *)

(** One button press after another, each at its own time, as long as none
    raises. *)
Fixpoint presses {DataFrame : Type} (script : list (Timestamp * button))
  : M DataFrame unit :=
  match script with
  | [] => ret tt
  | (today, b) :: rest => bind (press today b) (fun _ => presses rest)
  end.

Definition is_success (m : message) : bool :=
  match m with success _ => true | _ => false end.

(** The three messages of the forms' own checks (lines 316, 345, 373). *)
Definition is_required_error (m : message) : bool :=
  match m with
  | error body =>
      (body =? "Name and City are required.")%string
      || (body =? "Provider, Food Name, and Location are required.")%string
      || (body =? "Choose a food item and receiver.")%string
  | _ => false
  end.

(** The session's connection, if open, does not enforce references: the
    connection [get_conn] makes is such. *)
Definition unenforced {DataFrame : Type} (w : world DataFrame) : bool :=
  match conn w with
  | None => true
  | Some c => negb (foreign_keys c)
  end.

(** ** The options of the sidebar *)

(** The values of a nullable column that are not NULL. *)
Definition not_null (vals : list (option string)) : list string :=
  flat_map (fun v => match v with Some s => [s] | None => [] end) vals.

(** Lines 146, 148 and 149:
    [SELECT DISTINCT col FROM food_listings WHERE col IS NOT NULL ORDER BY 1] *)
Definition distinct_values (col : Food.t -> option string) (d : db) : list string :=
  ORDER_BY String.leb
    (distinct String.eqb (not_null (map col (food_listings d)))).

Definition city_list (d : db) : list string := distinct_values Food.Location d.
Definition food_type_list (d : db) : list string := distinct_values Food.Food_Type d.
Definition meal_type_list (d : db) : list string := distinct_values Food.Meal_Type d.

(** ** Grouped totals of the catalogue *)

(** [GROUP BY] on a nullable text column: NULLs fall into one group. *)
Definition null_eqb (a b : option string) : bool :=
  match a, b with
  | Some x, Some y => (x =? y)%string
  | None, None => true
  | _, _ => false
  end.

(** [ORDER BY total DESC] on rows that end in their total. *)
Definition total_desc_leb {X : Type} (a b : X * Z) : bool := snd b <=? snd a.





(** 8. Number of claims by receiver *)
Definition receiver_key (r : Receiver.t) : Z * string :=
  (Receiver.Receiver_ID r, Receiver.Name r).

Definition query8 (d : db) : list (Z * string * Z) :=
  ORDER_BY total_desc_leb
    (map (fun g => (fst g, COUNT (map (fun r => Some (Claim.Claim_ID (fst r))) (snd g))))
         (GROUP_BY key_eqb (fun r => receiver_key (snd r))
            (JOIN (fun c r => Claim.Receiver_ID c =? Receiver.Receiver_ID r)
                  (claims d) (receivers d)))).

(** The claims a receiver has made. *)
Definition claims_of (d : db) (r : Receiver.t) : list Claim.t :=
  filter (fun c => Claim.Receiver_ID c =? Receiver.Receiver_ID r) (claims d).

(** ** The dashboard's reads under the built predicate *)

(** The listings a predicate with its parameters lets through; [None]
    when SQLite refuses the text or the binding. *)
Definition filtered (q : string * list sqlval) (d : db) : option (list Food.t) :=
  match prepare_where (fst q) with
  | Some cl =>
      match bind_params cl (snd q) with
      | Some bound => Some (filter (row_passes bound) (food_listings d))
      | None => None
      end
  | None => None
  end.




(** Lines 219-222: [SELECT Location AS City, SUM(Quantity) AS Total_Quantity
    FROM food_listings {WHERE} GROUP BY Location ORDER BY Total_Quantity DESC] *)
Definition by_city (q : string * list sqlval) (d : db)
  : option (list (option string * Z)) :=
  option_map
    (fun rows =>
       ORDER_BY total_desc_leb
         (map (fun g => (fst g, SUM (map Food.Quantity (snd g))))
              (GROUP_BY null_eqb Food.Location rows)))
    (filtered q d).


(** ** The texts the dashboard sends *)

Definition newline : string := String "010" EmptyString.

(** Line 191 *)
Definition total_qty_sql (WHERE : string) : string :=
  "SELECT SUM(Quantity) AS qty FROM food_listings " ++ WHERE.

(** Lines 192-196: the count of listings expiring within three days, with
    the predicate stitched in front of the expiry condition when there is
    one, and the parameters it is sent with. *)
Definition expiring_3_query (q : string * list sqlval) : string * list sqlval :=
  let WHERE := fst q in
  if nonblank WHERE then
    ("SELECT COUNT(*) AS n FROM food_listings" ++ newline ++ "            "
       ++ (WHERE ++ (if nonblank WHERE then " AND " else " WHERE "))
       ++ " (julianday(Expiry_Date)-julianday('now')) <= 3",
     snd q)
  else
    ("SELECT COUNT(*) AS n FROM food_listings WHERE julianday(Expiry_Date)-julianday('now') <= 3",
     []).

(** Line 207 *)
Definition food_df_sql (WHERE : string) : string :=
  "SELECT * FROM food_listings " ++ WHERE ++ " ORDER BY Expiry_Date".

(** Line 220 *)
Definition by_city_sql (WHERE : string) : string :=
  "SELECT Location AS City, SUM(Quantity) AS Total_Quantity FROM food_listings "
    ++ WHERE ++ " GROUP BY Location ORDER BY Total_Quantity DESC".

(** Line 240 *)
Definition by_type_sql (WHERE : string) : string :=
  "SELECT Food_Type, SUM(Quantity) AS Total_Quantity FROM food_listings "
    ++ WHERE ++ " GROUP BY Food_Type ORDER BY Total_Quantity DESC".

(** Line 253 *)
Definition trend_sql (WHERE : string) : string :=
  "SELECT strftime('%Y-%m', Expiry_Date) AS Month, SUM(Quantity) AS Total_Quantity FROM food_listings "
    ++ WHERE ++ " GROUP BY Month ORDER BY Month".

(** The six reads of the dashboard that carry the predicate, each text
    with the parameters [fetch_df] is given. *)
Definition dashboard_queries (q : string * list sqlval)
  : list (string * list sqlval) :=
  [(total_qty_sql (fst q), snd q);
   expiring_3_query q;
   (food_df_sql (fst q), snd q);
   (by_city_sql (fst q), snd q);
   (by_type_sql (fst q), snd q);
   (trend_sql (fst q), snd q)].

(** How often a byte occurs in a text. *)
Fixpoint count_char (c : ascii) (s : string) : nat :=
  match s with
  | EmptyString => 0%nat
  | String a rest =>
      ((if Ascii.eqb a c then 1 else 0) + count_char c rest)%nat
  end.

(** ** The city chart's slider *)

(** Line 224: [st.slider("Top N cities", 5, min(25, n), min(10, n))] for a
    chart of [n] cities: the least, the greatest and the default value. *)
Definition top_n_slider (n : Z) : Z * Z * Z := (5, Z.min 25 n, Z.min 10 n).

(** Line 226: [by_city.head(topn)] *)
Definition head {A : Type} (topn : Z) (rows : list A) : list A :=
  firstn (Z.to_nat topn) rows.

(** ** The provider directory *)

(** [ORDER BY City, Name] *)
Definition city_name_leb (a b : Provider.t) : bool :=
  if (Provider.City a =? Provider.City b)%string
  then (Provider.Name a <=? Provider.Name b)%string
  else (Provider.City a <=? Provider.City b)%string.

Definition provider_name_leb (a b : Provider.t) : bool :=
  (Provider.Name a <=? Provider.Name b)%string.

(** Line 484: the options of the directory's city box. *)
Definition directory_options (d : db) : list string := "All" :: city_list d.

(** Lines 485-488 *)
Definition directory (city_pick : string) (d : db) : list Provider.t :=
  if (city_pick =? "All")%string
  then ORDER_BY city_name_leb (providers d)
  else ORDER_BY provider_name_leb
         (filter (fun p => (Provider.City p =? city_pick)%string) (providers d)).




(** ** The filtered table with the provider's contact (lines 207-210) *)

(** Line 209: [SELECT Provider_ID, Name, Contact, City FROM providers]. *)
Record prov_row : Type := {
  pr_Provider_ID : Z;
  pr_Name : string;
  pr_Contact : option string;
  pr_City : string
}.

Definition prov_columns (p : Provider.t) : prov_row :=
  {| pr_Provider_ID := Provider.Provider_ID p;
     pr_Name := Provider.Name p;
     pr_Contact := Provider.Contact p;
     pr_City := Provider.City p |}.

Definition prov_df (d : db) : list prov_row := map prov_columns (providers d).

(** Line 210: [food_df.merge(prov_df, on="Provider_ID", how="left")]: the
    rows of the left frame in their order, each once for every row of the
    right frame with its [Provider_ID], and once with the right columns
    missing when there is none. *)
Definition merge_left (food_df : list Food.t) (prov_df : list prov_row)
  : list (Food.t * option prov_row) :=
  LEFT_JOIN (fun f pr => Food.Provider_ID f =? pr_Provider_ID pr) food_df prov_df.


(** ** The claims offered for update and for deletion *)

(** Lines 411-417: the claims joined with their listing and receiver, the
    latest first. *)
Definition cls (d : db) : list (Claim.t * Food.t * Receiver.t) :=
  ORDER_BY (fun a b => Claim.Claim_ID (fst (fst b)) <=? Claim.Claim_ID (fst (fst a)))
    (JOIN (fun cf r => Claim.Receiver_ID (fst cf) =? Receiver.Receiver_ID r)
       (JOIN (fun c f => Claim.Food_ID c =? Food.Food_ID f)
             (claims d) (food_listings d))
       (receivers d)).

(** Line 419: the labels of the Claim box of Update Status. *)
Definition rowlbl (d : db) : list string :=
  map (fun row => claim_label (fst (fst row)) (Food.Food_Name (snd (fst row)))
                              (Receiver.Name (snd row)))
      (cls d).

(** Lines 469-471: the options of the Claim ID box of Delete Claim. *)
Definition delete_claim_options (d : db) : list Z :=
  map Claim.Claim_ID
      (ORDER_BY (fun a b => Claim.Claim_ID b <=? Claim.Claim_ID a) (claims d)).


(* ================================================================== *)
(** * Theorems *)

(** ** Sorting *)

Section OrderByFacts.
Context {A : Type} (leb : A -> A -> bool).

Lemma insert_by_perm (x : A) (l : list A) :
  Permutation (insert_by leb x l) (x :: l).
Proof.
  induction l as [|y t IH]; simpl.
  - apply Permutation_refl.
  - destruct (leb x y).
    + apply Permutation_refl.
    + eapply perm_trans; [apply perm_skip, IH | apply perm_swap].
Qed.

Lemma ORDER_BY_perm (l : list A) : Permutation (ORDER_BY leb l) l.
Proof.
  induction l as [|x t IH]; simpl.
  - constructor.
  - eapply perm_trans; [apply insert_by_perm | apply perm_skip, IH].
Qed.

Lemma ORDER_BY_In (l : list A) (x : A) : In x (ORDER_BY leb l) <-> In x l.
Proof.
  split; apply Permutation_in;
    [apply ORDER_BY_perm | apply Permutation_sym, ORDER_BY_perm].
Qed.

Hypothesis leb_total : forall a b, leb a b = true \/ leb b a = true.
Hypothesis leb_trans :
  forall a b c, leb a b = true -> leb b c = true -> leb a c = true.

Lemma insert_by_sorted (x : A) (l : list A) :
  StronglySorted (fun a b => leb a b = true) l ->
  StronglySorted (fun a b => leb a b = true) (insert_by leb x l).
Proof.
  induction 1 as [|y t Hs IH Hall]; simpl.
  - repeat constructor.
  - destruct (leb x y) eqn:E.
    + constructor; [constructor; assumption |].
      constructor; [exact E |].
      eapply Forall_impl; [| exact Hall].
      intros z Hz. exact (leb_trans _ _ _ E Hz).
    + constructor; [exact IH |].
      assert (Hyx : leb y x = true)
        by (destruct (leb_total x y) as [H|H]; congruence).
      apply (Permutation_Forall (Permutation_sym (insert_by_perm x t))).
      constructor; assumption.
Qed.

Lemma ORDER_BY_sorted (l : list A) :
  StronglySorted (fun a b => leb a b = true) (ORDER_BY leb l).
Proof.
  induction l as [|x t IH]; simpl.
  - constructor.
  - apply insert_by_sorted, IH.
Qed.
End OrderByFacts.

Lemma StronglySorted_map {A B : Type} (f : A -> B)
  (R : A -> A -> Prop) (S : B -> B -> Prop) (l : list A) :
  (forall a b, R a b -> S (f a) (f b)) ->
  StronglySorted R l -> StronglySorted S (map f l).
Proof.
  intros HRS. induction 1 as [|x t Hs IH Hall]; simpl; constructor.
  - exact IH.
  - apply Forall_map. eapply Forall_impl; [| exact Hall].
    intros b Hb. apply HRS, Hb.
Qed.

Lemma expiry_leb_total (a b : Food.t) :
  expiry_leb a b = true \/ expiry_leb b a = true.
Proof. unfold expiry_leb. rewrite !Z.leb_le. lia. Qed.

Lemma expiry_leb_trans (a b c : Food.t) :
  expiry_leb a b = true -> expiry_leb b c = true -> expiry_leb a c = true.
Proof. unfold expiry_leb. rewrite !Z.leb_le. lia. Qed.

Lemma string_leb_le (a b : string) :
  (a <=? b)%string = true <-> a = b \/ OrderedTypeEx.String_as_OT.lt a b.
Proof.
  unfold String.leb.
  destruct (String.compare a b) eqn:E.
  - apply OrderedTypeEx.String_as_OT.cmp_eq in E. tauto.
  - apply OrderedTypeEx.String_as_OT.cmp_lt in E. tauto.
  - split; [discriminate |].
    intros [H | H].
    + apply OrderedTypeEx.String_as_OT.cmp_eq in H.
      unfold OrderedTypeEx.String_as_OT.cmp in H. congruence.
    + apply OrderedTypeEx.String_as_OT.cmp_lt in H.
      unfold OrderedTypeEx.String_as_OT.cmp in H. congruence.
Qed.

Lemma string_leb_trans (a b c : string) :
  (a <=? b)%string = true -> (b <=? c)%string = true -> (a <=? c)%string = true.
Proof.
  rewrite !string_leb_le.
  intros [-> | Hab] [-> | Hbc]; auto.
  right. exact (OrderedTypeEx.String_as_OT.lt_trans _ _ _ Hab Hbc).
Qed.

(** ** Quantity category and days to expiry *)

Lemma qty_cat_cases (qty : Z) :
  (qty < 5 /\ qty_cat qty = "Small") \/
  (5 <= qty <= 20 /\ qty_cat qty = "Medium") \/
  (20 < qty /\ qty_cat qty = "Large").
Proof.
  unfold qty_cat.
  destruct (qty <? 5) eqn:E1; [apply Z.ltb_lt in E1; auto |].
  apply Z.ltb_ge in E1.
  destruct (qty <=? 20) eqn:E2; [apply Z.leb_le in E2 | apply Z.leb_gt in E2];
    auto.
Qed.

(** What line 335 computes: the day difference, less one unless the clock
    reads midnight exactly. *)
Lemma days_to_exp_floor (exp : date) (today : Timestamp) :
  days_to_exp exp today =
  toordinal exp - toordinal (Timestamp_date today)
  - (if time_of_day today =? 0 then 0 else 1).
Proof.
  unfold days_to_exp, days, Timestamp_sub, to_datetime, Timestamp_date,
    time_of_day, NS_PER_DAY, EPOCH_ORDINAL; simpl.
  destruct (Z.eqb_spec (value today mod 86400000000000) 0);
    Z.div_mod_to_equations; lia.
Qed.

(** ** Query 5 *)

(** The fractional test of the query is a test on whole calendar days. *)
Lemma expiring_within_calendar (now N : Z) (f : Food.t) :
  expiring_within now N f =
  (toordinal (Food.Expiry_Date f) - toordinal (utc_date now) <=? N).
Proof.
  unfold expiring_within.
  apply eq_true_iff_eq.
  rewrite Qle_bool_iff, Z.leb_le.
  unfold Qle, julianday, iJD_of_date, utc_date, MS_PER_DAY.
  cbn -[Z.mul Z.add Z.div Z.opp Z.sub].
  Z.div_mod_to_equations. lia.
Qed.

Lemma query5_rows_calendar (now N : Z) (d : db) :
  query5_rows now N d =
  ORDER_BY expiry_leb
    (filter (fun f => toordinal (Food.Expiry_Date f) - toordinal (utc_date now) <=? N)
            (food_listings d)).
Proof.
  unfold query5_rows. f_equal.
  apply filter_ext. intros f. apply expiring_within_calendar.
Qed.

(** C7.  Query 5 with threshold [N], run at the instant [now]: its rows are
    the selected columns of exactly the listings whose expiry day minus the
    current (UTC) day is at most [N], each as often as the table holds it,
    in ascending order of expiry date; the time of day of [now] plays no
    part, so two instants of one day give the same answer. *)
Theorem query5_expiring_soon (now N : Z) (d : db) :
  query5 now N d = map expiring_columns (query5_rows now N d)
  /\ Permutation (query5_rows now N d)
       (filter (fun f => toordinal (Food.Expiry_Date f) - toordinal (utc_date now) <=? N)
               (food_listings d))
  /\ (forall f, In f (query5_rows now N d) <->
                In f (food_listings d) /\
                toordinal (Food.Expiry_Date f) - toordinal (utc_date now) <= N)
  /\ StronglySorted
       (fun a b => toordinal (e_Expiry_Date a) <= toordinal (e_Expiry_Date b))
       (query5 now N d)
  /\ (forall now', utc_date now' = utc_date now ->
                   query5 now' N d = query5 now N d).
Proof.
  split; [reflexivity |].
  split; [rewrite query5_rows_calendar; apply ORDER_BY_perm |].
  split.
  { intros f. rewrite query5_rows_calendar, ORDER_BY_In, filter_In, Z.leb_le.
    tauto. }
  split.
  { unfold query5, query5_rows.
    apply StronglySorted_map with (R := fun a b => expiry_leb a b = true).
    - intros a b H. unfold expiry_leb in H. apply Z.leb_le in H. exact H.
    - apply ORDER_BY_sorted; [apply expiry_leb_total | apply expiry_leb_trans]. }
  intros now' Hday. unfold query5.
  rewrite !query5_rows_calendar, Hday. reflexivity.
Qed.

(** ** The handlers *)

Arguments execute : simpl never.

Ltac run_python :=
  cbv beta iota zeta delta
    [press add_provider add_food add_claim update_contact update_quantity
     update_status delete_provider delete_food delete_claim try_except bind
     run_write get_conn show cache_data_clear ret fetch_df read_through
     remember] in *;
  simpl in *.

Lemma app_one_neq {A : Type} (l : list A) (x : A) : (l ++ [x])%list <> l.
Proof.
  intros H. apply (f_equal (@List.length A)) in H.
  rewrite length_app in H. simpl in H. lia.
Qed.

Lemma nonblank_true (s : string) : nonblank s = true <-> s <> "".
Proof. destruct s; simpl; split; congruence. Qed.

Section HandlerFacts.
Variable DataFrame : Type.
Variable read_sql_query : string -> list sqlval -> db -> DataFrame + exn.
Implicit Types w : world DataFrame.

(** A read on an empty cache goes to the database. *)
Lemma fetch_df_cold (now : Z) (sql : string) (params : list sqlval) w :
  cache_data w = [] ->
  fst (fetch_df read_sql_query now sql params w) =
  match read_sql_query sql params (database w) with
  | inl df => Ok df
  | inr e => Raise e
  end.
Proof.
  intros Hc. unfold fetch_df. rewrite Hc. run_python.
  destruct (conn w); simpl;
    destruct (read_sql_query sql params (database w)); reflexivity.
Qed.

(** A committing statement followed by the success message and the clear. *)
Lemma write_then_clear (s : statement) (m : message) w :
  let r := bind (run_write s) (fun _ => bind (show m) (fun _ => cache_data_clear)) w in
  journal (snd r) <> journal w -> cache_data (snd r) = [].
Proof.
  run_python.
  destruct (conn w) as [c|]; simpl;
    destruct (execute _ s (database w)) as [[id d']|e]; simpl; congruence.
Qed.

Lemma write_then_clear_guarded (s : statement) (m : message)
  (handler : exn -> M DataFrame unit) w :
  (forall e w0, journal (snd (handler e w0)) = journal w0) ->
  let r := try_except
             (bind (run_write s) (fun _ => bind (show m) (fun _ => cache_data_clear)))
             handler w in
  journal (snd r) <> journal w -> cache_data (snd r) = [].
Proof.
  intros Hh. run_python.
  destruct (conn w) as [c|]; simpl;
    destruct (execute _ s (database w)) as [[id d']|e]; simpl;
    try congruence; rewrite Hh; simpl; congruence.
Qed.

Lemma show_keeps_journal (m : message) w : journal (snd (show m w)) = journal w.
Proof. reflexivity. Qed.

(** C9.  Whichever button of the CRUD tab is pressed, with whatever its form
    holds and in whatever state: if the press committed a statement, the
    memo of reads is empty when the handler is done, and a read of any query
    with any parameters at any later time returns what the database then
    holds, and none of the answers memoised before. *)
Theorem write_invalidates_reads (today : Timestamp) (b : button) w :
  let w' := snd (press today b w) in
  journal w' <> journal w ->
  cache_data w' = [] /\
  forall (now : Z) (sql : string) (params : list sqlval),
    fst (fetch_df read_sql_query now sql params w') =
    match read_sql_query sql params (database w') with
    | inl df => Ok df
    | inr e => Raise e
    end.
Proof.
  intros w' Hj.
  assert (Hc : cache_data w' = []).
  { subst w'. destruct b; unfold press in *;
      try (unfold update_contact, update_quantity, update_status, delete_claim in *;
           apply write_then_clear; exact Hj);
      try (unfold delete_provider, delete_food in *;
           apply write_then_clear_guarded; [intros; apply show_keeps_journal | exact Hj]).
    - unfold add_provider in *.
      destruct (nonblank name && nonblank city);
        [apply write_then_clear; exact Hj | simpl in Hj; congruence].
    - unfold add_food in *.
      destruct (truthy_id provider_id && nonblank food_name && nonblank location);
        [apply write_then_clear; exact Hj | simpl in Hj; congruence].
    - unfold add_claim in *.
      destruct (truthy_id food_id && truthy_id receiver_id);
        [apply write_then_clear; exact Hj | simpl in Hj; congruence]. }
  split; [exact Hc |].
  intros now sql params. apply fetch_df_cold, Hc.
Qed.

(** C8.  Create Provider commits its INSERT exactly when name and city are
    both non-empty, and then the table gains the row; with either of them
    empty the handler returns having shown the error, and the database, the
    journal, the connection and the memo are what they were. *)
Theorem create_provider_validates (name ptype address city contact : string) w :
  let r := add_provider name ptype address city contact w in
  let w' := snd r in
  (journal w' <> journal w <-> name <> "" /\ city <> "")
  /\ (name <> "" /\ city <> "" ->
      journal w' = (journal w ++ [INSERT_provider name ptype address city contact])%list
      /\ exists p,
           providers (database w') = (providers (database w) ++ [p])%list
           /\ Provider.Name p = name /\ Provider.City p = city)
  /\ (name = "" \/ city = "" ->
      fst r = Ok tt
      /\ database w' = database w
      /\ journal w' = journal w
      /\ conn w' = conn w
      /\ cache_data w' = cache_data w
      /\ page w' = (page w ++ [error "Name and City are required."])%list).
Proof.
  intros r w'. subst w' r.
  assert (Hyes : name <> "" /\ city <> "" ->
            journal (snd (add_provider name ptype address city contact w)) =
              (journal w ++ [INSERT_provider name ptype address city contact])%list
            /\ exists p,
                 providers (database (snd (add_provider name ptype address city contact w))) =
                   (providers (database w) ++ [p])%list
                 /\ Provider.Name p = name /\ Provider.City p = city).
  { intros [Hn Hc]. apply nonblank_true in Hn, Hc.
    unfold add_provider. rewrite Hn, Hc. run_python.
    destruct (conn w); simpl; (split; [reflexivity |]);
      eexists; (split; [reflexivity |]); simpl; auto. }
  assert (Hno : name = "" \/ city = "" ->
            add_provider name ptype address city contact w =
            show (error "Name and City are required.") w).
  { intros H. unfold add_provider.
    destruct H as [-> | ->]; simpl; [reflexivity |].
    rewrite andb_false_r. reflexivity. }
  split; [| split].
  - split.
    + intros Hj.
      destruct (string_dec name "") as [Hn|Hn];
        [rewrite Hno in Hj by auto; simpl in Hj; congruence |].
      destruct (string_dec city "") as [Hc|Hc];
        [rewrite Hno in Hj by auto; simpl in Hj; congruence |].
      auto.
    + intros H. destruct (Hyes H) as [Hj _]. rewrite Hj. apply app_one_neq.
  - exact Hyes.
  - intros H. rewrite (Hno H). simpl. repeat split.
Qed.
End HandlerFacts.

(** ** Deleting a provider *)

Section DeleteFacts.
Variable DataFrame : Type.
Implicit Types w : world DataFrame.

Lemma existsb_filter_In_provider (d : db) (pid : Z) (p : Provider.t) :
  In p (filter (fun p => negb (Provider.Provider_ID p =? pid)) (providers d)) ->
  Provider.Provider_ID p <> pid.
Proof.
  rewrite filter_In. intros [_ H]. apply negb_true_iff, Z.eqb_neq in H. exact H.
Qed.

(** C2.  On the connection [get_conn] opens, Delete Provider for a provider
    that exists and owns a listing does not fail: the handler returns, shows
    "Provider deleted.", the provider's row is gone, and the listings stay,
    now pointing at no provider. *)
Theorem delete_provider_ignores_listings (d : db) (pid : Z) :
  has_provider d pid = true ->
  owns_listing d pid = true ->
  let r := delete_provider pid (session_start (DataFrame := DataFrame) d) in
  fst r = Ok tt
  /\ page (snd r) = [success "Provider deleted."]
  /\ journal (snd r) = [DELETE_provider pid]
  /\ (forall p, In p (providers (database (snd r))) -> Provider.Provider_ID p <> pid)
  /\ food_listings (database (snd r)) = food_listings d
  /\ owns_listing (database (snd r)) pid = true.
Proof.
  intros Hp Ho. run_python. unfold execute. simpl.
  repeat split; try assumption.
  intros p. apply existsb_filter_In_provider.
Qed.

(** The same press on a connection that enforces references: the error is
    shown and nothing changes. *)
Lemma delete_provider_enforced (pid : Z) w :
  conn w = Some {| foreign_keys := true |} ->
  has_provider (database w) pid = true ->
  owns_listing (database w) pid = true ->
  let r := delete_provider pid w in
  fst r = Ok tt
  /\ database (snd r) = database w
  /\ journal (snd r) = journal w
  /\ page (snd r) =
     (page w ++ [error "Delete failed (likely FK constraint): FOREIGN KEY constraint failed"])%list.
Proof.
  intros Hc Hp Ho. run_python. rewrite Hc. simpl.
  unfold execute. simpl. rewrite Hp, Ho. simpl. repeat split.
Qed.
End DeleteFacts.

Lemma delete_provider_ignores_listings_witness :
  has_provider acme_with_bread 1 = true
  /\ owns_listing acme_with_bread 1 = true
  /\ let r := delete_provider 1 (session_start (DataFrame := unit) acme_with_bread) in
     fst r = Ok tt
     /\ page (snd r) = [success "Provider deleted."]
     /\ journal (snd r) = [DELETE_provider 1]
     /\ (forall p, In p (providers (database (snd r))) -> Provider.Provider_ID p <> 1)
     /\ food_listings (database (snd r)) = food_listings acme_with_bread
     /\ owns_listing (database (snd r)) 1 = true.
Proof.
  split; [reflexivity |]. split; [reflexivity |].
  apply (delete_provider_ignores_listings unit acme_with_bread 1); reflexivity.
Defined.

(** ** Creating a listing *)

Section CreateFacts.
Variable DataFrame : Type.
Implicit Types w : world DataFrame.

(** What a committed Create Food Listing adds to the table. *)
Lemma add_food_row (today : Timestamp) (provider : string)
  (provider_id : option Z) (food_name : string) (qty : Z) (exp : date)
  (provider_type location ftype mtype : string) w :
  let w' := snd (add_food today provider provider_id food_name qty exp
                          provider_type location ftype mtype w) in
  journal w' <> journal w ->
  exists r,
    food_listings (database w') = (food_listings (database w) ++ [r])%list
    /\ Food.Quantity r = qty
    /\ Food.Expiry_Date r = exp
    /\ Food.Days_To_Expiry r = days_to_exp exp today
    /\ Food.Quantity_Category r = qty_cat qty.
Proof.
  unfold add_food.
  destruct (truthy_id provider_id && nonblank food_name && nonblank location);
    [| simpl; congruence].
  run_python. unfold execute.
  destruct (conn w) as [c|]; simpl.
  - destruct (foreign_keys c && negb (has_provider (database w) (the_id provider_id)));
      simpl; [congruence |].
    intros _. eexists. split; [reflexivity |]. simpl. auto.
  - intros _. eexists. split; [reflexivity |]. simpl. auto.
Qed.

(** C4.  The category line 336 computes is "Small" exactly below 5, "Medium"
    exactly from 5 to 20 and "Large" exactly above 20 (so 3 is Small, 5, 10
    and 20 are Medium, 25 is Large), and it is what a committed Create Food
    Listing stores in the new row, beside the quantity itself. *)
Theorem quantity_category_thresholds (qty : Z) :
  (qty_cat qty = "Small" <-> qty < 5)
  /\ (qty_cat qty = "Medium" <-> 5 <= qty <= 20)
  /\ (qty_cat qty = "Large" <-> 20 < qty)
  /\ (qty_cat 3 = "Small" /\ qty_cat 5 = "Medium" /\ qty_cat 10 = "Medium"
      /\ qty_cat 20 = "Medium" /\ qty_cat 25 = "Large")
  /\ (forall today provider provider_id food_name exp provider_type location
             ftype mtype w,
        let w' := snd (add_food today provider provider_id food_name qty exp
                                provider_type location ftype mtype w) in
        journal w' <> journal w ->
        exists r,
          food_listings (database w') = (food_listings (database w) ++ [r])%list
          /\ Food.Quantity r = qty
          /\ Food.Quantity_Category r = qty_cat qty).
Proof.
  assert (Hcases := qty_cat_cases qty).
  split; [| split; [| split; [| split]]].
  - split; intros H; destruct Hcases as [[Hq E]|[[Hq E]|[Hq E]]];
      try assumption; try lia; rewrite E in H; discriminate.
  - split; intros H; destruct Hcases as [[Hq E]|[[Hq E]|[Hq E]]];
      try assumption; try lia; rewrite E in H; discriminate.
  - split; intros H; destruct Hcases as [[Hq E]|[[Hq E]|[Hq E]]];
      try assumption; try lia; rewrite E in H; discriminate.
  - repeat split.
  - intros today provider provider_id food_name exp provider_type location
      ftype mtype w w' Hj.
    destruct (add_food_row today provider provider_id food_name qty exp
                provider_type location ftype mtype w Hj)
      as (r & Hr & Hq & _ & _ & Hc).
    exists r. auto.
Qed.
End CreateFacts.

Lemma quantity_category_thresholds_witness :
  exists r,
    food_listings
      (database (snd (add_food (DataFrame := unit) jan10_10am "Acme Grocers"
                        (Some 1) "Bread" 15 jan10 "" "Springfield"
                        "Vegetarian" "Breakfast" (session_start acme_alone))))
    = [r]
    /\ Food.Quantity r = 15
    /\ Food.Quantity_Category r = "Medium".
Proof.
  destruct (quantity_category_thresholds unit 15) as (_ & _ & _ & _ & H).
  apply (H jan10_10am "Acme Grocers" (Some 1) "Bread" jan10 "" "Springfield"
           "Vegetarian" "Breakfast" (session_start acme_alone)).
  vm_compute. discriminate.
Defined.

(** C6.  Create Food Listing pressed at ten in the morning with the expiry
    date left at the form's default, today: the calendar-day difference is
    0, and the row is stored with [Days_To_Expiry = -1]. *)
Theorem same_day_expiry_stored_as_minus_one :
  let exp := Timestamp_date jan10_10am in
  let w' := snd (add_food (DataFrame := unit) jan10_10am "Acme Grocers"
                   (Some 1) "Bread" 15 exp "" "Springfield" "Vegetarian"
                   "Breakfast" (session_start acme_alone)) in
  exp = jan10
  /\ toordinal exp - toordinal (Timestamp_date jan10_10am) = 0
  /\ map Food.Expiry_Date (food_listings (database w')) = [jan10]
  /\ map Food.Days_To_Expiry (food_listings (database w')) = [-1].
Proof. vm_compute. repeat split. Qed.

(** No statement the handlers issue rewrites the snapshot of a stored row:
    an UPDATE or a DELETE on another table leaves the column as it is. *)
Lemma updates_keep_days_to_expiry (fk : bool) (s : statement) (d d' : db)
  (id : option Z) :
  execute fk s d = inl (id, d') ->
  (forall fid, s <> DELETE_food fid) ->
  (forall a b c e f g h i j k, s <> INSERT_food a b c e f g h i j k) ->
  map Food.Days_To_Expiry (food_listings d') =
  map Food.Days_To_Expiry (food_listings d).
Proof.
  intros H Hd Hi. unfold execute in H.
  destruct s; simpl in H;
    try (injection H as _ <-; reflexivity);
    try (exfalso; eapply Hd; reflexivity);
    try (exfalso; eapply Hi; reflexivity).
  - destruct (fk && negb (has_food d Food_ID && has_receiver d Receiver_ID));
      [discriminate | injection H as _ <-; reflexivity].
  - injection H as _ <-. simpl. rewrite map_map. apply map_ext.
    intros f. destruct (Food.Food_ID f =? Food_ID); reflexivity.
  - destruct (fk && has_provider d Provider_ID && owns_listing d Provider_ID);
      [discriminate | injection H as _ <-; reflexivity].
Qed.

(** ** The theorems above at the scenario *)

Lemma write_invalidates_reads_witness :
  let w' := snd (press jan10_10am (Update_Quantity 12 1) session_with_memo) in
  journal w' <> journal session_with_memo
  /\ cache_data w' = []
  /\ forall (now : Z) (sql : string) (params : list sqlval),
       fst (fetch_df listings_reader now sql params w') =
       match listings_reader sql params (database w') with
       | inl df => Ok df
       | inr e => Raise e
       end.
Proof.
  split; [vm_compute; discriminate |].
  apply (write_invalidates_reads (list Food.t) listings_reader jan10_10am
           (Update_Quantity 12 1) session_with_memo).
  vm_compute. discriminate.
Defined.

Lemma create_provider_validates_witness :
  exists p,
    providers
      (database (snd (add_provider (DataFrame := unit) "Acme Grocers"
                        "Grocery Store" "12 Main St" "Springfield" "555-0100"
                        (session_start
                           {| providers := []; receivers := [];
                              food_listings := []; claims := [] |}))))
    = [p]
    /\ Provider.Name p = "Acme Grocers" /\ Provider.City p = "Springfield".
Proof.
  destruct (create_provider_validates unit "Acme Grocers" "Grocery Store"
              "12 Main St" "Springfield" "555-0100"
              (session_start
                 {| providers := []; receivers := [];
                    food_listings := []; claims := [] |}))
    as (_ & H & _).
  destruct H as (_ & H); [split; discriminate | exact H].
Defined.

(** ** Joins and groups *)

Section RelationalFacts.
Context {A B K : Type}.

Lemma JOIN_In (on : A -> B -> bool) (l : list A) (r : list B) (a : A) (b : B) :
  In (a, b) (JOIN on l r) <-> In a l /\ In b r /\ on a b = true.
Proof.
  unfold JOIN. rewrite in_flat_map. split.
  - intros (a' & Ha & Hin). apply in_map_iff in Hin.
    destruct Hin as (b' & Heq & Hb). injection Heq as <- <-.
    apply filter_In in Hb. tauto.
  - intros (Ha & Hb & Hon). exists a. split; [exact Ha |].
    apply in_map, filter_In. auto.
Qed.

Lemma pad_In (a a' : A) (ms : list B) (ob : option B) :
  In (a', ob) (pad a ms) <->
  a' = a /\ match ob with
            | Some b => In b ms
            | None => ms = []
            end.
Proof.
  unfold pad. destruct ms as [|m ms].
  - simpl. split.
    + intros [H | []]. injection H as <- <-. auto.
    + intros [-> H]. destruct ob; [contradiction | auto].
  - rewrite in_map_iff. split.
    + intros (b & Heq & Hb). injection Heq as <- <-. auto.
    + intros [-> H]. destruct ob as [b|]; [| discriminate].
      exists b. auto.
Qed.

Lemma LEFT_JOIN_In (on : A -> B -> bool) (l : list A) (r : list B)
  (a : A) (ob : option B) :
  In (a, ob) (LEFT_JOIN on l r) <->
  In a l /\ match ob with
            | Some b => In b r /\ on a b = true
            | None => forall b, In b r -> on a b = false
            end.
Proof.
  unfold LEFT_JOIN. rewrite in_flat_map. split.
  - intros (a' & Ha & Hin). apply pad_In in Hin. destruct Hin as [-> Hin].
    split; [exact Ha |]. destruct ob as [b|].
    + apply filter_In in Hin. exact Hin.
    + intros b Hb. destruct (on a' b) eqn:E; [| reflexivity].
      assert (Hf : In b (filter (on a') r)) by (apply filter_In; auto).
      rewrite Hin in Hf. contradiction.
  - intros [Ha H]. exists a. split; [exact Ha |]. apply pad_In.
    split; [reflexivity |]. destruct ob as [b|].
    + apply filter_In. exact H.
    + destruct (filter (on a) r) as [|b t] eqn:E; [reflexivity |].
      assert (Hf : In b (filter (on a) r)) by (rewrite E; left; reflexivity).
      apply filter_In in Hf. destruct Hf as [Hb Hon].
      rewrite (H b Hb) in Hon. discriminate.
Qed.

(** Every left row survives a left join. *)
Lemma LEFT_JOIN_keeps (on : A -> B -> bool) (l : list A) (r : list B) (a : A) :
  In a l -> exists ob, In (a, ob) (LEFT_JOIN on l r).
Proof.
  intros Ha. destruct (filter (on a) r) as [|b t] eqn:E.
  - exists None. apply LEFT_JOIN_In. split; [exact Ha |].
    intros b Hb. destruct (on a b) eqn:Hon; [| reflexivity].
    assert (Hf : In b (filter (on a) r)) by (apply filter_In; auto).
    rewrite E in Hf. contradiction.
  - exists (Some b). apply LEFT_JOIN_In. split; [exact Ha |].
    apply filter_In. rewrite E. left. reflexivity.
Qed.

Variable eqb : K -> K -> bool.
Hypothesis eqb_eq : forall a b, eqb a b = true <-> a = b.

Lemma distinct_In (ks : list K) (k : K) : In k (distinct eqb ks) <-> In k ks.
Proof.
  induction ks as [|k0 rest IH]; simpl; [tauto |].
  rewrite filter_In, IH, negb_true_iff. split.
  - intros [H | [H _]]; auto.
  - intros [H | H]; [auto |].
    destruct (eqb k k0) eqn:E; [apply eqb_eq in E; auto | auto].
Qed.

Lemma distinct_NoDup (ks : list K) : NoDup (distinct eqb ks).
Proof.
  induction ks as [|k0 rest IH]; simpl; constructor.
  - rewrite filter_In, negb_true_iff. intros [_ H].
    assert (E : eqb k0 k0 = true) by (apply eqb_eq; reflexivity). congruence.
  - apply NoDup_filter, IH.
Qed.

Lemma GROUP_BY_In (key : A -> K) (rows : list A) (k : K) (g : list A) :
  In (k, g) (GROUP_BY eqb key rows) <->
  (exists r, In r rows /\ key r = k) /\ g = filter (fun r => eqb (key r) k) rows.
Proof.
  unfold GROUP_BY. rewrite in_map_iff. split.
  - intros (k' & Heq & Hk). injection Heq as <- <-.
    apply distinct_In, in_map_iff in Hk. destruct Hk as (r & Hr & Hin).
    split; [exists r; auto | reflexivity].
  - intros [(r & Hin & Hr) ->]. exists k. split; [reflexivity |].
    apply distinct_In, in_map_iff. exists r. auto.
Qed.

Lemma GROUP_BY_keys (key : A -> K) (rows : list A) :
  map fst (GROUP_BY eqb key rows) = distinct eqb (map key rows).
Proof. unfold GROUP_BY. rewrite map_map. simpl. apply map_id. Qed.
End RelationalFacts.

Lemma COUNT_zero {V : Type} (vals : list (option V)) :
  (COUNT vals =? 0) = true <-> forall v, In v vals -> v = None.
Proof.
  unfold COUNT. rewrite Z.eqb_eq. induction vals as [|[x|] t IH]; simpl.
  - split; [intros _ v [] | reflexivity].
  - split; [lia |]. intros H. specialize (H (Some x) (or_introl eq_refl)).
    discriminate.
  - rewrite IH. split.
    + intros H v [<- | Hv]; auto.
    + intros H v Hv. apply H. auto.
Qed.

Lemma key_eqb_eq (a b : Z * string) : key_eqb a b = true <-> a = b.
Proof.
  unfold key_eqb. destruct a as [i n], b as [j m]. simpl.
  rewrite andb_true_iff, Z.eqb_eq, String.eqb_eq. split.
  - intros [-> ->]. reflexivity.
  - intros H. injection H as -> ->. auto.
Qed.

Lemma name_leb_total (a b : Z * string) :
  name_leb a b = true \/ name_leb b a = true.
Proof. apply String.leb_total. Qed.

Lemma name_leb_trans (a b c : Z * string) :
  name_leb a b = true -> name_leb b c = true -> name_leb a c = true.
Proof. apply string_leb_trans. Qed.

(** ** Query 14 *)

Lemma query14_joined_In (d : db) (p : Provider.t) (lf : option Food.t)
  (oc : option Claim.t) :
  In (p, lf, oc) (query14_joined d) ->
  In p (providers d)
  /\ match oc with
     | Some c =>
         In c (claims d)
         /\ exists f, lf = Some f /\ In f (food_listings d)
                      /\ Food.Provider_ID f = Provider.Provider_ID p
                      /\ Claim.Food_ID c = Food.Food_ID f
     | None => True
     end.
Proof.
  unfold query14_joined. intros H.
  apply LEFT_JOIN_In in H. destruct H as [Hpf Hc].
  apply LEFT_JOIN_In in Hpf. destruct Hpf as [Hp Hf].
  split; [exact Hp |].
  destruct oc as [c|]; [| exact I].
  destruct Hc as [Hc Hon]. split; [exact Hc |].
  simpl in Hon. destruct lf as [f|]; [| discriminate].
  destruct Hf as [Hf Hpid]. apply Z.eqb_eq in Hon, Hpid.
  exists f. repeat split; auto.
Qed.

Lemma query14_joined_claimed (d : db) (p : Provider.t) (f : Food.t)
  (c : Claim.t) :
  In p (providers d) -> In f (food_listings d) -> In c (claims d) ->
  Food.Provider_ID f = Provider.Provider_ID p ->
  Claim.Food_ID c = Food.Food_ID f ->
  In (p, Some f, Some c) (query14_joined d).
Proof.
  intros Hp Hf Hc Hpid Hfid. unfold query14_joined.
  apply LEFT_JOIN_In. split.
  - apply LEFT_JOIN_In. split; [exact Hp |]. split; [exact Hf |].
    apply Z.eqb_eq. auto.
  - split; [exact Hc |]. simpl. apply Z.eqb_eq. auto.
Qed.

Lemma query14_joined_keeps (d : db) (p : Provider.t) :
  In p (providers d) -> exists lf oc, In (p, lf, oc) (query14_joined d).
Proof.
  intros Hp. unfold query14_joined.
  destruct (LEFT_JOIN_keeps
              (fun p f => Provider.Provider_ID p =? Food.Provider_ID f)
              (providers d) (food_listings d) p Hp) as [lf Hof].
  destruct (LEFT_JOIN_keeps
              (fun (pf : Provider.t * option Food.t) c =>
                 match snd pf with
                 | Some f => Food.Food_ID f =? Claim.Food_ID c
                 | None => false
                 end)
              _ (claims d) (p, lf) Hof) as [oc Hoc].
  exists lf, oc. exact Hoc.
Qed.

Lemma query14_member (d : db) (id : Z) (name : string) :
  In (id, name) (query14 d) <->
  (exists p, In p (providers d) /\ Provider.Provider_ID p = id
             /\ Provider.Name p = name)
  /\ (forall f c, In f (food_listings d) -> In c (claims d) ->
                  Food.Provider_ID f = id ->
                  Claim.Food_ID c <> Food.Food_ID f).
Proof.
  unfold query14. rewrite ORDER_BY_In, in_map_iff. split.
  - intros ([k g] & Hk & Hin). simpl in Hk. subst k.
    apply filter_In in Hin. destruct Hin as [Hg Hcount]. simpl in Hcount.
    apply (GROUP_BY_In key_eqb key_eqb_eq) in Hg.
    destruct Hg as [([[p lf] oc] & Hrow & Hkey) ->].
    simpl in Hkey. unfold provider_key in Hkey. injection Hkey as Hid Hname.
    pose proof (query14_joined_In d p lf oc Hrow) as [Hp _].
    split; [exists p; auto |].
    intros f c Hf Hc Hpid Hfid.
    rewrite COUNT_zero in Hcount.
    assert (Hsome : Some (Claim.Claim_ID c) = None); [| discriminate].
    apply Hcount. apply in_map_iff. exists (p, Some f, Some c).
    split; [reflexivity |]. apply filter_In. split.
    + apply query14_joined_claimed; auto. congruence.
    + simpl. apply key_eqb_eq. unfold provider_key. congruence.
  - intros [(p & Hp & Hid & Hname) Hnone].
    destruct (query14_joined_keeps d p Hp) as (lf & oc & Hrow).
    exists ((id, name),
            filter (fun r => key_eqb (provider_key (fst (fst r))) (id, name))
                   (query14_joined d)).
    split; [reflexivity |]. apply filter_In. split.
    + apply (GROUP_BY_In key_eqb key_eqb_eq). split; [| reflexivity].
      exists (p, lf, oc). split; [exact Hrow |].
      simpl. unfold provider_key. congruence.
    + simpl. apply COUNT_zero. intros v Hv.
      apply in_map_iff in Hv. destruct Hv as ([[p' lf'] oc'] & <- & Hin).
      apply filter_In in Hin. destruct Hin as [Hrow' Hkey]. simpl in Hkey.
      apply key_eqb_eq in Hkey. unfold provider_key in Hkey.
      injection Hkey as Hid' _. simpl.
      destruct oc' as [c|]; [| reflexivity].
      destruct (query14_joined_In d p' lf' (Some c) Hrow')
        as (_ & Hc & f & _ & Hf & Hpid & Hfid).
      exfalso. apply (Hnone f c Hf Hc); congruence.
Qed.

(** C5.  Query 14 returns the [(Provider_ID, Name)] of exactly the providers
    no listing of which has a claim, each once: so a provider with listings
    and no claim on any of them is returned, a provider with no listing at
    all is returned, a provider with a claimed listing is not; and the rows
    come in ascending order of name. *)
Theorem query14_zero_claims (d : db) :
  (forall id name,
     In (id, name) (query14 d) <->
     (exists p, In p (providers d) /\ Provider.Provider_ID p = id
                /\ Provider.Name p = name)
     /\ (forall f c, In f (food_listings d) -> In c (claims d) ->
                     Food.Provider_ID f = id ->
                     Claim.Food_ID c <> Food.Food_ID f))
  /\ (forall p, In p (providers d) ->
                (forall f, In f (food_listings d) ->
                           Food.Provider_ID f <> Provider.Provider_ID p) ->
                In (provider_key p) (query14 d))
  /\ (forall p f c, In p (providers d) -> In f (food_listings d) ->
                    In c (claims d) ->
                    Food.Provider_ID f = Provider.Provider_ID p ->
                    Claim.Food_ID c = Food.Food_ID f ->
                    ~ In (provider_key p) (query14 d))
  /\ NoDup (query14 d)
  /\ StronglySorted (fun a b => (snd a <=? snd b)%string = true) (query14 d).
Proof.
  split; [exact (query14_member d) |].
  split.
  { intros p Hp Hnone. apply query14_member. split.
    - exists p. auto.
    - intros f c Hf _ Hpid _. exact (Hnone f Hf Hpid). }
  split.
  { intros p f c Hp Hf Hc Hpid Hfid Hin.
    apply query14_member in Hin. destruct Hin as [_ Hnone].
    exact (Hnone f c Hf Hc Hpid Hfid). }
  split.
  { unfold query14.
    apply (Permutation_NoDup (Permutation_sym (ORDER_BY_perm name_leb _))).
    set (groups := GROUP_BY key_eqb _ (query14_joined d)).
    assert (Hnd : NoDup (map fst groups)).
    { unfold groups. rewrite GROUP_BY_keys. apply distinct_NoDup, key_eqb_eq. }
    clearbody groups. induction groups as [|g gs IH]; simpl; [constructor |].
    inversion Hnd as [|? ? Hnotin Hrest]; subst.
    destruct (COUNT _ =? 0); simpl; [constructor |]; auto.
    intros Hin. apply Hnotin. apply in_map_iff in Hin.
    destruct Hin as (g' & Hg' & Hin'). apply filter_In in Hin'.
    apply in_map_iff. exists g'. tauto. }
  unfold query14.
  apply (ORDER_BY_sorted name_leb name_leb_total name_leb_trans).
Qed.

(** ** Query 10 *)

Section DistinctFacts.
Context {K : Type} (eqb : K -> K -> bool).
Hypothesis eqb_eq : forall a b, eqb a b = true <-> a = b.

Lemma filter_idem {X : Type} (f : X -> bool) (l : list X) :
  filter f (filter f l) = filter f l.
Proof.
  induction l as [|x t IH]; simpl; [reflexivity |].
  destruct (f x) eqn:E; simpl; [rewrite E |]; congruence.
Qed.

Lemma filter_all {X : Type} (f : X -> bool) (l : list X) :
  (forall x, In x l -> f x = true) -> filter f l = l.
Proof.
  induction l as [|x t IH]; simpl; intros H; [reflexivity |].
  rewrite (H x (or_introl eq_refl)), IH; auto.
Qed.

(** A run of one key at the head counts once. *)
Lemma distinct_run (k : K) (n : nat) (ks : list K) :
  distinct eqb (repeat k (S n) ++ ks)%list =
  k :: filter (fun k' => negb (eqb k' k)) (distinct eqb ks).
Proof.
  induction n as [|n IH].
  - reflexivity.
  - change (repeat k (S (S n)) ++ ks)%list
      with (k :: (repeat k (S n) ++ ks))%list.
    cbn [distinct]. rewrite IH. cbn [filter].
    assert (E : eqb k k = true) by (apply eqb_eq; reflexivity).
    rewrite E. cbn [negb]. rewrite filter_idem. reflexivity.
Qed.

Lemma distinct_run_head (k : K) (n : nat) (ks : list K) :
  distinct eqb (repeat k (S n) ++ ks)%list = distinct eqb (k :: ks).
Proof. rewrite distinct_run. reflexivity. Qed.

Lemma distinct_fresh (k : K) (ks : list K) :
  ~ In k ks ->
  filter (fun k' => negb (eqb k' k)) (distinct eqb ks) = distinct eqb ks.
Proof.
  intros Hk. apply filter_all. intros x Hx.
  apply -> (distinct_In eqb eqb_eq) in Hx. apply negb_true_iff.
  destruct (eqb x k) eqn:E; [| reflexivity].
  apply eqb_eq in E. exfalso. apply Hk. rewrite <- E. exact Hx.
Qed.
End DistinctFacts.

Lemma flat_map_flat_map {X Y W : Type} (f : Y -> list W) (g : X -> list Y)
  (l : list X) :
  flat_map f (flat_map g l) = flat_map (fun x => flat_map f (g x)) l.
Proof.
  induction l as [|x t IH]; simpl; [reflexivity |].
  rewrite flat_map_app, IH. reflexivity.
Qed.

Lemma flat_map_map {X Y W : Type} (f : Y -> list W) (g : X -> Y) (l : list X) :
  flat_map f (map g l) = flat_map (fun x => f (g x)) l.
Proof. induction l as [|x t IH]; simpl; congruence. Qed.

Lemma SUM_app (a b : list Z) : SUM (a ++ b)%list = SUM a + SUM b.
Proof. unfold SUM. induction a as [|x t IH]; simpl; lia. Qed.

Lemma query10_joined_by_provider (d : db) :
  query10_joined d = flat_map (provider_rows d) (providers d).
Proof.
  unfold query10_joined, LEFT_JOIN, JOIN. rewrite flat_map_flat_map.
  apply flat_map_ext. intros p. rewrite flat_map_map. reflexivity.
Qed.

Lemma pad_nonempty {A B : Type} (a : A) (ms : list B) :
  exists n, List.length (pad a ms) = S n.
Proof. destruct ms; simpl; eexists; reflexivity. Qed.

Lemma pad_fst {A B : Type} (a : A) (ms : list B) (r : A * option B) :
  In r (pad a ms) -> fst r = a.
Proof.
  destruct r as [a' ob]. intros H. apply pad_In in H. simpl. tauto.
Qed.

Lemma provider_rows_key (d : db) (p : Provider.t) r :
  In r (provider_rows d p) -> fst (fst r) = p.
Proof.
  unfold provider_rows. rewrite in_flat_map. intros (f & _ & H).
  apply pad_fst in H. rewrite H. reflexivity.
Qed.

Lemma provider_rows_empty (d : db) (p : Provider.t) :
  provider_rows d p = [] <-> owned d p = [].
Proof.
  unfold provider_rows. destruct (owned d p) as [|f fs]; simpl.
  - tauto.
  - split; [| discriminate]. intros H.
    destruct (pad_nonempty (p, f) (claims_on d f)) as [n Hn].
    apply (f_equal (@List.length _)) in H. rewrite length_app, Hn in H.
    discriminate.
Qed.

(** Grouping rows that come provider by provider, on a key that tells the
    providers apart: one group per provider that has rows, holding them. *)
Section GroupFacts.
Context {P R K : Type} (eqb : K -> K -> bool).
Hypothesis eqb_eq : forall a b, eqb a b = true <-> a = b.
Variables (kp : P -> K) (key : R -> K) (rowsf : P -> list R).
Hypothesis rows_key : forall p r, In r (rowsf p) -> key r = kp p.

Lemma keys_of_rows (p : P) :
  map key (rowsf p) = repeat (kp p) (List.length (rowsf p)).
Proof.
  pose proof (rows_key p) as H.
  induction (rowsf p) as [|r t IH]; simpl; [reflexivity |].
  rewrite (H r (or_introl eq_refl)), IH; [reflexivity |].
  intros r' Hr'. apply H. right. exact Hr'.
Qed.

Lemma keys_of_flat_map (l : list P) (k : K) :
  In k (map key (flat_map rowsf l)) -> In k (map kp l).
Proof.
  rewrite !in_map_iff. intros (r & <- & Hr).
  apply in_flat_map in Hr. destruct Hr as (p & Hp & Hr).
  exists p. split; [symmetry; apply rows_key, Hr | exact Hp].
Qed.

Lemma no_rows_for_other_key (l : list P) (k : K) :
  ~ In k (map kp l) ->
  filter (fun r => eqb (key r) k) (flat_map rowsf l) = [].
Proof.
  intros Hk.
  destruct (filter (fun r => eqb (key r) k) (flat_map rowsf l)) as [|r t] eqn:E;
    [reflexivity |].
  assert (Hr : In r (filter (fun r => eqb (key r) k) (flat_map rowsf l)))
    by (rewrite E; left; reflexivity).
  apply filter_In in Hr. destruct Hr as [Hr Hkey]. apply eqb_eq in Hkey.
  exfalso. apply Hk, keys_of_flat_map. rewrite <- Hkey. apply in_map, Hr.
Qed.

Lemma rows_of_own_key (p : P) :
  filter (fun r => eqb (key r) (kp p)) (rowsf p) = rowsf p.
Proof.
  apply filter_all. intros r Hr. apply eqb_eq, rows_key, Hr.
Qed.

Lemma rows_of_group (l : list P) (p : P) :
  NoDup (map kp l) -> In p l ->
  filter (fun r => eqb (key r) (kp p)) (flat_map rowsf l) = rowsf p.
Proof.
  induction l as [|p' t IH]; simpl; intros Hnd Hin; [contradiction |].
  inversion Hnd as [|? ? Hfresh Hrest]; subst.
  rewrite filter_app. destruct Hin as [-> | Hin].
  - rewrite rows_of_own_key, (no_rows_for_other_key t (kp p) Hfresh).
    apply app_nil_r.
  - rewrite (IH Hrest Hin).
    assert (Hne : kp p <> kp p').
    { intros E. apply Hfresh. rewrite <- E. apply in_map, Hin. }
    rewrite (filter_ext_in _ (fun _ => false)); [rewrite filter_false |].
    + reflexivity.
    + intros r Hr. rewrite (rows_key p' r Hr).
      destruct (eqb (kp p') (kp p)) eqn:E; [| reflexivity].
      apply eqb_eq in E. congruence.
Qed.

Lemma keys_of_groups (l : list P) :
  NoDup (map kp l) ->
  distinct eqb (map key (flat_map rowsf l)) =
  map kp (filter (fun p => truthy (rowsf p)) l).
Proof.
  induction l as [|p t IH]; simpl; intros Hnd; [reflexivity |].
  inversion Hnd as [|? ? Hfresh Hrest]; subst.
  rewrite map_app, keys_of_rows.
  destruct (rowsf p) as [|r rs] eqn:E; cbn [List.length truthy].
  - apply IH, Hrest.
  - rewrite (distinct_run eqb eqb_eq), (distinct_fresh eqb eqb_eq).
    + rewrite (IH Hrest). reflexivity.
    + intros Hin. apply Hfresh, keys_of_flat_map, Hin.
Qed.

Lemma GROUP_BY_flat_map (l : list P) :
  NoDup (map kp l) ->
  GROUP_BY eqb key (flat_map rowsf l) =
  map (fun p => (kp p, rowsf p)) (filter (fun p => truthy (rowsf p)) l).
Proof.
  intros Hnd. unfold GROUP_BY.
  rewrite (keys_of_groups l Hnd), map_map.
  apply map_ext_in. intros p Hp. apply filter_In in Hp.
  rewrite (rows_of_group l p Hnd); tauto.
Qed.
End GroupFacts.

Lemma SUM_completed (ms : list Claim.t) :
  SUM (map (fun c => completed (Some c)) ms) =
  Z.of_nat (List.length (filter is_completed ms)).
Proof.
  unfold SUM, is_completed.
  induction ms as [|c t IH]; [reflexivity |].
  cbn [map fold_right filter]. rewrite IH. cbn [completed].
  destruct (Claim.Status c =? "Completed")%string; cbn [List.length]; lia.
Qed.

Lemma completed_in_pad (a : Provider.t * Food.t) (ms : list Claim.t) :
  SUM (map (fun r => completed (snd r)) (pad a ms)) =
  Z.of_nat (List.length (filter is_completed ms)).
Proof.
  destruct ms as [|m ms]; [reflexivity |].
  unfold pad. rewrite map_map. cbn [snd]. apply SUM_completed.
Qed.

Lemma completed_in_rows (d : db) (p : Provider.t) :
  SUM (map (fun r => completed (snd r)) (provider_rows d p)) =
  completed_claims d p.
Proof.
  unfold provider_rows, completed_claims.
  induction (owned d p) as [|f fs IH]; [reflexivity |].
  cbn [flat_map map]. rewrite map_app, SUM_app, completed_in_pad, IH.
  reflexivity.
Qed.

Lemma map_constant {X Y : Type} (y : Y) (l : list X) :
  map (fun _ => y) l = repeat y (List.length l).
Proof. induction l as [|x t IH]; simpl; congruence. Qed.

Lemma food_ids_in_pad (p : Provider.t) (f : Food.t) (ms : list Claim.t) :
  exists n,
    map (fun r : Provider.t * Food.t * option Claim.t => Food.Food_ID (snd (fst r)))
        (pad (p, f) ms) = repeat (Food.Food_ID f) (S n).
Proof.
  destruct ms as [|m ms].
  - exists 0%nat. reflexivity.
  - exists (List.length ms). unfold pad. rewrite map_map. cbn [fst snd].
    apply (map_constant (Food.Food_ID f) (m :: ms)).
Qed.

Lemma distinct_listings_in_rows (d : db) (p : Provider.t) :
  COUNT_DISTINCT
    (map (fun r => Food.Food_ID (snd (fst r))) (provider_rows d p)) =
  distinct_listings d p.
Proof.
  unfold provider_rows, distinct_listings, COUNT_DISTINCT. do 2 f_equal.
  induction (owned d p) as [|f fs IH]; [reflexivity |].
  cbn [flat_map]. rewrite map_app.
  destruct (food_ids_in_pad p f (claims_on d f)) as [n ->].
  rewrite (distinct_run Z.eqb Z.eqb_eq), IH. reflexivity.
Qed.

Lemma distinct_listings_pos (d : db) (p : Provider.t) :
  owned d p <> [] -> 0 < distinct_listings d p.
Proof.
  unfold distinct_listings, COUNT_DISTINCT.
  destruct (owned d p) as [|f fs]; [congruence |].
  intros _. cbn [map distinct List.length]. lia.
Qed.

Lemma fulfillment_rate_of (d : db) (p : Provider.t) :
  owned d p <> [] ->
  fulfillment_rate (provider_rows d p) = Some (rate_of d p).
Proof.
  intros Hown. unfold fulfillment_rate, rate_of.
  rewrite completed_in_rows, distinct_listings_in_rows.
  pose proof (distinct_listings_pos d p Hown) as Hpos.
  assert (E : (distinct_listings d p =? 0) = false) by (apply Z.eqb_neq; lia).
  unfold NULLIF, sql_div, ROUND. rewrite E. cbn [option_map]. rewrite E.
  reflexivity.
Qed.

Lemma provider_keys_NoDup (d : db) :
  NoDup (map Provider.Provider_ID (providers d)) ->
  NoDup (map provider_key (providers d)).
Proof.
  intros H. apply (NoDup_map_inv fst). rewrite map_map. exact H.
Qed.

(** With [Provider_ID] a key, query 10 is one row per provider that owns a
    listing, carrying the rate as the specification words it. *)
Lemma query10_rows (d : db) :
  NoDup (map Provider.Provider_ID (providers d)) ->
  query10 d =
  ORDER_BY rate_desc_leb
    (map (fun p => (Provider.Name p, Some (rate_of d p)))
         (filter (fun p => truthy (owned d p)) (providers d))).
Proof.
  intros Hpk. unfold query10. f_equal.
  rewrite query10_joined_by_provider.
  rewrite (GROUP_BY_flat_map key_eqb key_eqb_eq provider_key
             (fun r => provider_key (fst (fst r))) (provider_rows d)).
  - rewrite map_map. cbn [fst snd].
    rewrite (filter_ext (fun p => truthy (provider_rows d p))
                        (fun p => truthy (owned d p))).
    + apply map_ext_in. intros p Hp. apply filter_In in Hp.
      destruct Hp as [_ Hp]. unfold provider_key at 1. cbn [snd].
      rewrite fulfillment_rate_of; [reflexivity |].
      intros E. rewrite E in Hp. discriminate.
    + intros p. pose proof (provider_rows_empty d p) as He.
      destruct (provider_rows d p), (owned d p); simpl; try reflexivity;
        destruct He as [H1 H2]; [specialize (H1 eq_refl) | specialize (H2 eq_refl)];
        discriminate.
  - intros p r Hr. rewrite (provider_rows_key d p r Hr). reflexivity.
  - apply provider_keys_NoDup, Hpk.
Qed.

Lemma rate_desc_leb_total (a b : string * option Q) :
  rate_desc_leb a b = true \/ rate_desc_leb b a = true.
Proof.
  unfold rate_desc_leb. destruct (snd a) as [x|], (snd b) as [y|]; auto.
  rewrite !Qle_bool_iff. destruct (Qlt_le_dec x y) as [H|H]; auto.
  right. apply Qlt_le_weak, H.
Qed.

Lemma rate_desc_leb_trans (a b c : string * option Q) :
  rate_desc_leb a b = true -> rate_desc_leb b c = true ->
  rate_desc_leb a c = true.
Proof.
  unfold rate_desc_leb.
  destruct (snd a) as [x|], (snd b) as [y|], (snd c) as [z|];
    try reflexivity; try discriminate.
  rewrite !Qle_bool_iff. intros H1 H2. exact (Qle_trans _ _ _ H2 H1).
Qed.

(** C3, as the code has it.  With [Provider_ID] a key of the providers
    table, query 10 has one row for each provider that owns a listing and
    none for the others; the row carries the provider's name and 100 times
    its completed claims over its distinct listings, to two decimals; no
    row has a NULL rate; and rows come by descending rate (a NULL rate,
    were there one, after every number). *)
Theorem query10_fulfillment_rate (d : db) :
  NoDup (map Provider.Provider_ID (providers d)) ->
  Permutation (query10 d)
    (map (fun p => (Provider.Name p, Some (rate_of d p)))
         (filter (fun p => truthy (owned d p)) (providers d)))
  /\ (forall row, In row (query10 d) -> snd row <> None)
  /\ StronglySorted
       (fun a b : string * option Q =>
          match snd a, snd b with
          | Some x, Some y => (y <= x)%Q
          | _, None => True
          | None, Some _ => False
          end)
       (query10 d).
Proof.
  intros Hpk.
  assert (Hperm : Permutation (query10 d)
            (map (fun p => (Provider.Name p, Some (rate_of d p)))
                 (filter (fun p => truthy (owned d p)) (providers d)))).
  { rewrite (query10_rows d Hpk). apply ORDER_BY_perm. }
  split; [exact Hperm |]. split.
  - intros row Hrow. apply (Permutation_in _ Hperm) in Hrow.
    apply in_map_iff in Hrow. destruct Hrow as (p & <- & _). discriminate.
  - rewrite <- (map_id (query10 d)).
    apply StronglySorted_map with (R := fun a b => rate_desc_leb a b = true).
    + intros a b. unfold rate_desc_leb.
      destruct (snd a) as [x|], (snd b) as [y|]; try discriminate; auto.
      apply Qle_bool_iff.
    + unfold query10.
      apply (ORDER_BY_sorted rate_desc_leb rate_desc_leb_total rate_desc_leb_trans).
Qed.

Ltac distinct_ids :=
  repeat (constructor; [simpl; intuition discriminate |]); constructor.

Lemma query10_fulfillment_rate_witness :
  NoDup (map Provider.Provider_ID (providers two_providers))
  /\ Permutation (query10 two_providers)
       (map (fun p => (Provider.Name p, Some (rate_of two_providers p)))
            (filter (fun p => truthy (owned two_providers p))
                    (providers two_providers)))
  /\ query10 two_providers = [("Acme Grocers", Some (5000 # 100))].
Proof.
  split; [distinct_ids |].
  split; [| reflexivity].
  apply (query10_fulfillment_rate two_providers). distinct_ids.
Defined.

(** C3 as stated fails: Acme alone owns no listing, and query 10 has no row
    for it, so none with a NULL rate. *)
Lemma query10_no_row_without_listing :
  In acme (providers acme_alone)
  /\ owned acme_alone acme = []
  /\ query10 acme_alone = []
  /\ ~ (forall p, In p (providers acme_alone) -> owned acme_alone p = [] ->
                  exists rate, In (Provider.Name p, rate) (query10 acme_alone)
                               /\ rate = None).
Proof.
  split; [left; reflexivity |]. split; [reflexivity |]. split; [reflexivity |].
  intros H. destruct (H acme (or_introl eq_refl) eq_refl) as (rate & [] & _).
Qed.

(** ** The WHERE builder *)

Lemma append_assoc (a b c : string) : (a ++ b) ++ c = a ++ (b ++ c).
Proof. induction a as [|x a IH]; simpl; congruence. Qed.

Lemma free_of_app (c : ascii) (a b : string) :
  free_of c (a ++ b) = free_of c a && free_of c b.
Proof.
  induction a as [|x a IH]; simpl; [reflexivity |].
  rewrite IH, andb_assoc. reflexivity.
Qed.

Lemma split_on_whole (c : ascii) (a : string) :
  free_of c a = true -> split_on c a = [a].
Proof.
  induction a as [|x a IH]; simpl; [reflexivity |].
  intros H. apply andb_true_iff in H. destruct H as [Hx Ha].
  apply negb_true_iff in Hx. rewrite Hx, (IH Ha). reflexivity.
Qed.

Lemma split_on_first (c : ascii) (a b : string) :
  free_of c a = true -> split_on c (a ++ String c b) = a :: split_on c b.
Proof.
  induction a as [|x a IH]; simpl.
  - intros _. rewrite Ascii.eqb_refl. reflexivity.
  - intros H. apply andb_true_iff in H. destruct H as [Hx Ha].
    apply negb_true_iff in Hx. rewrite Hx, (IH Ha). reflexivity.
Qed.

(** The marks of a clause: [(], the marks separated by commas, [)]. *)
Lemma placeholders_cons {A : Type} (x y : A) (l : list A) :
  placeholders (x :: y :: l) = "?," ++ placeholders (y :: l).
Proof. reflexivity. Qed.

Lemma more_marks_count {A : Type} (x : A) (l : list A) :
  exists tail,
    placeholders (x :: l) ++ ")" = String "?" tail
    /\ more_marks tail = Some (S (List.length l))
    /\ free_of " " tail = true.
Proof.
  revert x. induction l as [|y l IH]; intros x.
  - exists ")". repeat split.
  - destruct (IH y) as (tail & Htail & Hcount & Hfree).
    exists (String "," (String "?" tail)).
    rewrite placeholders_cons. split; [| split].
    + change (("?," ++ placeholders (y :: l)) ++ ")")
        with (String "?" (String "," (placeholders (y :: l) ++ ")"))).
      rewrite Htail. reflexivity.
    + cbn [more_marks]. cbn. rewrite Hcount. reflexivity.
    + cbn. exact Hfree.
Qed.

Lemma placeholder_count_marks {A : Type} (l : list A) :
  placeholder_count ("(" ++ placeholders l ++ ")") = Some (List.length l)
  /\ free_of " " ("(" ++ placeholders l ++ ")") = true.
Proof.
  destruct l as [|x l]; [split; reflexivity |].
  destruct (more_marks_count x l) as (tail & Htail & Hcount & Hfree).
  rewrite Htail. split; [exact Hcount | exact Hfree].
Qed.

Lemma clause_text_split (c : string * list sqlval) :
  clause_text c = fst c ++ String " " ("IN" ++ String " " (marks_token c)).
Proof. reflexivity. Qed.

Lemma clause_text_then (c : string * list sqlval) (rest : string) :
  clause_text c ++ " AND " ++ rest =
  fst c ++ String " " ("IN" ++ String " "
    (marks_token c ++ String " " ("AND" ++ String " " rest))).
Proof.
  unfold clause_text, marks_token. rewrite append_assoc. cbn [append].
  rewrite append_assoc. reflexivity.
Qed.

Lemma marks_token_free (c : string * list sqlval) :
  free_of " " (marks_token c) = true.
Proof. apply placeholder_count_marks. Qed.

Lemma split_conjunction (l : list (string * list sqlval)) :
  l <> [] -> forallb well_named l = true ->
  split_on " " (String.concat " AND " (map clause_text l)) = tokens l.
Proof.
  induction l as [|c rest IH]; [congruence |].
  intros _ Hn. cbn [forallb] in Hn. apply andb_true_iff in Hn.
  destruct Hn as [Hc Hrest]. unfold well_named in Hc.
  apply andb_true_iff in Hc. destruct Hc as [_ Hfree].
  destruct rest as [|c' rest'].
  - cbn [map String.concat tokens]. rewrite clause_text_split.
    rewrite (split_on_first " " (fst c)) by exact Hfree.
    rewrite (split_on_first " " "IN") by reflexivity.
    rewrite split_on_whole by apply marks_token_free. reflexivity.
  - change (String.concat " AND " (map clause_text (c :: c' :: rest')))
      with (clause_text c ++ " AND " ++
            String.concat " AND " (map clause_text (c' :: rest'))).
    rewrite clause_text_then.
    rewrite (split_on_first " " (fst c)) by exact Hfree.
    rewrite (split_on_first " " "IN") by reflexivity.
    rewrite (split_on_first " " (marks_token c)) by apply marks_token_free.
    rewrite (split_on_first " " "AND") by reflexivity.
    rewrite IH; [reflexivity | discriminate | exact Hrest].
Qed.

Lemma parse_tokens (l : list (string * list sqlval)) :
  l <> [] -> forallb well_named l = true ->
  parse_conj (tokens l) = Some (map signature l).
Proof.
  induction l as [|c rest IH]; [congruence |].
  intros _ Hn. cbn [forallb] in Hn. apply andb_true_iff in Hn.
  destruct Hn as [Hc Hrest]. unfold well_named in Hc.
  apply andb_true_iff in Hc. destruct Hc as [Hknown _].
  cbn [tokens parse_conj]. rewrite Hknown. cbn [andb String.eqb Ascii.eqb].
  change (("IN" =? "IN")%string) with true. cbn [andb].
  destruct (placeholder_count_marks (snd c)) as [Hcount _].
  unfold marks_token at 1. rewrite Hcount.
  destruct rest as [|c' rest']; [reflexivity |].
  change (("AND" =? "AND")%string) with true. cbv iota.
  rewrite IH; [reflexivity | discriminate | exact Hrest].
Qed.

(** Preparing the text of a selection gives its clauses back. *)
Lemma prepare_where_text (l : list (string * list sqlval)) :
  forallb well_named l = true ->
  prepare_where (where_text l) = Some (map signature l).
Proof.
  intros Hn. unfold where_text, prepare_where.
  destruct l as [|c rest]; [reflexivity |].
  cbn [truthy].
  change (("WHERE " ++ String.concat " AND " (map clause_text (c :: rest)) =? "")%string)
    with false. cbv iota.
  change ("WHERE " ++ String.concat " AND " (map clause_text (c :: rest)))
    with ("WHERE" ++ String " " (String.concat " AND " (map clause_text (c :: rest)))).
  rewrite (split_on_first " " "WHERE") by reflexivity.
  rewrite split_conjunction by (discriminate || exact Hn).
  change (("WHERE" =? "WHERE")%string) with true. cbv iota.
  apply parse_tokens; [discriminate | exact Hn].
Qed.

Lemma firstn_own {A : Type} (a b : list A) :
  firstn (List.length a) (a ++ b)%list = a.
Proof. induction a as [|x a IH]; simpl; congruence. Qed.

Lemma skipn_own {A : Type} (a b : list A) :
  skipn (List.length a) (a ++ b)%list = b.
Proof. induction a as [|x a IH]; simpl; congruence. Qed.

(** Binding the values of a selection in order gives its clauses theirs. *)
Lemma bind_params_own (l : list (string * list sqlval)) :
  bind_params (map signature l) (flat_map snd l) = Some l.
Proof.
  induction l as [|[col vals] rest IH]; [reflexivity |].
  cbn [map signature flat_map bind_params fst snd].
  assert (E : (List.length (vals ++ flat_map snd rest) <? List.length vals)%nat = false).
  { apply Nat.ltb_ge. rewrite length_app. lia. }
  rewrite E, firstn_own, skipn_own, IH. reflexivity.
Qed.

Lemma prov_ids_none (provider_list : list (Z * string)) :
  prov_ids provider_list [] = [].
Proof.
  unfold prov_ids. induction provider_list as [|r t IH]; [reflexivity |].
  simpl. exact IH.
Qed.

Lemma add_IN_clause {A : Type} (col : string) (vals : list A)
  (bound : A -> sqlval) (st : list string * list sqlval) :
  add_IN col vals bound st =
  ((fst st ++ [clause_text (col, map bound vals)])%list,
   (snd st ++ map bound vals)%list).
Proof.
  unfold add_IN, clause_text, placeholders. cbn [fst snd].
  rewrite map_map. reflexivity.
Qed.

Lemma truthy_map {A B : Type} (f : A -> B) (l : list A) :
  truthy (map f l) = truthy l.
Proof. destruct l; reflexivity. Qed.

Arguments clause_text : simpl never.

(** What lines 156-176 build, dimension by dimension: the provider
    dimension stands with the identities its names resolve to. *)
Lemma build_where_selection
  (city_filter provider_filter_name : list string)
  (provider_list : list (Z * string))
  (food_type_filter meal_type_filter : list string) :
  let sel := active (dimensions city_filter
                       (prov_ids provider_list provider_filter_name)
                       food_type_filter meal_type_filter) in
  build_where city_filter provider_filter_name provider_list
              food_type_filter meal_type_filter =
  (where_text sel, flat_map snd sel).
Proof.
  unfold build_where, active, dimensions, where_text.
  rewrite !add_IN_clause. cbn [filter snd]. rewrite !truthy_map.
  destruct provider_filter_name as [|n ns].
  - rewrite prov_ids_none.
    destruct city_filter, food_type_filter, meal_type_filter;
      cbn [truthy fst snd app map flat_map String.concat];
      rewrite ?app_nil_r, <- ?app_assoc; reflexivity.
  - cbn [truthy].
    destruct city_filter, (prov_ids provider_list (n :: ns)),
      food_type_filter, meal_type_filter;
      cbn [truthy fst snd app map flat_map String.concat];
      rewrite ?app_nil_r, <- ?app_assoc; reflexivity.
Qed.

Lemma forallb_filter {A : Type} (f g : A -> bool) (l : list A) :
  forallb f l = true -> forallb f (filter g l) = true.
Proof.
  induction l as [|x t IH]; simpl; [reflexivity |].
  intros H. apply andb_true_iff in H. destruct H as [Hx Ht].
  destruct (g x); simpl; [rewrite Hx |]; auto.
Qed.

Lemma dimensions_well_named (city : list string) (ids : list Z)
  (food_type meal_type : list string) :
  forallb well_named (active (dimensions city ids food_type meal_type)) = true.
Proof. apply forallb_filter. reflexivity. Qed.

Lemma text_among (s : string) (l : list string) :
  existsb (sqlval_eqb (VText s)) (map VText l) = existsb (String.eqb s) l.
Proof. induction l as [|y l IH]; simpl; congruence. Qed.

Lemma null_among (l : list sqlval) : existsb (sqlval_eqb VNull) l = false.
Proof. induction l as [|y l IH]; simpl; assumption || reflexivity. Qed.

Lemma int_among (i : Z) (l : list Z) :
  existsb (sqlval_eqb (VInt i)) (map VInt l) = existsb (Z.eqb i) l.
Proof. induction l as [|y l IH]; simpl; congruence. Qed.

Lemma text_clause_selected (vals : list string) (v : option string) :
  (if truthy (map VText vals)
   then existsb (sqlval_eqb (of_text v)) (map VText vals)
   else true) = selected vals v.
Proof.
  rewrite truthy_map. destruct v as [s|]; cbn [of_text].
  - rewrite text_among. destruct vals; reflexivity.
  - rewrite null_among. destruct vals; reflexivity.
Qed.

Lemma id_clause_selected (ids : list Z) (i : Z) :
  (if truthy (map VInt ids)
   then existsb (sqlval_eqb (VInt i)) (map VInt ids)
   else true) = selected_id ids i.
Proof. rewrite truthy_map, int_among. destruct ids; reflexivity. Qed.

Lemma row_passes_selection (city : list string) (ids : list Z)
  (food_type meal_type : list string) (f : Food.t) :
  row_passes (active (dimensions city ids food_type meal_type)) f =
  selected city (Food.Location f)
  && selected_id ids (Food.Provider_ID f)
  && selected food_type (Food.Food_Type f)
  && selected meal_type (Food.Meal_Type f).
Proof.
  rewrite <- (text_clause_selected city), <- (id_clause_selected ids),
    <- (text_clause_selected food_type), <- (text_clause_selected meal_type).
  unfold row_passes, active, dimensions. cbn [filter snd].
  destruct (truthy (map VText city)), (truthy (map VInt ids)),
    (truthy (map VText food_type)), (truthy (map VText meal_type));
    cbn [forallb fst snd andb];
    rewrite ?andb_true_r, ?andb_assoc; reflexivity.
Qed.

(** The base read under the built predicate: it is prepared, its parameters
    bind, and it returns, in expiry order, the listings that pass every
    dimension in which something is selected. *)
Lemma food_df_selection
  (city_filter provider_filter_name : list string)
  (provider_list : list (Z * string))
  (food_type_filter meal_type_filter : list string) (d : db) :
  food_df (build_where city_filter provider_filter_name provider_list
                       food_type_filter meal_type_filter) d =
  Some (ORDER_BY expiry_leb
          (filter (fun f =>
                     selected city_filter (Food.Location f)
                     && selected_id (prov_ids provider_list provider_filter_name)
                                    (Food.Provider_ID f)
                     && selected food_type_filter (Food.Food_Type f)
                     && selected meal_type_filter (Food.Meal_Type f))
                  (food_listings d))).
Proof.
  rewrite build_where_selection. unfold food_df. cbn [fst snd].
  rewrite prepare_where_text by apply dimensions_well_named.
  rewrite bind_params_own. do 2 f_equal.
  apply filter_ext. intros f. apply row_passes_selection.
Qed.

Lemma clause_text_signature (c : string * list sqlval) :
  clause_text c = clause_text (fst c, repeat VNull (List.length (snd c))).
Proof.
  unfold clause_text, placeholders. cbn [fst snd].
  rewrite !map_constant, repeat_length. reflexivity.
Qed.

Lemma where_text_signature (l : list (string * list sqlval)) :
  where_text l = text_of_signature (map signature l).
Proof.
  unfold text_of_signature, where_text.
  rewrite !truthy_map, !map_map.
  destruct (truthy l); [| reflexivity]. do 2 f_equal.
  apply map_ext. intros c. apply clause_text_signature.
Qed.

Lemma selection_signature (city : list string) (ids : list Z)
  (food_type meal_type : list string) :
  map signature (active (dimensions city ids food_type meal_type)) =
  counts (List.length city) (List.length ids)
         (List.length food_type) (List.length meal_type).
Proof.
  unfold active, dimensions, counts.
  destruct city, ids, food_type, meal_type;
    cbn [filter snd truthy map negb Nat.eqb List.length];
    unfold signature; cbn [fst snd List.length]; rewrite ?length_map;
    reflexivity.
Qed.

(** C1, as the code has it.  The builder's pair is the text and the values
    of the dimensions in which something stands, in the order city,
    provider, food type, meal type, where the provider dimension stands
    with the identities its selected names resolve to: each such dimension
    gives [col IN (?,...,?)] with one mark per value, the clauses joined by
    [AND] behind [WHERE]; the parameters are the values in that order;
    SQLite prepares the text to those clauses and binds every value; the
    text is empty or begins with WHERE; it is the same for any selection
    with as many values per dimension; and with nothing selected it is
    empty, with no parameter, and the base read is the unfiltered one. *)
Theorem where_builder_contract
  (city_filter provider_filter_name : list string)
  (provider_list : list (Z * string))
  (food_type_filter meal_type_filter : list string) :
  let ids := prov_ids provider_list provider_filter_name in
  let sel := active (dimensions city_filter ids food_type_filter meal_type_filter) in
  let q := build_where city_filter provider_filter_name provider_list
                       food_type_filter meal_type_filter in
  q = (where_text sel, flat_map snd sel)
  /\ snd q = (map VText city_filter ++ map VInt ids
              ++ map VText food_type_filter ++ map VText meal_type_filter)%list
  /\ prepare_where (fst q) = Some (map signature sel)
  /\ bind_params (map signature sel) (snd q) = Some sel
  /\ (fst q = "" \/ String.prefix "WHERE" (fst q) = true)
  /\ fst q = text_of_signature
               (counts (List.length city_filter) (List.length ids)
                       (List.length food_type_filter)
                       (List.length meal_type_filter))
  /\ build_where [] [] provider_list [] [] = ("", [])
  /\ (forall d, food_df (build_where [] [] provider_list [] []) d
                = Some (query3 d)).
Proof.
  intros ids sel q.
  assert (Hq : q = (where_text sel, flat_map snd sel))
    by apply build_where_selection.
  split; [exact Hq |]. rewrite Hq. cbn [fst snd].
  split.
  { unfold sel, active, dimensions. cbn [filter snd]. rewrite !truthy_map.
    destruct city_filter, ids, food_type_filter, meal_type_filter;
      cbn [truthy flat_map snd map app]; rewrite ?app_nil_r; reflexivity. }
  split; [apply prepare_where_text, dimensions_well_named |].
  split; [apply bind_params_own |].
  split.
  { unfold where_text. destruct sel; [left | right]; reflexivity. }
  split.
  { rewrite where_text_signature. unfold sel.
    rewrite selection_signature. reflexivity. }
  split.
  { rewrite build_where_selection, prov_ids_none. reflexivity. }
  intros d. rewrite food_df_selection, prov_ids_none. unfold query3.
  f_equal. f_equal. apply filter_all. reflexivity.
Qed.

(** C1 as stated fails in the provider dimension: with two providers named
    alike, one selected name gives two marks and binds two identities, not
    the value selected. *)
Lemma one_name_two_placeholders :
  let provider_list := [(1, "Acme Grocers"); (2, "Acme Grocers")] in
  let provider_filter_name := ["Acme Grocers"] in
  let q := build_where [] provider_filter_name provider_list [] [] in
  List.length provider_filter_name = 1%nat
  /\ q = ("WHERE Provider_ID IN (?,?)", [VInt 1; VInt 2])
  /\ fst q <> "WHERE " ++ clause_text ("Provider_ID", map VText provider_filter_name)
  /\ snd q <> map VText provider_filter_name.
Proof. repeat split; discriminate. Qed.

(** C10.  Names selected, none of them resolving to an identity: the
    builder's pair is the one it gives with no name selected, no clause
    names [Provider_ID], and the base read returns the listings that pass
    the other three dimensions, whatever provider they belong to. *)
Theorem unresolved_names_do_not_filter
  (city_filter provider_filter_name : list string)
  (provider_list : list (Z * string))
  (food_type_filter meal_type_filter : list string) :
  provider_filter_name <> [] ->
  prov_ids provider_list provider_filter_name = [] ->
  let q := build_where city_filter provider_filter_name provider_list
                       food_type_filter meal_type_filter in
  q = build_where city_filter [] provider_list food_type_filter meal_type_filter
  /\ (forall cl, prepare_where (fst q) = Some cl ->
                 ~ In "Provider_ID" (map fst cl))
  /\ (forall d,
        food_df q d =
        Some (ORDER_BY expiry_leb
                (filter (fun f =>
                           selected city_filter (Food.Location f)
                           && selected food_type_filter (Food.Food_Type f)
                           && selected meal_type_filter (Food.Meal_Type f))
                        (food_listings d)))).
Proof.
  intros Hnames Hids q. subst q. split; [| split].
  - rewrite !build_where_selection, prov_ids_none, Hids. reflexivity.
  - intros cl. rewrite build_where_selection, Hids. cbn [fst].
    rewrite prepare_where_text by apply dimensions_well_named.
    intros H. injection H as <-. rewrite map_map. cbn [signature fst].
    unfold active, dimensions. cbn [filter snd map truthy].
    destruct (truthy (map VText city_filter)),
      (truthy (map VText food_type_filter)),
      (truthy (map VText meal_type_filter));
      cbn [map fst In]; intuition discriminate.
  - intros d. rewrite food_df_selection, Hids. do 2 f_equal.
    apply filter_ext. intros f. cbn [selected_id].
    rewrite andb_true_r. reflexivity.
Qed.

Lemma unresolved_names_do_not_filter_witness :
  ["Ghost Kitchen"] <> []
  /\ prov_ids (provider_list_of two_providers) ["Ghost Kitchen"] = []
  /\ build_where ["Springfield"] ["Ghost Kitchen"]
                 (provider_list_of two_providers) [] []
     = ("WHERE Location IN (?)", [VText "Springfield"])
  /\ food_df (build_where ["Springfield"] ["Ghost Kitchen"]
                          (provider_list_of two_providers) [] [])
             two_providers
     = Some [bread; milk].
Proof.
  split; [discriminate |]. split; [reflexivity |].
  destruct (unresolved_names_do_not_filter ["Springfield"] ["Ghost Kitchen"]
              (provider_list_of two_providers) [] [])
    as (Hq & _ & Hread); [discriminate | reflexivity |].
  split; [rewrite Hq; reflexivity |].
  rewrite Hread. reflexivity.
Defined.

(** ** Labels and the identities read back from them *)

Lemma numeral_uint (d : Decimal.uint) :
  all_chars numeral_char (DecimalString.NilEmpty.string_of_uint d) = true.
Proof. induction d; simpl; try rewrite IHd; reflexivity. Qed.

Lemma numeral_str_int (z : Z) : all_chars numeral_char (str_int z) = true.
Proof.
  unfold str_int, DecimalString.NilZero.string_of_int,
    DecimalString.NilZero.string_of_uint.
  destruct (Z.to_int z) as [d|d]; destruct d;
    try reflexivity; apply (numeral_uint (_ _)) || (simpl; apply numeral_uint).
Qed.

Lemma to_int_not_nil (z : Z) :
  Z.to_int z <> Decimal.Pos Decimal.Nil /\ Z.to_int z <> Decimal.Neg Decimal.Nil.
Proof.
  split; intros H;
    pose proof (DecimalZ.of_to z) as E; rewrite H in E; simpl in E;
    subst z; discriminate.
Qed.

Lemma int_of_str_int (z : Z) : int_of_text (str_int z) = Some z.
Proof.
  unfold int_of_text, str_int.
  destruct (to_int_not_nil z) as [Hp Hn].
  rewrite DecimalString.NilZero.isi by assumption.
  simpl. rewrite DecimalZ.of_to. reflexivity.
Qed.

Lemma str_int_nonempty (z : Z) : str_int z <> "".
Proof.
  intros H. pose proof (int_of_str_int z) as E. rewrite H in E. discriminate.
Qed.

Lemma all_chars_weaken (p q : ascii -> bool) (s : string) :
  (forall a, p a = true -> q a = true) ->
  all_chars p s = true -> all_chars q s = true.
Proof.
  intros Hpq. induction s as [|a s IH]; simpl; [reflexivity |].
  intros H. apply andb_true_iff in H. destruct H as [Ha Hs].
  rewrite (Hpq a Ha), (IH Hs). reflexivity.
Qed.

Lemma all_chars_app (p : ascii -> bool) (a b : string) :
  all_chars p (a ++ b) = all_chars p a && all_chars p b.
Proof.
  induction a as [|x a IH]; simpl; [reflexivity |].
  rewrite IH, andb_assoc. reflexivity.
Qed.

Lemma prefix_own (sep rest : string) : String.prefix sep (sep ++ rest) = true.
Proof.
  induction sep as [|x sep IH]; simpl; [destruct rest; reflexivity |].
  destruct (ascii_dec x x); [exact IH | congruence].
Qed.

(** Text free of the separator's first byte is what [split] gives first. *)
Lemma before_first_head (x : ascii) (sep a rest : string) :
  all_chars (fun c => negb (Ascii.eqb c x)) a = true ->
  before_first (String x sep) (a ++ String x sep ++ rest) = a.
Proof.
  induction a as [|c a IH]; intros H.
  - change ("" ++ String x sep ++ rest) with (String x (sep ++ rest)).
    cbn [before_first].
    change (String x (sep ++ rest)) with (String x sep ++ rest).
    rewrite prefix_own. reflexivity.
  - simpl in H. apply andb_true_iff in H. destruct H as [Hc Ha].
    apply negb_true_iff, Ascii.eqb_neq in Hc.
    change ((String c a) ++ String x sep ++ rest)
      with (String c (a ++ String x sep ++ rest)).
    cbn [before_first String.prefix].
    destruct (ascii_dec x c) as [E|E]; [congruence |].
    rewrite (IH Ha). reflexivity.
Qed.

Lemma remove_char_absent (c : ascii) (s : string) :
  all_chars (fun a => negb (Ascii.eqb a c)) s = true -> remove_char c s = s.
Proof.
  induction s as [|a s IH]; simpl; [reflexivity |].
  intros H. apply andb_true_iff in H. destruct H as [Ha Hs].
  apply negb_true_iff in Ha. rewrite Ha, (IH Hs). reflexivity.
Qed.

Lemma rstrip_blank (s : string) :
  all_chars (fun a => negb (is_space a)) s = true -> rstrip (s ++ " ") = s.
Proof.
  induction s as [|a s IH]; [reflexivity |].
  intros H. simpl in H. apply andb_true_iff in H. destruct H as [Ha Hs].
  apply negb_true_iff in Ha.
  change (String a s ++ " ") with (String a (s ++ " ")).
  cbn [rstrip]. rewrite (IH Hs). destruct s; [rewrite Ha |]; reflexivity.
Qed.

Lemma lstrip_head (s t : string) :
  s <> "" -> all_chars (fun a => negb (is_space a)) s = true ->
  lstrip (s ++ t) = s ++ t.
Proof.
  destruct s as [|a s]; [congruence |]. intros _ H. simpl in H.
  apply andb_true_iff in H. destruct H as [Ha _].
  apply negb_true_iff in Ha. simpl. rewrite Ha. reflexivity.
Qed.

Lemma numeral_char_facts (a : ascii) :
  numeral_char a = true ->
  negb (Ascii.eqb a "#") = true
  /\ negb (is_space a) = true
  /\ negb (Ascii.eqb a "226") = true.
Proof.
  destruct a as [[|] [|] [|] [|] [|] [|] [|] [|]]; vm_compute;
    intros H; repeat split; discriminate || reflexivity.
Qed.

(** The head of every label, [#], the numeral, a blank and a dash, gives
    the number back, whatever follows. *)
Lemma label_id_head (z : Z) (rest : string) :
  label_id ("#" ++ str_int z ++ " — " ++ rest) = Some z.
Proof.
  unfold label_id.
  pose proof (numeral_str_int z) as Hnum.
  assert (Hsharp : all_chars (fun a => negb (Ascii.eqb a "#")) (str_int z) = true)
    by (eapply all_chars_weaken; [| exact Hnum]; intros a Ha;
        apply (numeral_char_facts a Ha)).
  assert (Hspace : all_chars (fun a => negb (is_space a)) (str_int z) = true)
    by (eapply all_chars_weaken; [| exact Hnum]; intros a Ha;
        apply (numeral_char_facts a Ha)).
  assert (Hdash : all_chars (fun a => negb (Ascii.eqb a "226")) (str_int z) = true)
    by (eapply all_chars_weaken; [| exact Hnum]; intros a Ha;
        apply (numeral_char_facts a Ha)).
  assert (Hshape : "#" ++ str_int z ++ " — " ++ rest =
                   ("#" ++ str_int z ++ " ") ++ "—" ++ (" " ++ rest)).
  { cbn [append]. f_equal. rewrite append_assoc. reflexivity. }
  rewrite Hshape.
  change "—" with (String "226" (String "128" (String "148" ""))).
  rewrite before_first_head.
  2:{ cbn [append all_chars]. rewrite all_chars_app, Hdash. reflexivity. }
  cbn [append remove_char Ascii.eqb Bool.eqb]. cbv iota.
  rewrite remove_char_absent
    by (rewrite all_chars_app, Hsharp; reflexivity).
  unfold strip.
  rewrite lstrip_head by (apply str_int_nonempty || exact Hspace).
  rewrite rstrip_blank by exact Hspace.
  apply int_of_str_int.
Qed.

(** X1.  The label a select box shows for a listing or a claim gives its
    identity back when the handler reads it: for every row, and whatever
    the food name, location, receiver or status hold (dashes, [#] and
    digits included), [int(label.split("—")[0].replace("#","").strip())]
    is the row's [Food_ID], respectively [Claim_ID]. *)
Theorem label_id_round_trip :
  (forall f, label_id (claim_food_label f) = Some (Food.Food_ID f))
  /\ (forall f, label_id (food_label f) = Some (Food.Food_ID f))
  /\ (forall c food_name receiver,
        label_id (claim_label c food_name receiver) = Some (Claim.Claim_ID c)).
Proof.
  split; [| split]; intros; apply label_id_head.
Qed.

(** ** Choosing a provider by name *)

Lemma first_id_named_first (provs l2 : list (Z * string)) (k : Z) (sel : string) :
  ~ In sel (map snd provs) ->
  first_id_named (provs ++ (k, sel) :: l2) sel = Some k.
Proof.
  induction provs as [|[id name] rest IH]; simpl; intros H.
  - rewrite String.eqb_refl. reflexivity.
  - destruct (String.eqb_spec name sel) as [E|E]; [tauto |].
    apply IH. tauto.
Qed.

Lemma first_id_named_found (provs : list (Z * string)) (k : Z) (sel : string) :
  first_id_named provs sel = Some k ->
  exists l1 l2, provs = (l1 ++ (k, sel) :: l2)%list /\ ~ In sel (map snd l1).
Proof.
  induction provs as [|[id name] rest IH]; simpl; [discriminate |].
  destruct (String.eqb_spec name sel) as [E|E].
  - intros H. injection H as ->. subst name.
    exists [], rest. split; [reflexivity | intros []].
  - intros H. destruct (IH H) as (l1 & l2 & -> & Hfresh).
    exists ((id, name) :: l1), l2. split; [reflexivity |].
    simpl. tauto.
Qed.

Lemma first_id_named_none (provs : list (Z * string)) (sel : string) :
  first_id_named provs sel = None <-> ~ In sel (map snd provs).
Proof.
  induction provs as [|[id name] rest IH]; simpl; [tauto |].
  destruct (String.eqb_spec name sel) as [E|E].
  - split; [discriminate | tauto].
  - rewrite IH. tauto.
Qed.

Lemma first_id_named_unique (provs : list (Z * string)) (k : Z) (sel : string) :
  NoDup (map snd provs) -> In (k, sel) provs ->
  first_id_named provs sel = Some k.
Proof.
  induction provs as [|[id name] rest IH]; simpl; [tauto |].
  intros Hnd Hin. inversion Hnd as [|? ? Hfresh Hrest]; subst.
  destruct (String.eqb_spec name sel) as [E|E].
  - destruct Hin as [Hin | Hin]; [congruence |].
    exfalso. apply Hfresh. subst name.
    change sel with (snd (k, sel)). apply in_map, Hin.
  - destruct Hin as [Hin | Hin]; [congruence |]. apply IH; assumption.
Qed.

Lemma provider_list_names (d : db) :
  Permutation (map snd (provider_list_of d)) (map Provider.Name (providers d)).
Proof.
  unfold provider_list_of.
  eapply perm_trans; [apply Permutation_map, ORDER_BY_perm |].
  rewrite map_map. apply Permutation_refl.
Qed.

(** X2.  The identity the tabs take for a selected name is that of the
    first row of the name-ordered provider list that bears the name: a
    later row of the same name is never taken, and a name no row bears
    gives no identity.  When no two providers share a name, selecting a
    provider's name gives that provider's identity. *)
Theorem first_id_named_spec (d : db) :
  (forall provs sel k,
     first_id_named provs sel = Some k <->
     exists l1 l2, provs = (l1 ++ (k, sel) :: l2)%list /\ ~ In sel (map snd l1))
  /\ (forall provs sel,
        first_id_named provs sel = None <-> ~ In sel (map snd provs))
  /\ (NoDup (map Provider.Name (providers d)) ->
      forall p, In p (providers d) ->
        first_id_named (provider_list_of d) (Provider.Name p)
        = Some (Provider.Provider_ID p)).
Proof.
  split; [| split].
  - intros provs sel k. split.
    + apply first_id_named_found.
    + intros (l1 & l2 & -> & Hfresh). apply first_id_named_first, Hfresh.
  - apply first_id_named_none.
  - intros Hnd p Hp. apply first_id_named_unique.
    + apply (Permutation_NoDup (Permutation_sym (provider_list_names d))), Hnd.
    + unfold provider_list_of. apply ORDER_BY_In.
      change (Provider.Provider_ID p, Provider.Name p) with (provider_key p).
      apply in_map, Hp.
Qed.

Lemma first_id_named_spec_witness :
  first_id_named (provider_list_of two_providers) "Corner Cafe" = Some 2.
Proof.
  destruct (first_id_named_spec two_providers) as (_ & _ & H).
  apply (H ltac:(repeat (constructor; [simpl; intuition discriminate |]); constructor)
           corner_cafe).
  right. left. reflexivity.
Defined.

Lemma NoDup_map_same {A B : Type} (f : A -> B) (l : list A) (x y : A) :
  NoDup (map f l) -> In x l -> In y l -> f x = f y -> x = y.
Proof.
  induction l as [|a l IH]; simpl; [tauto |].
  intros Hnd Hx Hy E. inversion Hnd as [|? ? Hfresh Hrest]; subst.
  destruct Hx as [-> | Hx], Hy as [-> | Hy]; auto.
  - exfalso. apply Hfresh. rewrite E. apply in_map, Hy.
  - exfalso. apply Hfresh. rewrite <- E. apply in_map, Hx.
Qed.

(** X3.  Update Contact for a provider chosen by name, when neither names
    nor identities repeat in the table: the press commits, the chosen
    provider's contact becomes the new text, and every other provider's
    row, and every other column of the chosen one, is what it was. *)
Theorem update_contact_by_name (DataFrame : Type) (d : db) (p : Provider.t)
  (new : string) :
  NoDup (map Provider.Name (providers d)) ->
  NoDup (map Provider.Provider_ID (providers d)) ->
  In p (providers d) ->
  exists pid,
    first_id_named (provider_list_of d) (Provider.Name p) = Some pid
    /\ let r := update_contact (DataFrame := DataFrame) new pid (session_start d) in
       fst r = Ok tt
       /\ page (snd r) = [success "Contact updated."]
       /\ providers (database (snd r)) =
          map (fun q => if (Provider.Name q =? Provider.Name p)%string
                        then set_contact new q else q)
              (providers d)
       /\ food_listings (database (snd r)) = food_listings d
       /\ claims (database (snd r)) = claims d.
Proof.
  intros Hnames Hids Hp.
  exists (Provider.Provider_ID p). split.
  { apply first_id_named_unique.
    - apply (Permutation_NoDup (Permutation_sym (provider_list_names d))), Hnames.
    - unfold provider_list_of. apply ORDER_BY_In.
      change (Provider.Provider_ID p, Provider.Name p) with (provider_key p).
      apply in_map, Hp. }
  run_python. unfold execute. simpl. repeat split.
  apply map_ext_in. intros q Hq.
  destruct (Z.eqb_spec (Provider.Provider_ID q) (Provider.Provider_ID p)) as [E|E];
    destruct (String.eqb_spec (Provider.Name q) (Provider.Name p)) as [E'|E'];
    try reflexivity; exfalso.
  - apply E'.
    rewrite (NoDup_map_same Provider.Provider_ID _ q p Hids Hq Hp E).
    reflexivity.
  - apply E.
    rewrite (NoDup_map_same Provider.Name _ q p Hnames Hq Hp E').
    reflexivity.
Qed.

Lemma update_contact_by_name_witness :
  exists pid,
    first_id_named (provider_list_of two_providers) "Corner Cafe" = Some pid
    /\ let r := update_contact (DataFrame := unit) "555-0199" pid
                  (session_start two_providers) in
       fst r = Ok tt
       /\ page (snd r) = [success "Contact updated."]
       /\ providers (database (snd r)) =
          map (fun q => if (Provider.Name q =? "Corner Cafe")%string
                        then set_contact "555-0199" q else q)
              (providers two_providers)
       /\ food_listings (database (snd r)) = food_listings two_providers
       /\ claims (database (snd r)) = claims two_providers.
Proof.
  apply (update_contact_by_name unit two_providers corner_cafe "555-0199").
  - repeat (constructor; [simpl; intuition discriminate |]); constructor.
  - distinct_ids.
  - right. left. reflexivity.
Defined.

(** ** Query 9 and Create Claim *)

Lemma unclaimed_In (d : db) (f : Food.t) :
  In f (unclaimed d) <->
  In f (food_listings d)
  /\ forall c, In c (claims d) -> Claim.Food_ID c <> Food.Food_ID f.
Proof.
  unfold unclaimed, unclaimed_joined. rewrite in_map_iff. split.
  - intros ([f' oc] & <- & H). apply ORDER_BY_In, filter_In in H.
    destruct H as [Hin Hnull]. apply LEFT_JOIN_In in Hin.
    destruct Hin as [Hf Hoc]. destruct oc as [c|]; [discriminate |].
    split; [exact Hf |]. intros c Hc E. specialize (Hoc c Hc).
    apply Z.eqb_neq in Hoc. apply Hoc. symmetry. exact E.
  - intros [Hf Hnone]. exists (f, None). split; [reflexivity |].
    apply ORDER_BY_In, filter_In. split; [| reflexivity].
    apply LEFT_JOIN_In. split; [exact Hf |].
    intros c Hc. apply Z.eqb_neq. intros E. apply (Hnone c Hc).
    symmetry. exact E.
Qed.

Lemma unclaimed_rows_of_pad (f : Food.t) (ms : list Claim.t) :
  map fst (filter (fun r : Food.t * option Claim.t =>
                     match option_map Claim.Claim_ID (snd r) with
                     | None => true
                     | Some _ => false
                     end)
                  (pad f ms)) =
  match ms with [] => [f] | _ :: _ => [] end.
Proof.
  destruct ms as [|m ms]; [reflexivity |].
  unfold pad. induction (m :: ms) as [|c t IH]; [reflexivity |].
  simpl. exact IH.
Qed.

Lemma is_claimed_claims_on (d : db) (f : Food.t) :
  is_claimed d (Food.Food_ID f) = truthy (claims_on d f).
Proof.
  unfold is_claimed, claims_on.
  induction (claims d) as [|c cs IH]; [reflexivity |].
  simpl. rewrite (Z.eqb_sym (Claim.Food_ID c)).
  destruct (Food.Food_ID f =? Claim.Food_ID c); [reflexivity | exact IH].
Qed.

Lemma unclaimed_perm (d : db) :
  Permutation (unclaimed d)
    (filter (fun f => negb (is_claimed d (Food.Food_ID f))) (food_listings d)).
Proof.
  unfold unclaimed, unclaimed_joined.
  eapply perm_trans; [apply Permutation_map, ORDER_BY_perm |].
  unfold LEFT_JOIN.
  induction (food_listings d) as [|f fs IH]; [constructor |].
  cbn [flat_map]. rewrite filter_app, map_app, unclaimed_rows_of_pad.
  cbn [filter]. rewrite is_claimed_claims_on. unfold claims_on.
  destruct (filter (fun c => Food.Food_ID f =? Claim.Food_ID c) (claims d));
    cbn [truthy negb app]; [apply perm_skip |]; exact IH.
Qed.

(** X4.  Query 9 returns the selected columns of exactly the listings no
    claim refers to, each as often as the table holds it, in ascending
    order of expiry date: so no row of it is the [Food_ID] of any claim,
    of whatever status. *)
Theorem query9_unclaimed (d : db) :
  query9 d = map unclaimed_columns (unclaimed d)
  /\ Permutation (unclaimed d)
       (filter (fun f => negb (is_claimed d (Food.Food_ID f))) (food_listings d))
  /\ (forall f, In f (unclaimed d) <->
                In f (food_listings d)
                /\ forall c, In c (claims d) -> Claim.Food_ID c <> Food.Food_ID f)
  /\ (forall row c, In row (query9 d) -> In c (claims d) ->
                    Claim.Food_ID c <> u_Food_ID row)
  /\ StronglySorted
       (fun a b => toordinal (u_Expiry_Date a) <= toordinal (u_Expiry_Date b))
       (query9 d).
Proof.
  split; [reflexivity |]. split; [apply unclaimed_perm |].
  split; [apply unclaimed_In |]. split.
  - intros row c Hrow Hc. unfold query9 in Hrow. apply in_map_iff in Hrow.
    destruct Hrow as (f & <- & Hf). apply unclaimed_In in Hf.
    destruct Hf as [_ Hnone]. exact (Hnone c Hc).
  - unfold query9, unclaimed, unclaimed_joined. rewrite map_map.
    apply StronglySorted_map
      with (R := fun a b : Food.t * option Claim.t =>
                   expiry_leb (fst a) (fst b) = true).
    + intros a b H. unfold expiry_leb in H. apply Z.leb_le in H. exact H.
    + apply ORDER_BY_sorted.
      * intros a b. apply expiry_leb_total.
      * intros a b c. apply expiry_leb_trans.
Qed.

Lemma add_claim_effect (DataFrame : Type) (fid rid : Z) (status : string)
  (w : world DataFrame) :
  let r := add_claim (Some fid) (Some rid) status w in
  journal (snd r) <> journal w ->
  food_listings (database (snd r)) = food_listings (database w)
  /\ exists c,
       claims (database (snd r)) = (claims (database w) ++ [c])%list
       /\ Claim.Food_ID c = fid /\ Claim.Receiver_ID c = rid
       /\ Claim.Status c = status.
Proof.
  unfold add_claim.
  destruct (truthy_id (Some fid) && truthy_id (Some rid));
    [| simpl; congruence].
  run_python. unfold execute.
  destruct (conn w) as [c|]; simpl.
  - destruct (foreign_keys c
              && negb (has_food (database w) fid && has_receiver (database w) rid));
      simpl; [congruence |].
    intros _. split; [reflexivity |]. eexists. split; [reflexivity |].
    simpl. auto.
  - intros _. split; [reflexivity |]. eexists. split; [reflexivity |].
    simpl. auto.
Qed.

(** X5.  Create Claim for a food item chosen among the options of its
    select box (the unclaimed listings), once committed: the claims table
    gains one claim, on the chosen listing, for the chosen receiver, with
    the chosen status; the listing is unclaimed no more, and every other
    listing is unclaimed exactly if it was; and if no two claims were on
    one listing before, none are after. *)
Theorem create_claim_from_option (DataFrame : Type) (f : Food.t)
  (receiver_id : Z) (status : string) (w : world DataFrame) :
  In f (unclaimed (database w)) ->
  let r := add_claim (label_id (claim_food_label f)) (Some receiver_id) status w in
  journal (snd r) <> journal w ->
  (exists c,
     claims (database (snd r)) = (claims (database w) ++ [c])%list
     /\ Claim.Food_ID c = Food.Food_ID f
     /\ Claim.Receiver_ID c = receiver_id
     /\ Claim.Status c = status)
  /\ (forall g, In g (unclaimed (database (snd r))) <->
                In g (unclaimed (database w))
                /\ Food.Food_ID g <> Food.Food_ID f)
  /\ (NoDup (map Claim.Food_ID (claims (database w))) ->
      NoDup (map Claim.Food_ID (claims (database (snd r))))).
Proof.
  intros Hf r Hj. subst r.
  unfold claim_food_label in *. rewrite label_id_head in *.
  destruct (add_claim_effect DataFrame (Food.Food_ID f) receiver_id status w Hj)
    as (Hfood & c & Hclaims & Hfid & Hrid & Hst).
  split; [exists c; auto |]. split.
  - intros g. rewrite !unclaimed_In, Hfood, Hclaims. split.
    + intros [Hg Hnone]. split; [split; [exact Hg |] |].
      * intros c' Hc'. apply Hnone, in_or_app. left. exact Hc'.
      * intros E. apply (Hnone c).
        -- apply in_or_app. right. left. reflexivity.
        -- congruence.
    + intros [[Hg Hnone] Hne]. split; [exact Hg |].
      intros c' Hc'. apply in_app_or in Hc'. destruct Hc' as [Hc' | [<- | []]].
      * apply Hnone, Hc'.
      * congruence.
  - intros Hnd. rewrite Hclaims, map_app. cbn [map].
    apply (Permutation_NoDup (Permutation_cons_append _ _)).
    constructor; [| exact Hnd].
    rewrite Hfid. intros Hin. apply in_map_iff in Hin.
    destruct Hin as (c' & E & Hc'). apply unclaimed_In in Hf.
    destruct Hf as [_ Hnone]. exact (Hnone c' Hc' E).
Qed.

Lemma create_claim_from_option_witness :
  exists c,
    claims (database (snd (add_claim (DataFrame := unit)
                             (label_id (claim_food_label milk)) (Some 1)
                             "Pending" (session_start two_providers))))
    = (claims two_providers ++ [c])%list
    /\ Claim.Food_ID c = 2 /\ Claim.Receiver_ID c = 1
    /\ Claim.Status c = "Pending".
Proof.
  apply (create_claim_from_option unit milk 1 "Pending"
           (session_start two_providers)).
  - vm_compute. left. reflexivity.
  - vm_compute. discriminate.
Defined.

(** ** Sessions *)

(** With references unenforced no statement of the handlers is refused. *)
Lemma execute_unenforced (s : statement) (d : db) :
  exists id d', execute false s d = inl (id, d').
Proof. destruct s; unfold execute; simpl; eexists; eexists; reflexivity. Qed.

Section SessionFacts.
Variable DataFrame : Type.
Implicit Types w : world DataFrame.

Lemma commit_step (s : statement) (m : message) w :
  unenforced w = true ->
  let r := bind (run_write s) (fun _ => bind (show m) (fun _ => cache_data_clear)) w in
  fst r = Ok tt
  /\ unenforced (snd r) = true
  /\ cache_data (snd r) = []
  /\ page (snd r) = (page w ++ [m])%list
  /\ journal (snd r) = (journal w ++ [s])%list.
Proof.
  unfold unenforced. intros Hw. run_python.
  destruct (conn w) as [[fk]|] eqn:Hc; simpl in *.
  - apply negb_true_iff in Hw. subst fk.
    destruct (execute_unenforced s (database w)) as (id & d' & ->). simpl.
    rewrite Hc. repeat split.
  - destruct (execute_unenforced s (database w)) as (id & d' & ->). simpl.
    repeat split.
Qed.

Lemma commit_step_guarded (s : statement) (m : message)
  (handler : exn -> M DataFrame unit) w :
  unenforced w = true ->
  try_except
    (bind (run_write s) (fun _ => bind (show m) (fun _ => cache_data_clear)))
    handler w =
  bind (run_write s) (fun _ => bind (show m) (fun _ => cache_data_clear)) w.
Proof.
  intros Hw. pose proof (commit_step s m w Hw) as (Hok & _).
  unfold try_except.
  destruct (bind (run_write s) (fun _ => bind (show m) (fun _ => cache_data_clear)) w)
    as [[[]|e] w']; [reflexivity | discriminate].
Qed.

Lemma refuse_step (m : message) w :
  unenforced w = true ->
  let r := show m w in
  fst r = Ok tt
  /\ unenforced (snd r) = true
  /\ cache_data (snd r) = cache_data w
  /\ page (snd r) = (page w ++ [m])%list
  /\ journal (snd r) = journal w.
Proof. intros Hw. repeat split. exact Hw. Qed.

(** What one press does to a session whose connection does not enforce
    references: it returns, adds one message, a success when it commits a
    statement and one of the forms' own errors when it commits none. *)
Lemma press_step (today : Timestamp) (b : button) w :
  unenforced w = true ->
  let r := press today b w in
  exists m,
    fst r = Ok tt
    /\ unenforced (snd r) = true
    /\ page (snd r) = (page w ++ [m])%list
    /\ ((is_success m = true
         /\ cache_data (snd r) = []
         /\ exists s, journal (snd r) = (journal w ++ [s])%list)
        \/ (is_required_error m = true
            /\ cache_data (snd r) = cache_data w
            /\ journal (snd r) = journal w
            /\ database (snd r) = database w)).
Proof.
  intros Hw r. subst r.
  assert (Hcommit : forall s body,
            let r := bind (run_write s)
                       (fun _ => bind (show (success body))
                                   (fun _ => cache_data_clear)) w in
            exists m,
              fst r = Ok tt /\ unenforced (snd r) = true
              /\ page (snd r) = (page w ++ [m])%list
              /\ ((is_success m = true /\ cache_data (snd r) = []
                   /\ exists s, journal (snd r) = (journal w ++ [s])%list)
                  \/ (is_required_error m = true
                      /\ cache_data (snd r) = cache_data w
                      /\ journal (snd r) = journal w
                      /\ database (snd r) = database w))).
  { intros s body r.
    destruct (commit_step s (success body) w Hw) as (H1 & H2 & H3 & H4 & H5).
    exists (success body). repeat split; try assumption.
    left. repeat split; [exact H3 | exists s; exact H5]. }
  assert (Hrefuse : forall body,
            is_required_error (error body) = true ->
            let r := show (error body) w in
            exists m,
              fst r = Ok tt /\ unenforced (snd r) = true
              /\ page (snd r) = (page w ++ [m])%list
              /\ ((is_success m = true /\ cache_data (snd r) = []
                   /\ exists s, journal (snd r) = (journal w ++ [s])%list)
                  \/ (is_required_error m = true
                      /\ cache_data (snd r) = cache_data w
                      /\ journal (snd r) = journal w
                      /\ database (snd r) = database w))).
  { intros body Hbody r. exists (error body). repeat split; try exact Hw.
    right. repeat split. exact Hbody. }
  destruct b; unfold press.
  - unfold add_provider. destruct (nonblank name && nonblank city);
      [apply Hcommit | apply Hrefuse; reflexivity].
  - unfold add_food.
    destruct (truthy_id provider_id && nonblank food_name && nonblank location);
      [apply Hcommit | apply Hrefuse; reflexivity].
  - unfold add_claim. destruct (truthy_id food_id && truthy_id receiver_id);
      [apply Hcommit | apply Hrefuse; reflexivity].
  - apply Hcommit.
  - apply Hcommit.
  - apply Hcommit.
  - unfold delete_provider. rewrite commit_step_guarded by exact Hw.
    apply Hcommit.
  - unfold delete_food. rewrite commit_step_guarded by exact Hw.
    apply Hcommit.
  - apply Hcommit.
Qed.

(** X6.  A session that starts unconnected and goes through any sequence
    of presses of the CRUD buttons: no press raises; the connection, once
    open, never enforces references, so the [except] branches of Delete
    Provider and Delete Food Listing are never taken; every message shown
    is a success or one of the three errors of the forms' own checks; and
    the statements committed are as many as the successes shown. *)
Theorem session_never_refused (script : list (Timestamp * button)) (d : db) :
  let r := presses script (session_start (DataFrame := DataFrame) d) in
  fst r = Ok tt
  /\ unenforced (snd r) = true
  /\ forallb (fun m => is_success m || is_required_error m) (page (snd r)) = true
  /\ List.length (journal (snd r)) =
     List.length (filter is_success (page (snd r))).
Proof.
  intros r. subst r.
  assert (Hgen : forall w,
            unenforced w = true ->
            forallb (fun m => is_success m || is_required_error m) (page w) = true ->
            List.length (journal w) = List.length (filter is_success (page w)) ->
            let r := presses script w in
            fst r = Ok tt
            /\ unenforced (snd r) = true
            /\ forallb (fun m => is_success m || is_required_error m)
                       (page (snd r)) = true
            /\ List.length (journal (snd r)) =
               List.length (filter is_success (page (snd r)))).
  { induction script as [|[today b] rest IH]; intros w Hw Hpage Hcount.
    - simpl. auto.
    - cbn [presses]. unfold bind.
      destruct (press_step today b w Hw) as (m & Hok & Hw' & Hp & Hcases).
      destruct (press today b w) as [[[]|e] w'] eqn:E; simpl in *;
        [| discriminate].
      apply IH; [exact Hw' | |].
      + rewrite Hp, forallb_app, Hpage. simpl.
        destruct Hcases as [(Hs & _) | (He & _)];
          [rewrite Hs | rewrite He, orb_true_r]; reflexivity.
      + rewrite Hp, filter_app, length_app. simpl.
        destruct Hcases as [(Hs & _ & s & Hj) | (He & _ & Hj & _)].
        * rewrite Hs, Hj, length_app. simpl. lia.
        * destruct m; try discriminate. simpl. rewrite Hj. lia. }
  apply Hgen; reflexivity.
Qed.
End SessionFacts.

(** ** Memoised reads *)

Lemma sqlval_same_refl (v : sqlval) : sqlval_same v v = true.
Proof.
  destruct v; simpl; [reflexivity | apply Z.eqb_refl | apply String.eqb_refl].
Qed.

Lemma params_eqb_refl (params : list sqlval) : params_eqb params params = true.
Proof.
  induction params as [|v t IH]; simpl; [reflexivity |].
  rewrite sqlval_same_refl, IH. reflexivity.
Qed.

Section MemoFacts.
Variable DataFrame : Type.
Variable read_sql_query : string -> list sqlval -> db -> DataFrame + exn.
Implicit Types w : world DataFrame.

Lemma run_write_keeps_memo (s : statement) w :
  cache_data (snd (run_write s w)) = cache_data w.
Proof.
  run_python. destruct (conn w); simpl;
    destruct (execute _ s (database w)) as [[id d']|e]; reflexivity.
Qed.

(** X7.  A first read of a query runs it and memoises the answer.  A read
    of the same text and parameters less than 60 seconds later returns
    that answer without going to the database, even when [run_write] has
    changed the database in between ([run_write] itself clears nothing:
    the handlers do, after it); from 60 seconds on, the read goes to the
    database again. *)
Theorem fetch_df_memoises (sql : string) (params : list sqlval) (t0 : Z)
  (df : DataFrame) w :
  cache_lookup sql params (cache_data w) = None ->
  read_sql_query sql params (database w) = inl df ->
  let w1 := snd (fetch_df read_sql_query t0 sql params w) in
  fst (fetch_df read_sql_query t0 sql params w) = Ok df
  /\ forall (s : statement) (t1 : Z),
       let w2 := snd (run_write s w1) in
       fst (fetch_df read_sql_query t1 sql params w2) =
       if t1 - t0 <? ttl then Ok df
       else match read_sql_query sql params (database w2) with
            | inl df' => Ok df'
            | inr e => Raise e
            end.
Proof.
  intros Hmiss Hread w1.
  assert (Hfirst : fetch_df read_sql_query t0 sql params w =
                   (Ok df,
                    {| database := database w; journal := journal w;
                       conn := match conn w with
                               | Some c => Some c
                               | None => Some sqlite3_connect
                               end;
                       cache_data := (sql, params, (t0, df)) :: cache_data w;
                       page := page w |})).
  { unfold fetch_df. rewrite Hmiss. run_python.
    destruct (conn w) eqn:Hc; simpl; rewrite Hread; simpl;
      rewrite ?Hc; reflexivity. }
  split; [rewrite Hfirst; reflexivity |].
  intros s t1 w2.
  assert (Hmemo : cache_data w2 = (sql, params, (t0, df)) :: cache_data w).
  { subst w2 w1. rewrite run_write_keeps_memo, Hfirst. reflexivity. }
  unfold fetch_df. rewrite Hmemo. cbn [cache_lookup fst snd].
  rewrite String.eqb_refl, params_eqb_refl. cbn [andb].
  destruct (t1 - t0 <? ttl); [reflexivity |].
  run_python. destruct (conn w2); simpl;
    destruct (read_sql_query sql params (database w2)); reflexivity.
Qed.
End MemoFacts.

Lemma fetch_df_memoises_witness :
  let w1 := snd (fetch_df listings_reader 0 "SELECT * FROM food_listings" []
                   (session_start acme_with_bread)) in
  let w2 := snd (run_write (DELETE_food 1) w1) in
  fst (fetch_df listings_reader 59 "SELECT * FROM food_listings" [] w2)
  = Ok [bread]
  /\ fst (fetch_df listings_reader 60 "SELECT * FROM food_listings" [] w2)
     = Ok [].
Proof.
  destruct (fetch_df_memoises (list Food.t) listings_reader
              "SELECT * FROM food_listings" [] 0 [bread]
              (session_start acme_with_bread) eq_refl eq_refl) as [_ H].
  split.
  - exact (H (DELETE_food 1) 59).
  - exact (H (DELETE_food 1) 60).
Defined.

(** ** The sidebar's options and the filtered read *)

Lemma not_null_In (vals : list (option string)) (s : string) :
  In s (not_null vals) <-> In (Some s) vals.
Proof.
  unfold not_null. rewrite in_flat_map. split.
  - intros ([v|] & Hv & Hs); simpl in Hs; [| contradiction].
    destruct Hs as [<- | []]. exact Hv.
  - intros H. exists (Some s). split; [exact H | left; reflexivity].
Qed.

Lemma distinct_values_In (col : Food.t -> option string) (d : db) (s : string) :
  In s (distinct_values col d) <->
  exists f, In f (food_listings d) /\ col f = Some s.
Proof.
  unfold distinct_values.
  rewrite ORDER_BY_In, (distinct_In String.eqb String.eqb_eq), not_null_In,
    in_map_iff.
  split; intros (f & H1 & H2); exists f; auto.
Qed.

Lemma distinct_values_ordered (col : Food.t -> option string) (d : db) :
  NoDup (distinct_values col d)
  /\ StronglySorted (fun a b => (a <=? b)%string = true) (distinct_values col d).
Proof.
  unfold distinct_values. split.
  - apply (Permutation_NoDup (Permutation_sym (ORDER_BY_perm String.leb _))).
    apply distinct_NoDup, String.eqb_eq.
  - apply (ORDER_BY_sorted String.leb String.leb_total string_leb_trans).
Qed.

Lemma selected_one (s : string) (v : option string) :
  selected [s] v = true <-> v = Some s.
Proof.
  unfold selected. destruct v as [x|]; simpl; [| split; discriminate].
  rewrite orb_false_r, String.eqb_eq. split; congruence.
Qed.

Lemma selected_In (vals : list string) (v : option string) :
  selected vals v = true <->
  vals = [] \/ exists s, In s vals /\ v = Some s.
Proof.
  unfold selected. destruct vals as [|x t]; [tauto |].
  destruct v as [s|].
  - rewrite existsb_exists. split.
    + intros (y & Hy & E). apply String.eqb_eq in E. subst y.
      right. exists s. auto.
    + intros [H | (y & Hy & E)]; [discriminate |].
      injection E as ->. exists y. split; [exact Hy | apply String.eqb_refl].
  - split; [discriminate |]. intros [H | (y & _ & E)]; discriminate.
Qed.

Lemma selected_id_In (ids : list Z) (i : Z) :
  selected_id ids i = true <-> ids = [] \/ In i ids.
Proof.
  unfold selected_id. destruct ids as [|x t]; [tauto |].
  rewrite existsb_exists. split.
  - intros (y & Hy & E). apply Z.eqb_eq in E. subst y. auto.
  - intros [H | H]; [discriminate |]. exists i. split; [exact H | apply Z.eqb_refl].
Qed.

Lemma prov_ids_In (provider_list : list (Z * string)) (names : list string) (i : Z) :
  In i (prov_ids provider_list names) <->
  exists n, In (i, n) provider_list /\ In n names.
Proof.
  unfold prov_ids, isin. rewrite in_map_iff. split.
  - intros ([k n] & <- & H). apply filter_In in H. destruct H as [Hin Hn].
    apply existsb_exists in Hn. destruct Hn as (y & Hy & E).
    apply String.eqb_eq in E. simpl in E. subst y. exists n. auto.
  - intros (n & Hin & Hn). exists (i, n). split; [reflexivity |].
    apply filter_In. split; [exact Hin |].
    apply existsb_exists. exists n. split; [exact Hn | apply String.eqb_refl].
Qed.

(** X8.  For every selection in the sidebar, the dashboard's base read is
    prepared and bound by SQLite and returns, in ascending order of expiry
    date, exactly the listings that pass every dimension: the location is
    one of the cities selected, if any is; the food type and the meal type
    likewise; and, if the names selected resolve to any identity, the
    listing's provider has one of the selected names in the provider
    list. *)
Theorem filtered_read_members
  (city_filter provider_filter_name : list string)
  (provider_list : list (Z * string))
  (food_type_filter meal_type_filter : list string) (d : db) :
  exists rows,
    food_df (build_where city_filter provider_filter_name provider_list
                         food_type_filter meal_type_filter) d = Some rows
    /\ StronglySorted
         (fun a b => toordinal (Food.Expiry_Date a) <= toordinal (Food.Expiry_Date b))
         rows
    /\ forall f,
         In f rows <->
         In f (food_listings d)
         /\ (city_filter = []
             \/ exists c, In c city_filter /\ Food.Location f = Some c)
         /\ (prov_ids provider_list provider_filter_name = []
             \/ exists n, In (Food.Provider_ID f, n) provider_list
                          /\ In n provider_filter_name)
         /\ (food_type_filter = []
             \/ exists t, In t food_type_filter /\ Food.Food_Type f = Some t)
         /\ (meal_type_filter = []
             \/ exists t, In t meal_type_filter /\ Food.Meal_Type f = Some t).
Proof.
  eexists. split; [apply food_df_selection |]. split.
  - rewrite <- (map_id (ORDER_BY _ _)).
    apply StronglySorted_map with (R := fun a b => expiry_leb a b = true).
    + intros a b H. unfold expiry_leb in H. apply Z.leb_le in H. exact H.
    + apply ORDER_BY_sorted; [apply expiry_leb_total | apply expiry_leb_trans].
  - intros f.
    rewrite ORDER_BY_In, filter_In, !andb_true_iff, !selected_In,
      selected_id_In.
    setoid_rewrite prov_ids_In. tauto.
Qed.

(** X9.  The options of the City, Food Type and Meal Type boxes are the
    values the listings hold in the column, NULL left out, each once, in
    ascending order; and an option selected alone never gives an empty
    read: the base read returns exactly the listings holding that value,
    and there is one. *)
Theorem sidebar_options_match (d : db) (provider_list : list (Z * string)) :
  (forall c, In c (city_list d) <->
             exists f, In f (food_listings d) /\ Food.Location f = Some c)
  /\ (forall t, In t (food_type_list d) <->
                exists f, In f (food_listings d) /\ Food.Food_Type f = Some t)
  /\ (forall t, In t (meal_type_list d) <->
                exists f, In f (food_listings d) /\ Food.Meal_Type f = Some t)
  /\ NoDup (city_list d) /\ NoDup (food_type_list d) /\ NoDup (meal_type_list d)
  /\ StronglySorted (fun a b => (a <=? b)%string = true) (city_list d)
  /\ StronglySorted (fun a b => (a <=? b)%string = true) (food_type_list d)
  /\ StronglySorted (fun a b => (a <=? b)%string = true) (meal_type_list d)
  /\ (forall c, In c (city_list d) ->
        exists rows,
          food_df (build_where [c] [] provider_list [] []) d = Some rows
          /\ rows <> []
          /\ forall f, In f rows <->
                       In f (food_listings d) /\ Food.Location f = Some c)
  /\ (forall t, In t (food_type_list d) ->
        exists rows,
          food_df (build_where [] [] provider_list [t] []) d = Some rows
          /\ rows <> []
          /\ forall f, In f rows <->
                       In f (food_listings d) /\ Food.Food_Type f = Some t)
  /\ (forall t, In t (meal_type_list d) ->
        exists rows,
          food_df (build_where [] [] provider_list [] [t]) d = Some rows
          /\ rows <> []
          /\ forall f, In f rows <->
                       In f (food_listings d) /\ Food.Meal_Type f = Some t).
Proof.
  split; [apply distinct_values_In |].
  split; [apply distinct_values_In |].
  split; [apply distinct_values_In |].
  split; [apply distinct_values_ordered |].
  split; [apply distinct_values_ordered |].
  split; [apply distinct_values_ordered |].
  split; [apply distinct_values_ordered |].
  split; [apply distinct_values_ordered |].
  split; [apply distinct_values_ordered |].
  assert (Hone : forall (col : Food.t -> option string) v rows,
            (forall f, In f rows <-> In f (food_listings d) /\ col f = Some v) ->
            In v (distinct_values col d) -> rows <> []).
  { intros col v rows Hrows Hv E. apply distinct_values_In in Hv.
    destruct Hv as (f & Hf & Hc).
    assert (Hin : In f rows) by (apply Hrows; auto).
    rewrite E in Hin. contradiction. }
  split; [| split].
  - intros c Hc. eexists. split; [apply food_df_selection |].
    rewrite prov_ids_none.
    assert (Hrows : forall f,
              In f (ORDER_BY expiry_leb
                      (filter (fun f => selected [c] (Food.Location f)
                                        && selected_id [] (Food.Provider_ID f)
                                        && selected [] (Food.Food_Type f)
                                        && selected [] (Food.Meal_Type f))
                              (food_listings d))) <->
              In f (food_listings d) /\ Food.Location f = Some c).
    { intros f. rewrite ORDER_BY_In, filter_In.
      cbn [selected_id]. rewrite !andb_true_r, selected_one. tauto. }
    split; [exact (Hone Food.Location c _ Hrows Hc) | exact Hrows].
  - intros t Ht. eexists. split; [apply food_df_selection |].
    rewrite prov_ids_none.
    assert (Hrows : forall f,
              In f (ORDER_BY expiry_leb
                      (filter (fun f => selected [] (Food.Location f)
                                        && selected_id [] (Food.Provider_ID f)
                                        && selected [t] (Food.Food_Type f)
                                        && selected [] (Food.Meal_Type f))
                              (food_listings d))) <->
              In f (food_listings d) /\ Food.Food_Type f = Some t).
    { intros f. rewrite ORDER_BY_In, filter_In.
      cbn [selected_id]. change (selected [] (Food.Location f)) with true.
      change (selected [] (Food.Meal_Type f)) with true.
      rewrite !andb_true_r. cbn [andb]. rewrite selected_one. tauto. }
    split; [exact (Hone Food.Food_Type t _ Hrows Ht) | exact Hrows].
  - intros t Ht. eexists. split; [apply food_df_selection |].
    rewrite prov_ids_none.
    assert (Hrows : forall f,
              In f (ORDER_BY expiry_leb
                      (filter (fun f => selected [] (Food.Location f)
                                        && selected_id [] (Food.Provider_ID f)
                                        && selected [] (Food.Food_Type f)
                                        && selected [t] (Food.Meal_Type f))
                              (food_listings d))) <->
              In f (food_listings d) /\ Food.Meal_Type f = Some t).
    { intros f. rewrite ORDER_BY_In, filter_In.
      cbn [selected_id]. change (selected [] (Food.Location f)) with true.
      change (selected [] (Food.Food_Type f)) with true.
      cbn [andb]. rewrite selected_one. tauto. }
    split; [exact (Hone Food.Meal_Type t _ Hrows Ht) | exact Hrows].
Qed.

Lemma sidebar_options_match_witness :
  exists rows,
    food_df (build_where ["Springfield"] [] (provider_list_of two_providers) [] [])
            two_providers = Some rows
    /\ rows <> []
    /\ forall f, In f rows <->
                 In f (food_listings two_providers)
                 /\ Food.Location f = Some "Springfield".
Proof.
  destruct (sidebar_options_match two_providers (provider_list_of two_providers))
    as (_ & _ & _ & _ & _ & _ & _ & _ & _ & H & _).
  apply H. vm_compute. left. reflexivity.
Defined.

(** ** Grouped totals *)

Lemma SUM_perm (a b : list Z) : Permutation a b -> SUM a = SUM b.
Proof.
  unfold SUM. induction 1; simpl; lia.
Qed.

Lemma SUM_map_add {X : Type} (f g : X -> Z) (l : list X) :
  SUM (map (fun x => f x + g x) l) = SUM (map f l) + SUM (map g l).
Proof. unfold SUM. induction l as [|x t IH]; simpl; lia. Qed.

Lemma SUM_ones {X : Type} (l : list X) :
  SUM (map (fun _ => 1) l) = Z.of_nat (List.length l).
Proof.
  unfold SUM. induction l as [|x t IH]; [reflexivity |].
  cbn [map fold_right List.length]. rewrite IH, Nat2Z.inj_succ. lia.
Qed.

Section PartitionFacts.
Context {A K : Type} (eqb : K -> K -> bool).
Hypothesis eqb_eq : forall a b, eqb a b = true <-> a = b.

Lemma SUM_indicator (k0 : K) (v : Z) (ks : list K) :
  NoDup ks ->
  SUM (map (fun k => if eqb k0 k then v else 0) ks) =
  if existsb (eqb k0) ks then v else 0.
Proof.
  unfold SUM. induction 1 as [|k ks Hfresh Hnd IH]; simpl; [reflexivity |].
  rewrite IH. destruct (eqb k0 k) eqn:E; simpl; [| lia].
  apply eqb_eq in E. subst k.
  destruct (existsb (eqb k0) ks) eqn:Ex; [| lia].
  apply existsb_exists in Ex. destruct Ex as (k & Hk & E).
  apply eqb_eq in E. subst k. contradiction.
Qed.

(** The groups of a [GROUP BY] split the rows: what is summed group by
    group is what is summed over all rows. *)
Lemma GROUP_BY_SUM (key : A -> K) (q : A -> Z) (rows : list A) :
  SUM (map (fun g => SUM (map q (snd g))) (GROUP_BY eqb key rows)) =
  SUM (map q rows).
Proof.
  unfold GROUP_BY. rewrite map_map. cbn [snd].
  assert (Hgen : forall ks,
            NoDup ks -> (forall r, In r rows -> In (key r) ks) ->
            SUM (map (fun k => SUM (map q (filter (fun r => eqb (key r) k) rows))) ks)
            = SUM (map q rows)).
  { induction rows as [|x t IH]; intros ks Hnd Hall.
    - simpl. clear. unfold SUM. induction ks; simpl; lia.
    - rewrite (map_ext _ (fun k => (if eqb (key x) k then q x else 0)
                                   + SUM (map q (filter (fun r => eqb (key r) k) t)))).
      + rewrite SUM_map_add, (SUM_indicator (key x) (q x) ks Hnd), IH.
        * assert (E : existsb (eqb (key x)) ks = true).
          { apply existsb_exists. exists (key x).
            split; [apply Hall; left; reflexivity | apply eqb_eq; reflexivity]. }
          rewrite E. reflexivity.
        * exact Hnd.
        * intros r Hr. apply Hall. right. exact Hr.
      + intros k. cbn [filter]. destruct (eqb (key x) k); reflexivity. }
  apply Hgen.
  - apply distinct_NoDup, eqb_eq.
  - intros r Hr. apply (distinct_In eqb eqb_eq), in_map, Hr.
Qed.

End PartitionFacts.


Lemma total_desc_leb_total {X : Type} (a b : X * Z) :
  total_desc_leb a b = true \/ total_desc_leb b a = true.
Proof. unfold total_desc_leb. rewrite !Z.leb_le. lia. Qed.

Lemma total_desc_leb_trans {X : Type} (a b c : X * Z) :
  total_desc_leb a b = true -> total_desc_leb b c = true ->
  total_desc_leb a c = true.
Proof. unfold total_desc_leb. rewrite !Z.leb_le. lia. Qed.

Lemma total_desc_sorted {X : Type} (l : list (X * Z)) :
  StronglySorted (fun a b => snd b <= snd a) (ORDER_BY total_desc_leb l).
Proof.
  rewrite <- (map_id (ORDER_BY _ _)).
  apply StronglySorted_map with (R := fun a b => total_desc_leb a b = true).
  - intros a b H. unfold total_desc_leb in H. apply Z.leb_le in H. exact H.
  - apply (ORDER_BY_sorted total_desc_leb total_desc_leb_total total_desc_leb_trans).
Qed.



(** ** Rankings over a join on a key *)

Lemma filter_only {X : Type} (g : X -> bool) (l : list X) (p : X) :
  NoDup l -> In p l -> (forall x, In x l -> (g x = true <-> x = p)) ->
  filter g l = [p].
Proof.
  induction l as [|a l IH]; simpl; [tauto |].
  intros Hnd Hin Hg. inversion Hnd as [|? ? Hfresh Hrest]; subst.
  destruct Hin as [-> | Hin].
  - assert (E : g p = true) by (apply Hg; auto). rewrite E. f_equal.
    rewrite (filter_ext_in g (fun _ => false)); [apply filter_false |].
    intros x Hx. destruct (g x) eqn:Ex; [| reflexivity].
    apply Hg in Ex; [| auto]. subst x. contradiction.
  - assert (E : g a = false).
    { destruct (g a) eqn:Ea; [| reflexivity].
      apply Hg in Ea; [| auto]. subst a. contradiction. }
    rewrite E. apply IH; auto.
Qed.

Lemma filter_nothing {X : Type} (g : X -> bool) (l : list X) :
  (forall x, In x l -> g x = false) -> filter g l = [].
Proof.
  intros H. rewrite (filter_ext_in g (fun _ => false)) by exact H.
  apply filter_false.
Qed.

Lemma NoDup_of_map {X Y : Type} (f : X -> Y) (l : list X) :
  NoDup (map f l) -> NoDup l.
Proof.
  induction l as [|a l IH]; simpl; intros H; constructor;
    inversion H as [|? ? Hfresh Hrest]; subst.
  - intros Hin. apply Hfresh, in_map, Hin.
  - apply IH, Hrest.
Qed.

Section KeyJoinFacts.
Context {C P : Type}.
Variables (fk : C -> Z) (pid : P -> Z) (pkey : P -> Z * string).
Hypothesis pkey_id : forall p, fst (pkey p) = pid p.
Variables (children : list C) (parents : list P).
Hypothesis pid_key : NoDup (map pid parents).

Lemma partners_of_child (c : C) (p : P) :
  In p parents ->
  filter (fun p' => (fk c =? pid p') && key_eqb (pkey p') (pkey p)) parents =
  if fk c =? pid p then [p] else [].
Proof.
  intros Hp. destruct (Z.eqb_spec (fk c) (pid p)) as [E|E].
  - apply filter_only; [apply (NoDup_of_map pid), pid_key | exact Hp |].
    intros x Hx. rewrite andb_true_iff, Z.eqb_eq, key_eqb_eq. split.
    + intros [_ Hk]. apply (NoDup_map_same pid parents x p pid_key Hx Hp).
      rewrite <- !pkey_id, Hk. reflexivity.
    + intros ->. auto.
  - apply filter_nothing. intros x Hx.
    destruct (Z.eqb_spec (fk c) (pid x)) as [E1|E1]; [| reflexivity].
    destruct (key_eqb (pkey x) (pkey p)) eqn:Hk; [| reflexivity].
    apply key_eqb_eq in Hk. exfalso. apply E.
    rewrite E1, <- !pkey_id, Hk. reflexivity.
Qed.

(** The group of a parent holds its children, each once. *)
Lemma children_of_group (p : P) :
  In p parents ->
  map fst (filter (fun r => key_eqb (pkey (snd r)) (pkey p))
                  (JOIN (fun c p' => fk c =? pid p') children parents)) =
  filter (fun c => fk c =? pid p) children.
Proof.
  intros Hp. unfold JOIN.
  induction children as [|c cs IH]; [reflexivity |].
  cbn [flat_map filter]. rewrite filter_app, map_app, IH.
  assert (E : map fst (filter (fun r : C * P => key_eqb (pkey (snd r)) (pkey p))
                              (map (pair c) (filter (fun p' => fk c =? pid p') parents)))
              = map (fun _ => c)
                    (filter (fun p' => (fk c =? pid p') && key_eqb (pkey p') (pkey p))
                            parents)).
  { clear. induction parents as [|a l IHl]; [reflexivity |].
    cbn [filter]. destruct (fk c =? pid a); cbn [map filter snd andb].
    - destruct (key_eqb (pkey a) (pkey p)); cbn [map fst]; rewrite IHl;
        reflexivity.
    - exact IHl. }
  rewrite E, (partners_of_child c p Hp).
  destruct (fk c =? pid p); reflexivity.
Qed.
End KeyJoinFacts.






Lemma COUNT_all {X V : Type} (f : X -> V) (l : list X) :
  COUNT (map (fun x => Some (f x)) l) = Z.of_nat (List.length l).
Proof.
  unfold COUNT. f_equal. induction l as [|x t IH]; simpl; congruence.
Qed.

Lemma one_partner (receivers : list Receiver.t) (i : Z) :
  NoDup (map Receiver.Receiver_ID receivers) ->
  List.length (filter (fun r => i =? Receiver.Receiver_ID r) receivers) =
  if existsb (fun r => Receiver.Receiver_ID r =? i) receivers then 1%nat else 0%nat.
Proof.
  induction receivers as [|r rs IH]; simpl; [reflexivity |].
  intros Hnd. inversion Hnd as [|? ? Hfresh Hrest]; subst.
  rewrite (Z.eqb_sym (Receiver.Receiver_ID r) i).
  destruct (Z.eqb_spec i (Receiver.Receiver_ID r)) as [E|E]; simpl.
  - rewrite (IH Hrest).
    destruct (existsb (fun r0 => Receiver.Receiver_ID r0 =? i) rs) eqn:Ex;
      [| reflexivity].
    apply existsb_exists in Ex. destruct Ex as (r' & Hr' & E').
    apply Z.eqb_eq in E'. exfalso. apply Hfresh. rewrite <- E, <- E'.
    apply in_map, Hr'.
  - apply IH, Hrest.
Qed.

Lemma query8_In (d : db) (id : Z) (name : string) (n : Z) :
  NoDup (map Receiver.Receiver_ID (receivers d)) ->
  In (id, name, n) (query8 d) <->
  exists r, In r (receivers d) /\ receiver_key r = (id, name)
            /\ claims_of d r <> []
            /\ n = Z.of_nat (List.length (claims_of d r)).
Proof.
  intros Hpk. unfold query8. rewrite ORDER_BY_In, in_map_iff.
  assert (Hgroup : forall r, In r (receivers d) ->
            COUNT (map (fun x : Claim.t * Receiver.t => Some (Claim.Claim_ID (fst x)))
                     (filter (fun x => key_eqb (receiver_key (snd x)) (receiver_key r))
                             (JOIN (fun c r' => Claim.Receiver_ID c =? Receiver.Receiver_ID r')
                                   (claims d) (receivers d))))
            = Z.of_nat (List.length (claims_of d r))).
  { intros r Hr. unfold claims_of.
    rewrite <- (children_of_group Claim.Receiver_ID Receiver.Receiver_ID receiver_key
                  (fun _ => eq_refl) (claims d) (receivers d) Hpk r Hr).
    rewrite COUNT_all, length_map. reflexivity. }
  split.
  - intros ([k g] & E & Hg). injection E as -> <-.
    apply (GROUP_BY_In key_eqb key_eqb_eq) in Hg.
    destruct Hg as [([c r] & Hx & Hk) ->]. cbn [snd] in Hk.
    apply JOIN_In in Hx. destruct Hx as (Hc & Hr & Hon).
    exists r. split; [exact Hr |]. split; [exact Hk |]. split.
    + intros E. assert (Hin : In c (claims_of d r))
        by (unfold claims_of; apply filter_In; auto).
      rewrite E in Hin. contradiction.
    + rewrite <- Hk. apply Hgroup, Hr.
  - intros (r & Hr & Hk & Hown & ->).
    exists ((id, name),
            filter (fun x => key_eqb (receiver_key (snd x)) (id, name))
                   (JOIN (fun c r' => Claim.Receiver_ID c =? Receiver.Receiver_ID r')
                         (claims d) (receivers d))).
    split.
    + cbn [fst snd]. rewrite <- Hk, (Hgroup r Hr). reflexivity.
    + apply (GROUP_BY_In key_eqb key_eqb_eq). split; [| reflexivity].
      destruct (claims_of d r) as [|c cs] eqn:E; [congruence |].
      assert (Hc : In c (claims_of d r)) by (rewrite E; left; reflexivity).
      unfold claims_of in Hc. apply filter_In in Hc. destruct Hc as [Hc Hon].
      exists (c, r). split; [| exact Hk].
      apply JOIN_In. auto.
Qed.

(** X13.  Query 8, with [Receiver_ID] a key of the receivers table: its
    rows are the receivers that have made a claim, each with the number of
    its claims, at least one, by descending number; a receiver with no
    claim has no row; and the numbers add up to the claims whose receiver
    is in the table. *)
Theorem query8_claims_by_receiver (d : db) :
  NoDup (map Receiver.Receiver_ID (receivers d)) ->
  (forall id name n,
     In (id, name, n) (query8 d) <->
     exists r, In r (receivers d) /\ receiver_key r = (id, name)
               /\ claims_of d r <> []
               /\ n = Z.of_nat (List.length (claims_of d r)))
  /\ (forall row, In row (query8 d) -> 1 <= snd row)
  /\ SUM (map snd (query8 d)) =
     Z.of_nat (List.length
                 (filter (fun c => has_receiver d (Claim.Receiver_ID c)) (claims d)))
  /\ StronglySorted (fun a b => snd b <= snd a) (query8 d).
Proof.
  intros Hpk. split; [intros id name n; apply query8_In, Hpk |]. split; [| split].
  - intros [[id name] n] Hrow. apply (query8_In d id name n Hpk) in Hrow.
    destruct Hrow as (r & _ & _ & Hne & ->). cbn [snd].
    destruct (claims_of d r); [congruence |]. cbn [List.length]. lia.
  - unfold query8.
    rewrite (SUM_perm _ _ (Permutation_map snd (ORDER_BY_perm total_desc_leb _))).
    rewrite map_map. cbn [snd].
    rewrite (map_ext _ (fun g : Z * string * list (Claim.t * Receiver.t) =>
                          SUM (map (fun _ => 1) (snd g))))
      by (intros g; rewrite COUNT_all, SUM_ones; reflexivity).
    rewrite (GROUP_BY_SUM key_eqb key_eqb_eq), SUM_ones. f_equal.
    unfold JOIN, has_receiver.
    induction (claims d) as [|c cs IH]; [reflexivity |].
    cbn [flat_map filter]. rewrite length_app, length_map, IH, one_partner by exact Hpk.
    destruct (existsb (fun r => Receiver.Receiver_ID r =? Claim.Receiver_ID c)
                      (receivers d)); reflexivity.
  - apply total_desc_sorted.
Qed.

Lemma query8_claims_by_receiver_witness :
  NoDup (map Receiver.Receiver_ID (receivers two_providers))
  /\ query8 two_providers = [(1, "Shelter", 1)]
  /\ forall row, In row (query8 two_providers) -> 1 <= snd row.
Proof.
  split; [distinct_ids |]. split; [reflexivity |].
  apply (query8_claims_by_receiver two_providers). distinct_ids.
Defined.

(** ** The dashboard under a selection *)





(** ** Marks and parameters *)

Lemma count_char_app (c : ascii) (a b : string) :
  count_char c (a ++ b) = (count_char c a + count_char c b)%nat.
Proof. induction a as [|x a IH]; simpl; [reflexivity | rewrite IH; lia]. Qed.

Lemma count_char_placeholders {A : Type} (l : list A) :
  count_char "?" (placeholders l) = List.length l.
Proof.
  destruct l as [|x l]; [reflexivity |]. revert x.
  induction l as [|y l IH]; intros x; [reflexivity |].
  rewrite placeholders_cons, count_char_app, (IH y). reflexivity.
Qed.

Lemma count_char_free (c : ascii) (s : string) :
  free_of c s = true -> count_char c s = 0%nat.
Proof.
  induction s as [|a s IH]; simpl; [reflexivity |].
  intros H. apply andb_true_iff in H. destruct H as [Ha Hs].
  apply negb_true_iff in Ha. rewrite Ha, (IH Hs). reflexivity.
Qed.

Lemma count_char_clause (c : string * list sqlval) :
  free_of "?" (fst c) = true ->
  count_char "?" (clause_text c) = List.length (snd c).
Proof.
  intros H. unfold clause_text.
  rewrite !count_char_app, count_char_placeholders, (count_char_free _ _ H).
  simpl. lia.
Qed.

Lemma count_char_where_text (l : list (string * list sqlval)) :
  forallb (fun c => free_of "?" (fst c)) l = true ->
  count_char "?" (where_text l) = List.length (flat_map snd l).
Proof.
  unfold where_text. destruct l as [|c rest]; [reflexivity |].
  cbn [truthy]. intros H.
  change (count_char "?" ("WHERE " ++ String.concat " AND " (map clause_text (c :: rest))))
    with (count_char "?" (String.concat " AND " (map clause_text (c :: rest)))).
  revert c H. induction rest as [|c' rest IH]; intros c H.
  - cbn [forallb] in H. rewrite andb_true_r in H.
    cbn [map String.concat flat_map]. rewrite app_nil_r.
    apply count_char_clause, H.
  - cbn [forallb] in H. apply andb_true_iff in H. destruct H as [Hc Hrest].
    change (String.concat " AND " (map clause_text (c :: c' :: rest)))
      with (clause_text c ++ " AND " ++
            String.concat " AND " (map clause_text (c' :: rest))).
    rewrite !count_char_app, (count_char_clause c Hc), (IH c' Hrest).
    cbn [flat_map]. rewrite !length_app. simpl. lia.
Qed.

Lemma build_where_marks
  (city_filter provider_filter_name : list string)
  (provider_list : list (Z * string))
  (food_type_filter meal_type_filter : list string) :
  let q := build_where city_filter provider_filter_name provider_list
                       food_type_filter meal_type_filter in
  count_char "?" (fst q) = List.length (snd q).
Proof.
  intros q. subst q. rewrite build_where_selection. cbn [fst snd].
  apply count_char_where_text. apply forallb_filter. reflexivity.
Qed.

(** X15.  Under every selection, each of the six dashboard reads that
    carry the predicate is sent with as many parameters as its text has
    question marks, the text of the expiring-soon count included, with the
    predicate stitched in by AND or absent. *)
Theorem dashboard_bindings_match
  (city_filter provider_filter_name : list string)
  (provider_list : list (Z * string))
  (food_type_filter meal_type_filter : list string) :
  Forall (fun query => count_char "?" (fst query) = List.length (snd query))
         (dashboard_queries
            (build_where city_filter provider_filter_name provider_list
                         food_type_filter meal_type_filter)).
Proof.
  pose proof (build_where_marks city_filter provider_filter_name provider_list
                food_type_filter meal_type_filter) as H.
  cbv zeta in H.
  set (q := build_where _ _ _ _ _) in *.
  unfold dashboard_queries.
  repeat constructor; cbn [fst snd].
  - unfold total_qty_sql. rewrite count_char_app, H. reflexivity.
  - unfold expiring_3_query. destruct (nonblank (fst q)); cbn [fst snd].
    + rewrite !count_char_app, H. simpl. lia.
    + reflexivity.
  - unfold food_df_sql. rewrite !count_char_app, H. simpl. lia.
  - unfold by_city_sql. rewrite !count_char_app, H. simpl. lia.
  - unfold by_type_sql. rewrite !count_char_app, H. simpl. lia.
  - unfold trend_sql. rewrite !count_char_app, H. simpl. lia.
Qed.

(** ** Updating a quantity *)

(** X16.  Update Quantity always commits; it sets the quantity of the
    listing with the given identity and nothing else: every listing keeps
    its stored category and days to expiry, so a listing whose new quantity
    falls in another category is left with a category that is not the one
    of its quantity. *)
Theorem update_quantity_keeps_category (DataFrame : Type) (new_qty fid : Z)
  (w : world DataFrame) :
  let r := update_quantity new_qty fid w in
  fst r = Ok tt
  /\ food_listings (database (snd r)) =
     map (fun f => if Food.Food_ID f =? fid then set_quantity new_qty f else f)
         (food_listings (database w))
  /\ map Food.Quantity_Category (food_listings (database (snd r))) =
     map Food.Quantity_Category (food_listings (database w))
  /\ map Food.Days_To_Expiry (food_listings (database (snd r))) =
     map Food.Days_To_Expiry (food_listings (database w))
  /\ (forall f, In f (food_listings (database w)) -> Food.Food_ID f = fid ->
        Food.Quantity_Category f <> qty_cat new_qty ->
        exists f', In f' (food_listings (database (snd r)))
                   /\ Food.Food_ID f' = fid
                   /\ Food.Quantity f' = new_qty
                   /\ Food.Quantity_Category f' <> qty_cat (Food.Quantity f')).
Proof.
  intros r. subst r.
  assert (Hrows : food_listings (database (snd (update_quantity new_qty fid w))) =
                  map (fun f => if Food.Food_ID f =? fid
                                then set_quantity new_qty f else f)
                      (food_listings (database w))
                  /\ fst (update_quantity new_qty fid w) = Ok tt).
  { run_python. unfold execute. destruct (conn w); simpl; split; reflexivity. }
  destruct Hrows as [Hrows Hok].
  split; [exact Hok |]. split; [exact Hrows |]. rewrite Hrows.
  split; [| split].
  - rewrite map_map. apply map_ext. intros f.
    destruct (Food.Food_ID f =? fid); reflexivity.
  - rewrite map_map. apply map_ext. intros f.
    destruct (Food.Food_ID f =? fid); reflexivity.
  - intros f Hf Hid Hcat. exists (set_quantity new_qty f).
    split; [| repeat split; assumption].
    apply in_map_iff. exists f. split; [| exact Hf].
    apply Z.eqb_eq in Hid. rewrite Hid. reflexivity.
Qed.

Lemma update_quantity_keeps_category_witness :
  exists f',
    In f' (food_listings
             (database (snd (update_quantity (DataFrame := unit) 25 1
                               (session_start acme_with_bread)))))
    /\ Food.Food_ID f' = 1
    /\ Food.Quantity f' = 25
    /\ Food.Quantity_Category f' <> qty_cat (Food.Quantity f').
Proof.
  destruct (update_quantity_keeps_category unit 25 1 (session_start acme_with_bread))
    as (_ & _ & _ & _ & H).
  apply (H bread); [left; reflexivity | reflexivity | discriminate].
Defined.

(** ** The city chart's slider *)

(** X17.  The slider of the city chart, drawn when the chart has at least
    one city: its default lies between its least and greatest value
    exactly when there are five cities or more, and then every position of
    it, from 5 to at most 25 and at most the number of cities, shows that
    many bars; with one to four cities the greatest value is below the
    least. *)
Theorem top_n_slider_bounds {A : Type} (by_city : list A) :
  let n := Z.of_nat (List.length by_city) in
  let lo := fst (fst (top_n_slider n)) in
  let hi := snd (fst (top_n_slider n)) in
  let default := snd (top_n_slider n) in
  (lo <= default <= hi <-> 5 <= n)
  /\ (n < 5 -> hi < lo /\ default < lo)
  /\ (forall topn, lo <= topn <= hi ->
        5 <= topn <= 25
        /\ List.length (head topn by_city) = Z.to_nat topn).
Proof.
  intros n lo hi default. subst lo hi default. unfold top_n_slider. cbn [fst snd].
  split; [lia |]. split; [lia |].
  intros topn H. split; [lia |].
  unfold head. apply firstn_length_le. subst n. lia.
Qed.

(** ** The provider directory *)

Lemma city_name_leb_total (a b : Provider.t) :
  city_name_leb a b = true \/ city_name_leb b a = true.
Proof.
  unfold city_name_leb. rewrite (String.eqb_sym (Provider.City b)).
  destruct (Provider.City a =? Provider.City b)%string; apply String.leb_total.
Qed.

Lemma city_name_leb_trans (a b c : Provider.t) :
  city_name_leb a b = true -> city_name_leb b c = true ->
  city_name_leb a c = true.
Proof.
  unfold city_name_leb.
  destruct (String.eqb_spec (Provider.City a) (Provider.City b)) as [Eab|Eab];
    destruct (String.eqb_spec (Provider.City b) (Provider.City c)) as [Ebc|Ebc];
    destruct (String.eqb_spec (Provider.City a) (Provider.City c)) as [Eac|Eac];
    intros H1 H2; try congruence;
    try exact (string_leb_trans _ _ _ H1 H2).
  exfalso. apply Eab. apply String.leb_antisym; [exact H1 |].
  rewrite Eac. exact H2.
Qed.

(** X18.  The provider directory: under "All" it lists every provider, by
    city and then name; under any other pick it lists exactly the providers
    of that city, by name.  The picks offered are the locations of the
    food listings, so a provider in a city where no listing is located is
    listed under no pick but "All". *)
Theorem directory_by_city (d : db) :
  Permutation (directory "All" d) (providers d)
  /\ StronglySorted (fun a b => city_name_leb a b = true) (directory "All" d)
  /\ (forall pick, pick <> "All" ->
        (forall p, In p (directory pick d) <->
                   In p (providers d) /\ Provider.City p = pick)
        /\ StronglySorted
             (fun a b => (Provider.Name a <=? Provider.Name b)%string = true)
             (directory pick d))
  /\ (forall p pick,
        (forall f, In f (food_listings d) ->
                   Food.Location f <> Some (Provider.City p)) ->
        In pick (directory_options d) -> pick <> "All" ->
        ~ In p (directory pick d)).
Proof.
  assert (Hpick : forall pick, pick <> "All" ->
            directory pick d =
            ORDER_BY provider_name_leb
              (filter (fun p => (Provider.City p =? pick)%string) (providers d))).
  { intros pick Hne. unfold directory.
    destruct (String.eqb_spec pick "All"); [contradiction | reflexivity]. }
  assert (Hmember : forall pick p, pick <> "All" ->
            (In p (directory pick d) <->
             In p (providers d) /\ Provider.City p = pick)).
  { intros pick p Hne. rewrite (Hpick pick Hne), ORDER_BY_In, filter_In,
      String.eqb_eq. tauto. }
  split; [apply ORDER_BY_perm |]. split.
  { apply (ORDER_BY_sorted city_name_leb city_name_leb_total city_name_leb_trans). }
  split.
  - intros pick Hne. split; [intros p; apply Hmember, Hne |].
    rewrite (Hpick pick Hne).
    apply (ORDER_BY_sorted provider_name_leb).
    + intros a b. apply String.leb_total.
    + intros a b c. apply string_leb_trans.
  - intros p pick Hnone Hopt Hne Hin.
    apply (Hmember pick p Hne) in Hin. destruct Hin as [_ Hcity].
    destruct Hopt as [E | Hopt]; [congruence |].
    apply distinct_values_In in Hopt. destruct Hopt as (f & Hf & Hloc).
    apply (Hnone f Hf). congruence.
Qed.

Lemma directory_by_city_witness :
  In corner_cafe (directory "Springfield" two_providers)
  /\ ~ In corner_cafe (directory "Shelbyville" two_providers).
Proof.
  destruct (directory_by_city two_providers) as (_ & _ & H & _).
  split.
  - apply (H "Springfield"); [discriminate |].
    split; [right; left; reflexivity | reflexivity].
  - intros Hin. apply (H "Shelbyville") in Hin; [| discriminate].
    destruct Hin as [_ E]. discriminate.
Defined.

(** ** Contact cards *)




(** ** The filtered table with provider contacts *)

Lemma key_matches_once {X : Type} (pid : X -> Z) (i : Z) (l : list X) :
  NoDup (map pid l) ->
  (List.length (filter (fun x => (i =? pid x)%Z) l) <= 1)%nat.
Proof.
  induction l as [|x l IH]; simpl; [lia |].
  intros Hnd. inversion Hnd as [|? ? Hfresh Hrest]; subst.
  destruct (Z.eqb_spec i (pid x)) as [E|E]; [| apply IH, Hrest].
  rewrite filter_nothing; [simpl; lia |].
  intros y Hy. apply Z.eqb_neq. intros E'. apply Hfresh.
  rewrite <- E, E'. apply in_map, Hy.
Qed.

Lemma pad_rows {X Y : Type} (a : X) (ms : list Y) :
  (1 <= List.length (pad a ms))%nat
  /\ ((List.length ms <= 1)%nat -> map fst (pad a ms) = [a]).
Proof.
  destruct ms as [|m [|m' ms]]; simpl; split; try lia; reflexivity.
Qed.

(** X20.  The table shown on the dashboard, the filtered listings merged
    on the left with the providers' columns: no listing is lost, every row
    carries either the columns of a provider with the listing's
    [Provider_ID] or, when no provider has it, none (the listing of a
    deleted provider is shown with its contact missing); and when
    [Provider_ID] is a key of the providers table the rows are the
    filtered listings themselves, one each, in their order. *)
Theorem merged_table_rows (food_df : list Food.t) (d : db) :
  let table := merge_left food_df (prov_df d) in
  (List.length food_df <= List.length table)%nat
  /\ (forall f, In f food_df -> exists o, In (f, o) table)
  /\ (forall f o, In (f, o) table ->
        In f food_df
        /\ match o with
           | Some pr => exists p, In p (providers d) /\ pr = prov_columns p
                                  /\ Provider.Provider_ID p = Food.Provider_ID f
           | None => has_provider d (Food.Provider_ID f) = false
           end)
  /\ (NoDup (map Provider.Provider_ID (providers d)) ->
      map fst table = food_df).
Proof.
  cbv zeta. unfold merge_left, prov_df. split; [| split; [| split]].
  - unfold LEFT_JOIN. induction food_df as [|f fs IH]; simpl; [lia |].
    rewrite length_app.
    pose proof (proj1 (pad_rows f
      (filter (fun pr => Food.Provider_ID f =? pr_Provider_ID pr)
              (map prov_columns (providers d))))). lia.
  - intros f Hf. apply LEFT_JOIN_keeps, Hf.
  - intros f o H. apply LEFT_JOIN_In in H. destruct H as [Hf Ho].
    split; [exact Hf |]. destruct o as [pr|].
    + destruct Ho as [Hpr E]. apply in_map_iff in Hpr.
      destruct Hpr as (p & <- & Hp). exists p.
      apply Z.eqb_eq in E. simpl in E. auto.
    + unfold has_provider. destruct (existsb _ (providers d)) eqn:Ex;
        [| reflexivity].
      apply existsb_exists in Ex. destruct Ex as (p & Hp & E).
      specialize (Ho (prov_columns p) (in_map _ _ _ Hp)). simpl in Ho.
      rewrite Z.eqb_sym in Ho. congruence.
  - intros Hkey. unfold LEFT_JOIN.
    induction food_df as [|f fs IH]; simpl; [reflexivity |].
    rewrite map_app, IH.
    rewrite (proj2 (pad_rows f _)); [reflexivity |].
    apply (key_matches_once pr_Provider_ID).
    rewrite map_map. simpl. exact Hkey.
Qed.

Lemma merged_table_rows_witness :
  map fst (merge_left [bread; milk] (prov_df two_providers)) = [bread; milk].
Proof.
  apply (merged_table_rows [bread; milk] two_providers).
  unfold two_providers, acme, corner_cafe. simpl.
  repeat constructor; simpl; intuition discriminate.
Defined.

(** ** The claims offered for update and for deletion *)

(** X21.  The Claim box of Update Status offers a claim once for each pair
    of a listing and a receiver that bear its [Food_ID] and [Receiver_ID],
    and the handler reads from each label the identity of its claim; the
    Claim ID box of Delete Claim offers every claim.  Delete Food Listing
    on a fresh session commits and leaves the claims table as it was: the
    claims on the deleted listing are still offered for deletion, and none
    of them is offered for a status update any more. *)
Theorem orphaned_claims_not_updatable (DataFrame : Type) (d : db) (fid : Z) :
  (forall c f r,
     In (c, f, r) (cls d) <->
     In c (claims d) /\ In f (food_listings d) /\ In r (receivers d)
     /\ Food.Food_ID f = Claim.Food_ID c
     /\ Receiver.Receiver_ID r = Claim.Receiver_ID c)
  /\ map label_id (rowlbl d) =
     map (fun row => Some (Claim.Claim_ID (fst (fst row)))) (cls d)
  /\ (forall c, In c (claims d) -> In (Claim.Claim_ID c) (delete_claim_options d))
  /\ let r := delete_food (DataFrame := DataFrame) fid (session_start d) in
     fst r = Ok tt
     /\ page (snd r) = [success "Food listing deleted."]
     /\ claims (database (snd r)) = claims d
     /\ (forall c, In c (claims d) -> Claim.Food_ID c = fid ->
           In (Claim.Claim_ID c) (delete_claim_options (database (snd r))))
     /\ (forall c f rc, In (c, f, rc) (cls (database (snd r))) ->
           Claim.Food_ID c <> fid).
Proof.
  assert (Hcls : forall d0 c f r,
     In (c, f, r) (cls d0) <->
     In c (claims d0) /\ In f (food_listings d0) /\ In r (receivers d0)
     /\ Food.Food_ID f = Claim.Food_ID c
     /\ Receiver.Receiver_ID r = Claim.Receiver_ID c).
  { intros d0 c f r. unfold cls. rewrite ORDER_BY_In, JOIN_In, JOIN_In.
    simpl. rewrite !Z.eqb_eq. intuition congruence. }
  assert (Hdel : forall d0 c, In c (claims d0) ->
                              In (Claim.Claim_ID c) (delete_claim_options d0)).
  { intros d0 c Hc. unfold delete_claim_options. apply in_map.
    apply ORDER_BY_In, Hc. }
  split; [apply Hcls |]. split; [| split; [apply Hdel |]].
  - unfold rowlbl. rewrite map_map. apply map_ext. intros [[c f] r]. simpl.
    unfold claim_label. apply label_id_head.
  - assert (E : delete_food (DataFrame := DataFrame) fid (session_start d) =
                (Ok tt,
                 {| database :=
                      with_food_listings d
                        (filter (fun f => negb (Food.Food_ID f =? fid))
                                (food_listings d));
                    journal := [DELETE_food fid];
                    conn := Some sqlite3_connect;
                    cache_data := [];
                    page := [success "Food listing deleted."] |})).
    { run_python. unfold execute. simpl. reflexivity. }
    cbv zeta. rewrite E. cbn [fst snd database page].
    split; [reflexivity |]. split; [reflexivity |].
    split; [destruct d; reflexivity |].
    split.
    + intros c Hc _. apply Hdel. destruct d; exact Hc.
    + intros c f rc H. apply Hcls in H.
      destruct H as (_ & Hf & _ & Eid & _).
      destruct d as [ps rs fs cs]. simpl in Hf.
      apply filter_In in Hf. destruct Hf as [_ Hne].
      apply negb_true_iff, Z.eqb_neq in Hne. congruence.
Qed.

(** ** Queries 9, 10 and 14 together *)

(** X22.  Queries 14 and 9 agree: a provider of the table is returned by
    Query 14 exactly when every listing with its [Provider_ID] has a row in
    Query 9, the unclaimed listings; so a provider left out of Query 14
    owns a listing that Query 9 does not show. *)
Theorem query14_agrees_with_query9 (d : db) (p : Provider.t) :
  In p (providers d) ->
  (In (provider_key p) (query14 d) <->
   forall f, In f (food_listings d) ->
             Food.Provider_ID f = Provider.Provider_ID p ->
             In f (unclaimed d) /\ In (unclaimed_columns f) (query9 d))
  /\ (~ In (provider_key p) (query14 d) ->
      exists f, In f (owned d p)
                /\ ~ In (unclaimed_columns f) (query9 d)).
Proof.
  intros Hp.
  assert (Hrow : forall f, In f (food_listings d) ->
            (In (unclaimed_columns f) (query9 d) <-> In f (unclaimed d))).
  { intros f Hf. unfold query9. split.
    - intros H. apply in_map_iff in H. destruct H as (g & Eg & Hg).
      apply unclaimed_In in Hg. destruct Hg as [_ Hg].
      apply unclaimed_In. split; [exact Hf |].
      intros c Hc. replace (Food.Food_ID f) with (Food.Food_ID g).
      + apply Hg, Hc.
      + change (u_Food_ID (unclaimed_columns g) = u_Food_ID (unclaimed_columns f)).
        rewrite Eg. reflexivity.
    - apply in_map. }
  assert (Hiff : In (provider_key p) (query14 d) <->
                 forall f, In f (food_listings d) ->
                           Food.Provider_ID f = Provider.Provider_ID p ->
                           In f (unclaimed d)).
  { unfold provider_key. rewrite query14_member. split.
    - intros [_ Hnone] f Hf Hid. apply unclaimed_In. split; [exact Hf |].
      intros c Hc. apply (Hnone f c Hf Hc Hid).
    - intros H. split; [exists p; auto |].
      intros f c Hf Hc Hid. destruct (proj1 (unclaimed_In d f) (H f Hf Hid)) as [_ Hn].
      apply Hn, Hc. }
  split.
  - rewrite Hiff. split.
    + intros H f Hf Hid. split; [| apply Hrow; [exact Hf |]]; apply H; assumption.
    + intros H f Hf Hid. apply (H f Hf Hid).
  - intros Hout. unfold owned.
    assert (Hex : existsb (fun f => (Food.Provider_ID f =? Provider.Provider_ID p)
                                    && is_claimed d (Food.Food_ID f))
                          (food_listings d) = true).
    { destruct (existsb _ (food_listings d)) eqn:Ex; [reflexivity |].
      exfalso. apply Hout, Hiff. intros f Hf Hid. apply unclaimed_In.
      split; [exact Hf |]. intros c Hc E.
      apply (proj2 (not_true_iff_false _) Ex). apply existsb_exists. exists f. split; [exact Hf |].
      apply andb_true_iff. split; [apply Z.eqb_eq, Hid |].
      unfold is_claimed. apply existsb_exists. exists c.
      split; [exact Hc | apply Z.eqb_eq, E]. }
    apply existsb_exists in Hex. destruct Hex as (f & Hf & Hb).
    apply andb_true_iff in Hb. destruct Hb as [Hid Hcl].
    exists f. split.
    + apply filter_In. split; [exact Hf |]. rewrite Z.eqb_sym. exact Hid.
    + intros Hin. apply Hrow in Hin; [| exact Hf].
      apply unclaimed_In in Hin. destruct Hin as [_ Hn].
      unfold is_claimed in Hcl. apply existsb_exists in Hcl.
      destruct Hcl as (c & Hc & E). apply Z.eqb_eq in E. apply (Hn c Hc E).
Qed.

Lemma query14_agrees_with_query9_witness :
  exists f, In f (owned two_providers acme)
            /\ ~ In (unclaimed_columns f) (query9 two_providers).
Proof.
  apply (proj2 (query14_agrees_with_query9 two_providers acme
                  (or_introl eq_refl))).
  vm_compute. intros [H | []]. discriminate H.
Defined.
